(** * Deployment lineage table: the correlation and upsert engine

    A shallow embedding of the deployment-table module of spk
    (the file that exports [addSrcToACRPipeline],
    [updateACRToHLDPipeline], [updateHLDToManifestPipeline],
    [updateManifestCommitId] and [getRowKey]) and the properties its
    specification states about it.

    The table is a list of rows in the order a query returns them,
    together with the log of the calls made on the table service. Every
    resolver is a computation over that table which settles to a row or
    to an error. The UUID that [getRowKey] draws is an argument of the
    resolver that draws it.

    Layout: JavaScript string helpers, the row and table model, the
    storage client, the RowKey generator, the three stage resolvers and
    the manifest-commit finalizer, the predicates of the specification
    and some runs on small tables; the callers of the resolvers (the
    create command, the configuration check and self-test of the
    validate command) and the answer file of the setup prompt; then the
    properties, in the same order. *)

From Stdlib Require Import String Ascii List Bool Arith Lia DecimalString.
Import ListNotations.
Local Open Scope list_scope.
Local Open Scope string_scope.

(** ** JavaScript string helpers *)

Module Js.

(** [String.prototype.toLowerCase], on the ASCII range: the letters
    [A]..[Z] are moved to [a]..[z] and every other byte is kept. *)
Definition lowerChar (c : ascii) : ascii :=
  let n := nat_of_ascii c in
  if ((65 <=? n) && (n <=? 90))%nat then ascii_of_nat (n + 32) else c.

Fixpoint toLowerCase (s : string) : string :=
  match s with
  | EmptyString => EmptyString
  | String c r => String (lowerChar c) (toLowerCase r)
  end.

(** A string is lower-case when lower-casing leaves it as it is. *)
Definition isLowerCase (s : string) : bool := String.eqb (toLowerCase s) s.

Fixpoint drop (n : nat) (s : string) : string :=
  match n, s with
  | O, _ => s
  | S _, EmptyString => EmptyString
  | S k, String _ r => drop k r
  end.

(** [s.startsWith(pat)] *)
Fixpoint startsWith (pat s : string) : bool :=
  match pat, s with
  | EmptyString, _ => true
  | String _ _, EmptyString => false
  | String a pat', String b s' => Ascii.eqb a b && startsWith pat' s'
  end.

(** [s.replace(pat, rep)] with a string pattern: only the first
    occurrence of [pat] is replaced. *)
Fixpoint replace (pat rep s : string) : string :=
  if startsWith pat s then rep ++ drop (String.length pat) s
  else match s with
       | EmptyString => EmptyString
       | String c r => String c (replace pat rep r)
       end.

(** [s.substring(0, n)]. *)
Definition substring0 (n : nat) (s : string) : string := String.substring 0 n s.

(** Truthiness of an optional string argument: [undefined] and the
    empty string are falsy. *)
Definition truthy (o : option string) : bool :=
  match o with
  | Some (String _ _) => true
  | _ => false
  end.

Definition isHexDigit (c : ascii) : bool :=
  let n := nat_of_ascii c in
  (((48 <=? n) && (n <=? 57)) || ((97 <=? n) && (n <=? 102))
   || ((65 <=? n) && (n <=? 70)))%nat.

Fixpoint allHex (s : string) : bool :=
  match s with
  | EmptyString => true
  | String c r => isHexDigit c && allHex r
  end.

Fixpoint hasChar (d : ascii) (s : string) : bool :=
  match s with
  | EmptyString => false
  | String c r => Ascii.eqb c d || hasChar d r
  end.

End Js.

(** ** Rows and the table *)

(** [DeploymentTable]: where the rows of one deployment channel live. *)
Record DeploymentTable := mkDeploymentTable {
  accountName : string;
  accountKey : string;
  tableName : string;
  partitionKey : string
}.

(** One stored entity. The interfaces [RowSrcToACRPipeline],
    [RowACRToHLDPipeline], [RowHLDToManifestPipeline] and [RowManifest]
    extend one another; the table holds rows of all of them, so the
    properties that only the later interfaces have are optional here.
    A property that is [None] is absent from the entity. *)
Record Row := mkRow {
  PartitionKey : string;
  RowKey : string;
  commitId : string;
  imageTag : string;
  p1 : string;
  service : string;
  sourceRepo : option string;
  p2 : option string;
  hldCommitId : option string;
  env : option string;
  pr : option string;
  hldRepo : option string;
  p3 : option string;
  manifestCommitId : option string;
  manifestRepo : option string
}.

(** Assignments to a property of an entity read from the table. *)
Definition set_manifestCommitId (v : string) (e : Row) : Row :=
  mkRow (PartitionKey e) (RowKey e) (commitId e) (imageTag e) (p1 e)
        (service e) (sourceRepo e) (p2 e) (hldCommitId e) (env e) (pr e)
        (hldRepo e) (p3 e) (Some v) (manifestRepo e).

Definition set_manifestRepo (v : string) (e : Row) : Row :=
  mkRow (PartitionKey e) (RowKey e) (commitId e) (imageTag e) (p1 e)
        (service e) (sourceRepo e) (p2 e) (hldCommitId e) (env e) (pr e)
        (hldRepo e) (p3 e) (manifestCommitId e) (Some v).

(** The property of a row named by a filter name. *)
Definition getField (name : string) (e : Row) : option string :=
  if String.eqb name "PartitionKey" then Some (PartitionKey e)
  else if String.eqb name "RowKey" then Some (RowKey e)
  else if String.eqb name "commitId" then Some (commitId e)
  else if String.eqb name "imageTag" then Some (imageTag e)
  else if String.eqb name "p1" then Some (p1 e)
  else if String.eqb name "service" then Some (service e)
  else if String.eqb name "sourceRepo" then sourceRepo e
  else if String.eqb name "p2" then p2 e
  else if String.eqb name "hldCommitId" then hldCommitId e
  else if String.eqb name "env" then env e
  else if String.eqb name "pr" then pr e
  else if String.eqb name "hldRepo" then hldRepo e
  else if String.eqb name "p3" then p3 e
  else if String.eqb name "manifestCommitId" then manifestCommitId e
  else if String.eqb name "manifestRepo" then manifestRepo e
  else None.

Definition optEqb (a b : option string) : bool :=
  match a, b with
  | Some x, Some y => String.eqb x y
  | None, None => true
  | _, _ => false
  end.

(** The entity with a given partition key and row key. *)
Definition keyIs (pk rk : string) (e : Row) : bool :=
  String.eqb (PartitionKey e) pk && String.eqb (RowKey e) rk.

(** Two rows name the same entity when partition and row key agree. *)
Definition sameKey (a b : Row) : bool := keyIs (PartitionKey a) (RowKey a) b.

Definition keyInUse (pk rk : string) (l : list Row) : bool := existsb (keyIs pk rk) l.

(** The calls made on the table service, in the order they were made. *)
Inductive StoreCall :=
| QueryEntities (filterName filterValue : string)
| InsertEntity (e : Row)
| ReplaceEntity (e : Row).

Definition isWrite (c : StoreCall) : bool :=
  match c with
  | QueryEntities _ _ => false
  | InsertEntity _ | ReplaceEntity _ => true
  end.

(** The table: its entities in the order a query returns them, and the
    log of the calls made on it. *)
Record Table := mkTable {
  rows : list Row;
  calls : list StoreCall
}.

Definition writes (t : Table) : nat := List.length (filter isWrite (calls t)).

(** ** Failing computations over the table *)

Inductive Error :=
| StoreWriteError          (* insertEntity or replaceEntity reported an error *)
| NoCorrelationFoundError  (* "No manifest generation found to update manifest commit ..." *)
| TypeError.               (* a property of undefined was read *)

Inductive Result (A : Type) :=
| Ok (a : A)
| Err (e : Error).
Arguments Ok {A} a.
Arguments Err {A} e.

(** A promise over the table: it settles to a value or an error and
    leaves the table in some state either way. *)
Definition M (A : Type) : Type := Table -> Result A * Table.

Definition ret {A} (a : A) : M A := fun t => (Ok a, t).
Definition throw {A} (e : Error) : M A := fun t => (Err e, t).
Definition bind {A B} (m : M A) (k : A -> M B) : M B :=
  fun t => match m t with
           | (Ok a, t') => k a t'
           | (Err e, t') => (Err e, t')
           end.

Notation "x <- m ;; k" := (bind m (fun x => k))
  (at level 61, m at next level, right associativity).
Notation "m ;;; k" := (bind m (fun _ => k))
  (at level 61, right associativity).

(** ** The storage client *)

Definition logCall (c : StoreCall) (t : Table) : Table :=
  mkTable (rows t) (calls t ++ [c]).

Definition hasKey (e : Row) (l : list Row) : bool :=
  keyInUse (PartitionKey e) (RowKey e) l.

(** The filter [PartitionKey eq '...' and filterName eq 'filterValue']
    on one row, and the rows of a list it selects. *)
Definition selects (tableInfo : DeploymentTable) (filterName filterValue : string)
    (e : Row) : bool :=
  String.eqb (PartitionKey e) (partitionKey tableInfo)
  && optEqb (getField filterName e) (Some filterValue).

Definition matching (tableInfo : DeploymentTable) (filterName filterValue : string)
    (l : list Row) : list Row :=
  filter (selects tableInfo filterName filterValue) l.

(** The table after the entity stored under the key of [entry] is replaced. *)
Definition replaceRow (entry : Row) (l : list Row) : list Row :=
  map (fun e => if sameKey entry e then entry else e) l.

(** Modelled from the spec: the table service itself is an external
    client; a query returns the rows of the partition whose named
    property equals the value, in the table's own order. The source
    rejects with whatever error the service reports; a service that is
    out of reach or refuses the account is not modelled, so a query here
    is always answered. *)
Definition findMatchingDeployments (tableInfo : DeploymentTable)
    (filterName filterValue : string) : M (list Row) :=
  fun t =>
    (Ok (matching tableInfo filterName filterValue (rows t)),
     logCall (QueryEntities filterName filterValue) t).

(** Modelled from the spec: an insert fails when the pair of partition
    key and row key is already in the table. *)
Definition insertToTable (tableInfo : DeploymentTable) (entry : Row) : M unit :=
  fun t =>
    if hasKey entry (rows t)
    then (Err StoreWriteError, logCall (InsertEntity entry) t)
    else (Ok tt, mkTable (rows t ++ [entry]) (calls t ++ [InsertEntity entry])).

(** Modelled from the spec: a replace fails when the entity is not in the
    table; otherwise the stored entity is replaced as a whole. Other
    errors the service may report for a replace are not modelled. *)
Definition updateEntryInTable (tableInfo : DeploymentTable) (entry : Row) : M unit :=
  fun t =>
    if hasKey entry (rows t)
    then (Ok tt,
          mkTable (replaceRow entry (rows t)) (calls t ++ [ReplaceEntity entry]))
    else (Err StoreWriteError, logCall (ReplaceEntity entry) t).

(** ** The RowKey generator *)

(** [getRowKey], given the string the UUID source returned. *)
Definition getRowKey (uuid : string) : string :=
  Js.substring0 12 (Js.replace "-" "" uuid).

(** [if (x) entry.f = x.toLowerCase()] *)
Definition lowerIfGiven (x : option string) : option string :=
  match x with
  | Some s => if Js.truthy x then Some (Js.toLowerCase s) else None
  | None => None
  end.

(** [if (x) entry.f = x] *)
Definition keepIfGiven (x : option string) : option string :=
  if Js.truthy x then x else None.

(** ** Stage 1: source build to image *)

Definition addSrcToACRPipeline (tableInfo : DeploymentTable) (uuid : string)
    (pipelineId imageTag_ serviceName commitId_ : string)
    (repository : option string) : M Row :=
  let entry :=
    {| PartitionKey := partitionKey tableInfo;
       RowKey := getRowKey uuid;
       commitId := commitId_;
       imageTag := imageTag_;
       p1 := pipelineId;
       service := serviceName;
       sourceRepo := lowerIfGiven repository;
       p2 := None; hldCommitId := None; env := None; pr := None;
       hldRepo := None; p3 := None; manifestCommitId := None;
       manifestRepo := None |} in
  insertToTable tableInfo entry ;;;
  ret entry.

(** ** Stage 2: image to HLD release *)

(** [entry.f ? entry.f._ === x : true] *)
Definition wildcard (field : option string) (x : string) : bool :=
  match field with
  | Some v => String.eqb v x
  | None => true
  end.

Definition matchesArcToHLD (pipelineId hldCommitId_ env_ : string) (entry : Row) : bool :=
  wildcard (p2 entry) pipelineId
  && wildcard (hldCommitId entry) hldCommitId_
  && wildcard (env entry) env_.

Definition updateMatchingArcToHLDPipelineEntry (entries : list Row)
    (tableInfo : DeploymentTable) (pipelineId imageTag_ hldCommitId_ env_ : string)
    (pr_ repository : option string) : M (option Row) :=
  match find (matchesArcToHLD pipelineId hldCommitId_ env_) entries with
  | Some found =>
      let updateEntry :=
        {| PartitionKey := PartitionKey found;
           RowKey := RowKey found;
           commitId := commitId found;
           env := Some (Js.toLowerCase env_);
           hldCommitId := Some (Js.toLowerCase hldCommitId_);
           imageTag := imageTag found;
           p1 := p1 found;
           p2 := Some (Js.toLowerCase pipelineId);
           service := service found;
           sourceRepo := sourceRepo found;
           pr := lowerIfGiven pr_;
           hldRepo := lowerIfGiven repository;
           p3 := None; manifestCommitId := None; manifestRepo := None |} in
      updateEntryInTable tableInfo updateEntry ;;;
      ret (Some updateEntry)
  | None => ret None
  end.

(** [entries[entries.length - 1]] *)
Definition lastOf (entries : list Row) : option Row :=
  nth_error entries (List.length entries - 1).

Definition updateLastRowOfArcToHLDPipelines (entries : list Row)
    (tableInfo : DeploymentTable) (uuid : string)
    (pipelineId imageTag_ hldCommitId_ env_ : string)
    (pr_ repository : option string) : M Row :=
  match lastOf entries with
  | None => throw TypeError
  | Some lastEntry =>
      let last :=
        {| PartitionKey := PartitionKey lastEntry;
           RowKey := getRowKey uuid;
           commitId := commitId lastEntry;
           env := Some (Js.toLowerCase env_);
           hldCommitId := Some (Js.toLowerCase hldCommitId_);
           imageTag := imageTag lastEntry;
           p1 := p1 lastEntry;
           p2 := Some (Js.toLowerCase pipelineId);
           service := service lastEntry;
           sourceRepo := sourceRepo lastEntry;
           pr := lowerIfGiven pr_;
           hldRepo := lowerIfGiven repository;
           p3 := None; manifestCommitId := None; manifestRepo := None |} in
      insertToTable tableInfo last ;;;
      ret last
  end.

Definition addNewRowToArcToHLDPipelines (tableInfo : DeploymentTable)
    (uuid : string) (pipelineId imageTag_ hldCommitId_ env_ : string)
    (pr_ repository : option string) : M Row :=
  let newEntry :=
    {| PartitionKey := partitionKey tableInfo;
       RowKey := getRowKey uuid;
       commitId := "";
       env := Some (Js.toLowerCase env_);
       hldCommitId := Some (Js.toLowerCase hldCommitId_);
       imageTag := Js.toLowerCase imageTag_;
       p1 := "";
       p2 := Some (Js.toLowerCase pipelineId);
       service := "";
       sourceRepo := None;
       pr := lowerIfGiven pr_;
       hldRepo := lowerIfGiven repository;
       p3 := None; manifestCommitId := None; manifestRepo := None |} in
  insertToTable tableInfo newEntry ;;;
  ret newEntry.

Definition updateACRToHLDPipeline (tableInfo : DeploymentTable) (uuid : string)
    (pipelineId imageTag_ hldCommitId_ env_ : string)
    (pr_ repository : option string) : M Row :=
  entries <- findMatchingDeployments tableInfo "imageTag" imageTag_ ;;
  if (0 <? List.length entries)%nat then
    found <- updateMatchingArcToHLDPipelineEntry entries tableInfo pipelineId
               imageTag_ hldCommitId_ env_ pr_ repository ;;
    match found with
    | Some r => ret r
    | None =>
        updateLastRowOfArcToHLDPipelines entries tableInfo uuid pipelineId
          imageTag_ hldCommitId_ env_ pr_ repository
    end
  else
    addNewRowToArcToHLDPipelines tableInfo uuid pipelineId imageTag_
      hldCommitId_ env_ pr_ repository.

(** ** Stage 3: HLD release to manifest generation *)

(** [entry.manifestCommitId ? entry.manifestCommitId._ === manifestCommitId : true],
    where the argument may be [undefined]. *)
Definition wildcardOpt (field x : option string) : bool :=
  match field with
  | Some v => optEqb (Some v) x
  | None => true
  end.

Definition matchesHLDToManifest (pipelineId : string)
    (manifestCommitId_ : option string) (entry : Row) : bool :=
  wildcard (p3 entry) pipelineId
  && wildcardOpt (manifestCommitId entry) manifestCommitId_.

Definition updateHLDtoManifestEntry (entries : list Row)
    (tableInfo : DeploymentTable) (hldCommitId_ pipelineId : string)
    (manifestCommitId_ pr_ repository : option string) : M (option Row) :=
  match find (matchesHLDToManifest pipelineId manifestCommitId_) entries with
  | Some found =>
      let entry :=
        {| PartitionKey := PartitionKey found;
           RowKey := RowKey found;
           commitId := commitId found;
           env := env found;
           hldCommitId := Some hldCommitId_;
           hldRepo := hldRepo found;
           imageTag := imageTag found;
           p1 := p1 found;
           p2 := p2 found;
           p3 := Some (Js.toLowerCase pipelineId);
           service := service found;
           sourceRepo := sourceRepo found;
           manifestCommitId := lowerIfGiven manifestCommitId_;
           pr := keepIfGiven pr_;
           manifestRepo := lowerIfGiven repository |} in
      updateEntryInTable tableInfo entry ;;;
      ret (Some entry)
  | None => ret None
  end.

Definition updateLastHLDtoManifestEntry (entries : list Row)
    (tableInfo : DeploymentTable) (uuid : string)
    (hldCommitId_ pipelineId : string)
    (manifestCommitId_ pr_ repository : option string) : M Row :=
  match lastOf entries with
  | None => throw TypeError
  | Some lastEntry =>
      let newEntry :=
        {| PartitionKey := PartitionKey lastEntry;
           RowKey := getRowKey uuid;
           commitId := commitId lastEntry;
           env := env lastEntry;
           hldCommitId := Some (Js.toLowerCase hldCommitId_);
           hldRepo := hldRepo lastEntry;
           imageTag := imageTag lastEntry;
           p1 := p1 lastEntry;
           p2 := p2 lastEntry;
           p3 := Some (Js.toLowerCase pipelineId);
           service := service lastEntry;
           sourceRepo := sourceRepo lastEntry;
           manifestCommitId := lowerIfGiven manifestCommitId_;
           pr := lowerIfGiven pr_;
           manifestRepo := lowerIfGiven repository |} in
      insertToTable tableInfo newEntry ;;;
      ret newEntry
  end.

Definition addNewRowToHLDtoManifestPipeline (tableInfo : DeploymentTable)
    (uuid : string) (hldCommitId_ pipelineId : string)
    (manifestCommitId_ pr_ repository : option string) : M Row :=
  let newEntry :=
    {| PartitionKey := partitionKey tableInfo;
       RowKey := getRowKey uuid;
       commitId := "";
       env := Some "";
       hldCommitId := Some (Js.toLowerCase hldCommitId_);
       imageTag := "";
       p1 := "";
       p2 := Some "";
       p3 := Some (Js.toLowerCase pipelineId);
       service := "";
       sourceRepo := None;
       hldRepo := None;
       manifestCommitId := lowerIfGiven manifestCommitId_;
       pr := lowerIfGiven pr_;
       manifestRepo := lowerIfGiven repository |} in
  insertToTable tableInfo newEntry ;;;
  ret newEntry.

Definition updateHLDtoManifestHelper (entries : list Row)
    (tableInfo : DeploymentTable) (uuid : string)
    (hldCommitId_ pipelineId : string)
    (manifestCommitId_ pr_ repository : option string) : M Row :=
  if (0 <? List.length entries)%nat then
    updated <- updateHLDtoManifestEntry entries tableInfo hldCommitId_
                 pipelineId manifestCommitId_ pr_ repository ;;
    match updated with
    | Some r => ret r
    | None =>
        updateLastHLDtoManifestEntry entries tableInfo uuid hldCommitId_
          pipelineId manifestCommitId_ pr_ repository
    end
  else
    addNewRowToHLDtoManifestPipeline tableInfo uuid hldCommitId_ pipelineId
      manifestCommitId_ pr_ repository.

Definition updateHLDToManifestPipeline (tableInfo : DeploymentTable)
    (uuid : string) (hldCommitId_ pipelineId : string)
    (manifestCommitId_ pr_ repository : option string) : M Row :=
  entries <- findMatchingDeployments tableInfo "hldCommitId" hldCommitId_ ;;
  entries' <-
    (match pr_ with
     | Some prId =>
         if (List.length entries =? 0)%nat && Js.truthy pr_
         then findMatchingDeployments tableInfo "pr" prId
         else ret entries
     | None => ret entries
     end) ;;
  updateHLDtoManifestHelper entries' tableInfo uuid hldCommitId_ pipelineId
    manifestCommitId_ pr_ repository.

(** ** The manifest-commit finalizer *)

(** The two assignments of the finalizer to the entity it read:
    [entry.manifestCommitId = manifestCommitId] and, when a repository
    is given, [entry.manifestRepo = repository.toLowerCase()]. *)
Definition finalized (manifestCommitId_ : string) (repository : option string)
    (e : Row) : Row :=
  let entry1 := set_manifestCommitId manifestCommitId_ e in
  match repository with
  | Some r => if Js.truthy repository
              then set_manifestRepo (Js.toLowerCase r) entry1
              else entry1
  | None => entry1
  end.

Definition updateManifestCommitId (tableInfo : DeploymentTable)
    (pipelineId manifestCommitId_ : string) (repository : option string) : M Row :=
  entries <- findMatchingDeployments tableInfo "p3" pipelineId ;;
  match entries with
  | entry0 :: _ =>
      let entry := finalized manifestCommitId_ repository entry0 in
      updateEntryInTable tableInfo entry ;;;
      ret entry
  | [] => throw NoCorrelationFoundError
  end.

(** ** A run of the three stages on an empty table *)

Definition demoTable : DeploymentTable :=
  mkDeploymentTable "acct" "key" "deployments" "hello-spk".

Definition emptyTable : Table := mkTable [] [].

Definition stage1Demo : Result Row * Table :=
  addSrcToACRPipeline demoTable "1b9d6bcd-bbfd-4b2d-9b5d-ab8dfbbd4bed"
    "101" "hello-spk-master-1234" "svcA" "abc123" None emptyTable.

Definition stage2Demo : Result Row * Table :=
  updateACRToHLDPipeline demoTable "6ec0bd7f-11c0-43da-975e-2a8ad9ebae0b"
    "202" "hello-spk-master-1234" "DEF456" "QA" None None (snd stage1Demo).

(** ** What the specification speaks of *)

(** The canonical text of a UUID: five groups of 8, 4, 4, 4 and 12
    hexadecimal digits with a dash between neighbours. *)
Definition canonicalUuid (s : string) : Prop :=
  exists g1 g2 g3 g4 g5 : string,
    s = g1 ++ "-" ++ g2 ++ "-" ++ g3 ++ "-" ++ g4 ++ "-" ++ g5
    /\ String.length g1 = 8 /\ String.length g2 = 4 /\ String.length g3 = 4
    /\ String.length g4 = 4 /\ String.length g5 = 12
    /\ Js.allHex g1 = true /\ Js.allHex g2 = true /\ Js.allHex g3 = true
    /\ Js.allHex g4 = true /\ Js.allHex g5 = true.

(** An optional property is lower-case when it is absent or holds a
    lower-case string. *)
Definition lowerOpt (o : option string) : bool :=
  match o with
  | Some s => Js.isLowerCase s
  | None => true
  end.

(** The fields the schema calls normalized hold lower-case strings. *)
Definition normalizedRow (e : Row) : bool :=
  lowerOpt (env e) && lowerOpt (hldCommitId e) && lowerOpt (pr e)
  && lowerOpt (manifestCommitId e) && lowerOpt (sourceRepo e)
  && lowerOpt (hldRepo e) && lowerOpt (manifestRepo e).

Definition normalizedTable (t : Table) : Prop :=
  Forall (fun e => normalizedRow e = true) (rows t).

(** What a call that made the query [q] and then wrote [e] leaves
    behind: one more write in the log, [e] in the table, and the rows of
    every other key as they were and where they were. *)
Definition wroteOnly (q : StoreCall) (t : Table) (e : Row) (t' : Table) : Prop :=
  (exists w : StoreCall,
      (w = InsertEntity e \/ w = ReplaceEntity e)
      /\ calls t' = (calls t ++ [q; w])%list)
  /\ writes t' = S (writes t)
  /\ In e (rows t')
  /\ filter (fun r => negb (sameKey e r)) (rows t')
     = filter (fun r => negb (sameKey e r)) (rows t).

(** ** Further runs used as examples *)

(** The stage-1 row of the demo run, and a second release of the same
    image to another environment. *)
Definition row1Demo : Row :=
  mkRow "hello-spk" "1b9d6bcdbbfd" "abc123" "hello-spk-master-1234"
        "101" "svcA" None None None None None None None None None.

Definition stage2AgainDemo : Result Row * Table :=
  updateACRToHLDPipeline demoTable "110ec58a-a0f2-4ac4-8393-c866d813b8d1"
    "203" "hello-spk-master-1234" "0FAB99" "Prod" (Some "PR-7") None
    (snd stage2Demo).

(** A table whose only row went through stage 2 under pull request 42. *)
Definition rowPr42 : Row :=
  mkRow "hello-spk" "1b9d6bcdbbfd" "abc123" "hello-spk-master-1234"
        "101" "svcA" None (Some "202") (Some "def456") (Some "qa")
        (Some "42") None None None None.

Definition tablePr42 : Table := mkTable [rowPr42] [].

Definition stage3FallbackDemo : Result Row * Table :=
  updateHLDToManifestPipeline demoTable "7d444840-9dc0-11d1-b245-5ffdce74fad2"
    "0fe1d2" "Run-303" None (Some "42") None tablePr42.

(** Stage 3 finds the row of the demo run by its hldCommitId and is
    given a pull request id in capitals; the finalizer is then given a
    manifest commit in capitals. *)
Definition stage3Demo : Result Row * Table :=
  updateHLDToManifestPipeline demoTable "7d444840-9dc0-11d1-b245-5ffdce74fad2"
    "def456" "303" None (Some "PR-9") None (snd stage2Demo).

Definition finalizerDemo : Result Row * Table :=
  updateManifestCommitId demoTable "303" "0A1B2C" (Some "HTTPS://Example/Manifests")
    (snd stage3Demo).

(** Stage 3 falls back to the pull request id and is given an
    hldCommitId in capitals. *)
Definition stage3UpperDemo : Result Row * Table :=
  updateHLDToManifestPipeline demoTable "7d444840-9dc0-11d1-b245-5ffdce74fad2"
    "0FE1D2" "303" None (Some "42") None tablePr42.

(** ** The entities the resolvers build *)

(** The object literals of the stage-2 and stage-3 resolvers, by name:
    the entity that replaces a matching row, the copy of the last
    candidate, and the row with blank upstream fields. *)
Definition arcToHLDUpdated (found : Row) (pipelineId hldCommitId_ env_ : string)
    (pr_ repository : option string) : Row :=
  {| PartitionKey := PartitionKey found;
     RowKey := RowKey found;
     commitId := commitId found;
     env := Some (Js.toLowerCase env_);
     hldCommitId := Some (Js.toLowerCase hldCommitId_);
     imageTag := imageTag found;
     p1 := p1 found;
     p2 := Some (Js.toLowerCase pipelineId);
     service := service found;
     sourceRepo := sourceRepo found;
     pr := lowerIfGiven pr_;
     hldRepo := lowerIfGiven repository;
     p3 := None; manifestCommitId := None; manifestRepo := None |}.

Definition arcToHLDCloned (lastEntry : Row) (uuid : string)
    (pipelineId hldCommitId_ env_ : string) (pr_ repository : option string) : Row :=
  {| PartitionKey := PartitionKey lastEntry;
     RowKey := getRowKey uuid;
     commitId := commitId lastEntry;
     env := Some (Js.toLowerCase env_);
     hldCommitId := Some (Js.toLowerCase hldCommitId_);
     imageTag := imageTag lastEntry;
     p1 := p1 lastEntry;
     p2 := Some (Js.toLowerCase pipelineId);
     service := service lastEntry;
     sourceRepo := sourceRepo lastEntry;
     pr := lowerIfGiven pr_;
     hldRepo := lowerIfGiven repository;
     p3 := None; manifestCommitId := None; manifestRepo := None |}.

Definition arcToHLDBlank (tableInfo : DeploymentTable) (uuid : string)
    (pipelineId imageTag_ hldCommitId_ env_ : string)
    (pr_ repository : option string) : Row :=
  {| PartitionKey := partitionKey tableInfo;
     RowKey := getRowKey uuid;
     commitId := "";
     env := Some (Js.toLowerCase env_);
     hldCommitId := Some (Js.toLowerCase hldCommitId_);
     imageTag := Js.toLowerCase imageTag_;
     p1 := "";
     p2 := Some (Js.toLowerCase pipelineId);
     service := "";
     sourceRepo := None;
     pr := lowerIfGiven pr_;
     hldRepo := lowerIfGiven repository;
     p3 := None; manifestCommitId := None; manifestRepo := None |}.

Definition hldToManifestUpdated (found : Row) (hldCommitId_ pipelineId : string)
    (manifestCommitId_ pr_ repository : option string) : Row :=
  {| PartitionKey := PartitionKey found;
     RowKey := RowKey found;
     commitId := commitId found;
     env := env found;
     hldCommitId := Some hldCommitId_;
     hldRepo := hldRepo found;
     imageTag := imageTag found;
     p1 := p1 found;
     p2 := p2 found;
     p3 := Some (Js.toLowerCase pipelineId);
     service := service found;
     sourceRepo := sourceRepo found;
     manifestCommitId := lowerIfGiven manifestCommitId_;
     pr := keepIfGiven pr_;
     manifestRepo := lowerIfGiven repository |}.

Definition hldToManifestCloned (lastEntry : Row) (uuid : string)
    (hldCommitId_ pipelineId : string)
    (manifestCommitId_ pr_ repository : option string) : Row :=
  {| PartitionKey := PartitionKey lastEntry;
     RowKey := getRowKey uuid;
     commitId := commitId lastEntry;
     env := env lastEntry;
     hldCommitId := Some (Js.toLowerCase hldCommitId_);
     hldRepo := hldRepo lastEntry;
     imageTag := imageTag lastEntry;
     p1 := p1 lastEntry;
     p2 := p2 lastEntry;
     p3 := Some (Js.toLowerCase pipelineId);
     service := service lastEntry;
     sourceRepo := sourceRepo lastEntry;
     manifestCommitId := lowerIfGiven manifestCommitId_;
     pr := lowerIfGiven pr_;
     manifestRepo := lowerIfGiven repository |}.

Definition hldToManifestBlank (tableInfo : DeploymentTable) (uuid : string)
    (hldCommitId_ pipelineId : string)
    (manifestCommitId_ pr_ repository : option string) : Row :=
  {| PartitionKey := partitionKey tableInfo;
     RowKey := getRowKey uuid;
     commitId := "";
     env := Some "";
     hldCommitId := Some (Js.toLowerCase hldCommitId_);
     imageTag := "";
     p1 := "";
     p2 := Some "";
     p3 := Some (Js.toLowerCase pipelineId);
     service := "";
     sourceRepo := None;
     hldRepo := None;
     manifestCommitId := lowerIfGiven manifestCommitId_;
     pr := lowerIfGiven pr_;
     manifestRepo := lowerIfGiven repository |}.

(** Whether stage 3 asks the table a second time, by pull request:
    [(!entries || entries.length === 0) && pr]. *)
Definition usesPrFallback (tableInfo : DeploymentTable) (hldCommitId_ : string)
    (pr_ : option string) (l : list Row) : bool :=
  (List.length (matching tableInfo "hldCommitId" hldCommitId_ l) =? 0)%nat
  && Js.truthy pr_.

(** The candidates stage 3 goes on with, and the queries it has made
    to get them. *)
Definition hldToManifestCandidates (tableInfo : DeploymentTable)
    (hldCommitId_ : string) (pr_ : option string) (l : list Row) : list Row :=
  match pr_ with
  | Some prId =>
      if usesPrFallback tableInfo hldCommitId_ pr_ l
      then matching tableInfo "pr" prId l
      else matching tableInfo "hldCommitId" hldCommitId_ l
  | None => matching tableInfo "hldCommitId" hldCommitId_ l
  end.

Definition hldToManifestQueries (tableInfo : DeploymentTable)
    (hldCommitId_ : string) (pr_ : option string) (l : list Row) : list StoreCall :=
  match pr_ with
  | Some prId =>
      if usesPrFallback tableInfo hldCommitId_ pr_ l
      then [QueryEntities "hldCommitId" hldCommitId_; QueryEntities "pr" prId]
      else [QueryEntities "hldCommitId" hldCommitId_]
  | None => [QueryEntities "hldCommitId" hldCommitId_]
  end.

(** What a call that made the queries [qs] and then wrote [e] leaves
    behind: the queries and one write in the log, [e] in the table, and
    the rows of every other key as they were and where they were. *)
Definition wroteAfter (qs : list StoreCall) (t : Table) (e : Row) (t' : Table) : Prop :=
  (exists w : StoreCall,
      (w = InsertEntity e \/ w = ReplaceEntity e)
      /\ calls t' = (calls t ++ qs ++ [w])%list)
  /\ In e (rows t')
  /\ filter (fun r => negb (sameKey e r)) (rows t')
     = filter (fun r => negb (sameKey e r)) (rows t).

(** The row of the demo run after stage 2 and after stage 3. *)
Definition row2Demo : Row :=
  mkRow "hello-spk" "1b9d6bcdbbfd" "abc123" "hello-spk-master-1234"
        "101" "svcA" None (Some "202") (Some "def456") (Some "qa")
        None None None None None.

Definition row3Demo : Row :=
  mkRow "hello-spk" "1b9d6bcdbbfd" "abc123" "hello-spk-master-1234"
        "101" "svcA" None (Some "202") (Some "def456") (Some "qa")
        (Some "PR-9") None (Some "303") None None.

(** ** Deleting, and the callers of the resolvers *)

(** Modelled from the spec: the delete of the table service removes the
    entity with the partition key and row key of [entry] and fails when
    there is none. The log of calls keeps queries, inserts and replaces;
    a delete, which only the self-test makes, is not entered in it. *)
Definition deleteFromTable (tableInfo : DeploymentTable) (entry : Row) : M unit :=
  fun t =>
    if hasKey entry (rows t)
    then (Ok tt, mkTable (filter (fun e => negb (sameKey entry e)) (rows t)) (calls t))
    else (Err StoreWriteError, t).

(** What a caller throws: an [Error] made from a message, or the error
    of the table module passed on. *)
Inductive Failure :=
| Message (text : string)
| Passed (e : Error).

Inductive Outcome (A : Type) :=
| Done (a : A)
| Thrown (f : Failure).
Arguments Done {A} a.
Arguments Thrown {A} f.

(** [n.toString()] for a natural number. *)
Definition toString (n : nat) : string := NilZero.string_of_uint (Nat.to_uint n).

(** *** The validate command: configuration check and self-test *)

Module Validate.

Definition service : string := "spk-self-test".

(** The declaration of the configuration type is not among the sources.
    These records have the fields that [isValidConfig] reads, each of
    them optional; [key] is the value its promise settles to. *)
Record AzureIntrospection := mkAzureIntrospection {
  account_name : option string;
  key : option string;
  partition_key : option string;
  table_name : option string
}.

Record Introspection := mkIntrospection {
  azure : option AzureIntrospection
}.

Record AzureDevops := mkAzureDevops {
  org : option string;
  project : option string
}.

Record ConfigYaml := mkConfigYaml {
  introspection : option Introspection;
  azure_devops : option AzureDevops
}.

(** [if (!x) missingConfig.push(name)] *)
Definition pushUnless (x : option string) (name : string) : list string :=
  if Js.truthy x then [] else [name].

(** The list [missingConfig] when [isValidConfig] has made its checks. *)
Definition missingConfig (config : ConfigYaml) : list string :=
  match introspection config with
  | None => ["introspection"]
  | Some intro =>
      (match azure intro with
       | None => ["config.introspection.azure"]
       | Some az =>
           pushUnless (account_name az) "config.introspection.azure.account_name"
           ++ pushUnless (key az) "config.introspection.azure.key"
           ++ pushUnless (partition_key az) "config.introspection.azure.partition_key"
           ++ pushUnless (table_name az) "config.introspection.azure.table_name"
       end)
      ++ (match azure_devops config with
          | None => ["config.azure_devops"]
          | Some ado =>
              pushUnless (org ado) "config.azure_devops.org"
              ++ pushUnless (project ado) "config.azure_devops.project"
          end)
  end%list.

Definition isValidConfig (config : ConfigYaml) : Outcome unit :=
  if (0 <? List.length (missingConfig config))%nat
  then Thrown (Message "missing configuration in spk configuration")
  else Done tt.

(** [writeSelfTestData]; [draw] is the integer
    [Math.floor(Math.random() * 1000)], and [uuid1], [uuid2] are the
    UUIDs that the two resolver calls would draw. *)
Definition writeSelfTestData (accountKey_ accountName_ partitionKey_ tableName_ : string)
    (draw : nat) (uuid1 uuid2 : string) (t : Table) : Outcome string * Table :=
  let tableInfo := mkDeploymentTable accountName_ accountKey_ tableName_ partitionKey_ in
  let buildId := toString draw in
  let p1Id := buildId in
  let imageTag_ := "spk-test-123" in
  let commitId_ := "6nbe" ++ buildId in
  let env_ := "SPK-TEST" in
  match addSrcToACRPipeline tableInfo uuid1 p1Id imageTag_ service commitId_ None t with
  | (Err _, t1) =>
      (Thrown (Message "Error writing data to service introspection."), t1)
  | (Ok _, t1) =>
      let p2Id := buildId in
      match updateACRToHLDPipeline tableInfo uuid2 p2Id imageTag_ commitId_ env_
              None None t1 with
      | (Err _, t2) =>
          (Thrown (Message "Error writing data to service introspection."), t2)
      | (Ok _, t2) => (Done buildId, t2)
      end
  end.

(** The loop of [deleteSelfTestData] over the entries the query
    returned; an error of a delete ends it with [false]. *)
Fixpoint deleteEntries (tableInfo : DeploymentTable) (buildId : string)
    (entries : list Row) (foundEntry : bool) (t : Table) : bool * Table :=
  match entries with
  | [] => (foundEntry, t)
  | entry :: rest =>
      let foundEntry' := if String.eqb (p1 entry) buildId then true else foundEntry in
      match deleteFromTable tableInfo entry t with
      | (Ok _, t') => deleteEntries tableInfo buildId rest foundEntry' t'
      | (Err _, t') => (false, t')
      end
  end.

Definition deleteSelfTestData (accountKey_ accountName_ partitionKey_ tableName_ : string)
    (buildId : string) (t : Table) : Outcome bool * Table :=
  let tableInfo := mkDeploymentTable accountName_ accountKey_ tableName_ partitionKey_ in
  match findMatchingDeployments tableInfo "service" service t with
  | (Ok results, t1) =>
      let (isDeleted, t2) := deleteEntries tableInfo buildId results false t1 in
      (Done isDeleted, t2)
  | (Err e, t1) => (Thrown (Passed e), t1)
  end.

End Validate.

(** *** The create command: dispatch to the resolvers *)

Module Create.

(** The values the command line hands over. *)
Record CommandOptions := mkCommandOptions {
  accessKey : option string;
  commitId : option string;
  env : option string;
  hldCommitId : option string;
  imageTag : option string;
  manifestCommitId : option string;
  name : option string;
  p1 : option string;
  p2 : option string;
  p3 : option string;
  pr : option string;
  partitionKey : option string;
  service : option string;
  tableName : option string;
  repository : option string
}.

(** A value after [hasValue] has let it through, or with the non-null
    assertion [opts.x!] that follows such a test: the string it holds. An
    absent value, which the tests of [execute] keep away from here, is
    given as the empty string. *)
Definition valueOf (o : option string) : string :=
  match o with
  | Some s => s
  | None => ""
  end.

(** A resolver call awaited for its effect only: its error, if any, is
    thrown on. *)
Definition await {A} (m : M A) (t : Table) : Outcome unit * Table :=
  match m t with
  | (Ok _, t') => (Done tt, t')
  | (Err e, t') => (Thrown (Passed e), t')
  end.

Section WithValidator.

(** [hasValue] of the validator module, which is not among the sources:
    the functions below are given it as an argument. *)
Variable hasValue : option string -> bool.

Definition validateValues (opts : CommandOptions) : Outcome unit :=
  if negb (hasValue (accessKey opts)) || negb (hasValue (name opts))
     || negb (hasValue (partitionKey opts)) || negb (hasValue (tableName opts))
  then Thrown (Message
    "Access key, storage account name, partition key and/or table name are not provided")
  else Done tt.

Definition handlePipeline1 (tableInfo : DeploymentTable) (uuid : string)
    (opts : CommandOptions) (t : Table) : Outcome unit * Table :=
  if negb (hasValue (imageTag opts)) || negb (hasValue (commitId opts))
     || negb (hasValue (service opts))
  then (Thrown (Message
    "For updating the details of source pipeline, you must specify --image-tag, --commit-id and --service"),
        t)
  else await (addSrcToACRPipeline tableInfo uuid (valueOf (p1 opts))
                (valueOf (imageTag opts)) (valueOf (service opts))
                (valueOf (commitId opts)) (repository opts)) t.

Definition handlePipeline2 (tableInfo : DeploymentTable) (uuid : string)
    (opts : CommandOptions) (t : Table) : Outcome unit * Table :=
  if negb (hasValue (hldCommitId opts)) || negb (hasValue (env opts))
     || negb (hasValue (imageTag opts))
  then (Thrown (Message
    "For updating the details of image tag release pipeline, you must specify --p2, --hld-commit-id, --image-tag and --env"),
        t)
  else await (updateACRToHLDPipeline tableInfo uuid (valueOf (p2 opts))
                (valueOf (imageTag opts)) (valueOf (hldCommitId opts))
                (valueOf (env opts)) (pr opts) (repository opts)) t.

(** The body of the [try] block of [execute], up to the call of the
    exit function. [uuid] is the UUID the resolver that runs would
    draw. *)
Definition perform (uuid : string) (opts : CommandOptions) (t : Table)
    : Outcome unit * Table :=
  match validateValues opts with
  | Thrown f => (Thrown f, t)
  | Done _ =>
      let tableInfo :=
        mkDeploymentTable (valueOf (name opts)) (valueOf (accessKey opts))
          (valueOf (tableName opts)) (valueOf (partitionKey opts)) in
      if hasValue (p1 opts) then handlePipeline1 tableInfo uuid opts t
      else if hasValue (p2 opts) then handlePipeline2 tableInfo uuid opts t
      else if hasValue (p3 opts) && hasValue (hldCommitId opts) then
        await (updateHLDToManifestPipeline tableInfo uuid (valueOf (hldCommitId opts))
                 (valueOf (p3 opts)) (manifestCommitId opts) (pr opts)
                 (repository opts)) t
      else if hasValue (p3 opts) && hasValue (manifestCommitId opts) then
        await (updateManifestCommitId tableInfo (valueOf (p3 opts))
                 (valueOf (manifestCommitId opts)) (repository opts)) t
      else (Thrown (Message "No action could be performed for specified arguments."), t)
  end.

(** [execute], for an exit function that settles: the status it is
    called with, and the table afterwards. *)
Definition execute (uuid : string) (opts : CommandOptions) (t : Table) : nat * Table :=
  match perform uuid opts t with
  | (Done _, t') => (0, t')
  | (Thrown _, t') => (1, t')
  end.

End WithValidator.

End Create.

(** A call that succeeded has made one write more; a call that failed
    has left the rows as they were. *)
Definition settled {A} (t : Table) (r : Result A) (t' : Table) : Prop :=
  match r with
  | Ok _ => writes t' = S (writes t)
  | Err _ => rows t' = rows t
  end.

(** Options of a create command for stage 3 that also name a manifest
    commit, and for stage 1 without a commit id. *)
Definition optsStage3Demo : Create.CommandOptions :=
  Create.mkCommandOptions (Some "key") None None (Some "def456") None
    (Some "0A1B2C") (Some "acct") None None (Some "303") (Some "PR-9")
    (Some "hello-spk") None (Some "deployments") None.

Definition optsStage1Incomplete : Create.CommandOptions :=
  Create.mkCommandOptions (Some "key") None None None (Some "hello-spk-master-1234")
    None (Some "acct") (Some "101") (Some "202") None None
    (Some "hello-spk") (Some "svcA") (Some "deployments") None.

(** *** The setup prompt: answers read from a file *)

Module Prompt.

(** White space as [String.prototype.trim] sees it, on the ASCII range:
    tab, line feed, vertical tab, form feed, carriage return, space. *)
Definition isSpace (c : ascii) : bool :=
  let n := nat_of_ascii c in
  ((9 <=? n) && (n <=? 13))%nat || (n =? 32)%nat.

Fixpoint trimStart (s : string) : string :=
  match s with
  | EmptyString => EmptyString
  | String c r => if isSpace c then trimStart r else s
  end.

Fixpoint trimEnd (s : string) : string :=
  match s with
  | EmptyString => EmptyString
  | String c r =>
      match trimEnd r with
      | EmptyString => if isSpace c then EmptyString else String c EmptyString
      | r' => String c r'
      end
  end.

(** [s.trim()] *)
Definition trim (s : string) : string := trimEnd (trimStart s).

(** [s.split(sep)] for a separator of one character. *)
Fixpoint split (sep : ascii) (s : string) : list string :=
  match s with
  | EmptyString => [EmptyString]
  | String c r =>
      if Ascii.eqb c sep then EmptyString :: split sep r
      else match split sep r with
           | h :: tl => String c h :: tl
           | [] => [String c EmptyString]
           end
  end.

(** [s.indexOf(c)] for one character; [None] stands for [-1]. *)
Fixpoint indexOf (c : ascii) (s : string) : option nat :=
  match s with
  | EmptyString => None
  | String d r =>
      if Ascii.eqb d c then Some 0
      else match indexOf c r with
           | Some i => Some (S i)
           | None => None
           end
  end.

(** The object [map]: the assignments made to it, the latest first. *)
Definition Answers := list (string * string).

(** [map[key] = value] on an object literal. The assignment of a string
    to the key [__proto__] goes to the setter of the prototype, which
    ignores it, and makes no property. *)
Definition assign (key value : string) (map : Answers) : Answers :=
  if String.eqb key "__proto__" then map else (key, value) :: map.

(** The own property [key] of [map], if it has one. *)
Fixpoint getOwn (key : string) (map : Answers) : option string :=
  match map with
  | [] => None
  | (k, v) :: rest => if String.eqb k key then Some v else getOwn key rest
  end.

(** The function given to [forEach]. *)
Definition parseLine (map : Answers) (s : string) : Answers :=
  match indexOf "=" s with
  | Some idx =>
      assign (trim (Js.substring0 idx s)) (trim (Js.drop (idx + 1) s)) map
  | None => map
  end.

(** [s => s.trim().length > 0] *)
Definition notBlank (s : string) : bool := (0 <? String.length (trim s))%nat.

(** [parseInformationFromFile]; [content] is what reading the file as
    text gives, [None] when it cannot be read. *)
Definition parseInformationFromFile (file : string) (content : option string)
    : Outcome Answers :=
  match content with
  | None =>
      Thrown (Message
        (file ++ " did not exist or not accessible. Make sure that it is accessible."))
  | Some text =>
      let arr := filter notBlank (split "010" text) in
      Done (fold_left parseLine arr [])
  end.

(** The text of a file with the given lines. *)
Fixpoint joinLines (lines : list string) : string :=
  match lines with
  | [] => EmptyString
  | [l] => l
  | l :: rest => l ++ String "010" (joinLines rest)
  end.

(** The latest value given to a key in a list of pairs. *)
Fixpoint lastValue (key : string) (pairs : list (string * string)) : option string :=
  match pairs with
  | [] => None
  | (k, v) :: rest =>
      match lastValue key rest with
      | Some v' => Some v'
      | None => if String.eqb k key then Some v else None
      end
  end.

(** A key as a file can name it: not empty, free of white space at its
    ends, of [=] and of line feeds, and not [__proto__]. A value: free
    of white space at its ends and of line feeds. *)
Definition goodKey (k : string) : bool :=
  negb (String.eqb k "") && String.eqb (trim k) k
  && negb (Js.hasChar "=" k) && negb (Js.hasChar "010" k)
  && negb (String.eqb k "__proto__").

Definition goodValue (v : string) : bool :=
  String.eqb (trim v) v && negb (Js.hasChar "010" v).

(** The request context. Its declaration is not among the sources; the
    record has the fields [getAnswerFromFile] sets. A field that is
    [None] is [undefined]. *)
Record RequestContext := mkRequestContext {
  accessToken : option string;
  orgName : option string;
  projectName : option string;
  servicePrincipalId : option string;
  servicePrincipalPassword : option string;
  servicePrincipalTenantId : option string;
  acrName : string;
  workspace : string;
  toCreateAppRepo : option bool;
  toCreateSP : option bool;
  subscriptionId : option string
}.

(** [x || fallback] for an optional string. *)
Definition orElse (x : option string) (fallback : string) : string :=
  match x with
  | Some s => if Js.truthy x then s else fallback
  | None => fallback
  end.

(** [x === "true"] *)
Definition isTrue (x : option string) : bool :=
  match x with
  | Some s => String.eqb s "true"
  | None => false
  end.

Section WithValidators.

(** The validators and the constants of the setup are not among the
    sources. A validator is given the value read from the file and
    answers with an error message or with [true]; here [Some] holds the
    message and [None] stands for [true]. *)
Variables validateOrgName validateProjectName validateAccessToken validateACRName
          validateServicePrincipalId validateServicePrincipalPassword
          validateServicePrincipalTenantId validateSubscriptionId
  : option string -> option string.
Variables DEFAULT_PROJECT_NAME ACR_NAME WORKSPACE : string.

Definition validationServicePrincipalInfoFromFile (rc : RequestContext)
    (map : Answers) : Outcome RequestContext :=
  if match toCreateAppRepo rc with Some b => b | None => false end then
    let toCreateSP_ := isTrue (getOwn "az_create_sp" map) in
    let checked :=
      if negb toCreateSP_ then
        match validateServicePrincipalId (getOwn "az_sp_id" map) with
        | Some vSPId => Some vSPId
        | None =>
            match validateServicePrincipalPassword (getOwn "az_sp_password" map) with
            | Some vSPPassword => Some vSPPassword
            | None => validateServicePrincipalTenantId (getOwn "az_sp_tenant" map)
            end
        end
      else None in
    match checked with
    | Some message => Thrown (Message message)
    | None =>
        match validateSubscriptionId (getOwn "az_subscription_id" map) with
        | Some vSubscriptionId => Thrown (Message vSubscriptionId)
        | None =>
            Done (mkRequestContext (accessToken rc) (orgName rc) (projectName rc)
                    (servicePrincipalId rc) (servicePrincipalPassword rc)
                    (servicePrincipalTenantId rc) (acrName rc) (workspace rc)
                    (toCreateAppRepo rc) (Some toCreateSP_)
                    (getOwn "az_subscription_id" map))
        end
    end
  else Done rc.

Definition getAnswerFromFile (file : string) (content : option string)
    : Outcome RequestContext :=
  match parseInformationFromFile file content with
  | Thrown f => Thrown f
  | Done map0 =>
      let map :=
        assign "azdo_project_name"
          (orElse (getOwn "azdo_project_name" map0) DEFAULT_PROJECT_NAME) map0 in
      match validateOrgName (getOwn "azdo_org_name" map) with
      | Some vOrgName => Thrown (Message vOrgName)
      | None =>
      match validateProjectName (getOwn "azdo_project_name" map) with
      | Some vProjectName => Thrown (Message vProjectName)
      | None =>
      match validateAccessToken (getOwn "azdo_pat" map) with
      | Some vToken => Thrown (Message vToken)
      | None =>
      let acrName_ := orElse (getOwn "az_acr_name" map) ACR_NAME in
      match validateACRName (Some acrName_) with
      | Some vACRName => Thrown (Message vACRName)
      | None =>
          let rc :=
            mkRequestContext (getOwn "azdo_pat" map) (getOwn "azdo_org_name" map)
              (getOwn "azdo_project_name" map) (getOwn "az_sp_id" map)
              (getOwn "az_sp_password" map) (getOwn "az_sp_tenant" map)
              acrName_ WORKSPACE
              (Some (isTrue (getOwn "az_create_app" map))) None None in
          validationServicePrincipalInfoFromFile rc map
      end end end end
  end.

End WithValidators.

End Prompt.

(** Stand-ins for the validators in the examples: one that wants a
    non-empty value, one that refuses every value. *)
Definition wantsValue (message : string) (x : option string) : option string :=
  if Js.truthy x then None else Some message.

Definition refuses (message : string) (x : option string) : option string :=
  Some message.

Definition answersNoRepo : list string :=
  ["azdo_org_name=org"; "azdo_pat=token"; "az_create_app=false"; "az_sp_id=not-checked"].

Definition answersNewPrincipal : list string :=
  ["azdo_org_name=org"; "azdo_pat=token"; "azdo_project_name=proj";
   "az_create_app=true"; "az_create_sp=true"; "az_subscription_id=sub-1"].

(** Stage 3 on the demo run with a lower-case pull request id. *)
Definition stage3LowerDemo : Result Row * Table :=
  updateHLDToManifestPipeline demoTable "7d444840-9dc0-11d1-b245-5ffdce74fad2"
    "def456" "303" None (Some "pr-9") None (snd stage2Demo).

(** Two builds of one image tag from different commits, both already
    released by stage 2, and a third release of that tag; the same two
    rows after stage 3, and a third manifest run of their HLD commit. *)
Definition releaseA : Row :=
  mkRow "hello-spk" "0a0a0a0a0a0a" "aaa111" "hello-spk-master-77"
        "11" "svcA" (Some "https://example/a") (Some "21") (Some "c0ffee")
        (Some "dev") None None None None None.

Definition releaseB : Row :=
  mkRow "hello-spk" "0b0b0b0b0b0b" "bbb222" "hello-spk-master-77"
        "12" "svcB" (Some "https://example/b") (Some "22") (Some "c0ffee")
        (Some "qa") None None None None None.

Definition twoReleases : Table := mkTable [releaseA; releaseB] [].

Definition stage2CloneDemo : Result Row * Table :=
  updateACRToHLDPipeline demoTable "110ec58a-a0f2-4ac4-8393-c866d813b8d1"
    "23" "hello-spk-master-77" "FACADE" "Prod" None None twoReleases.

Definition manifestA : Row :=
  mkRow "hello-spk" "0a0a0a0a0a0a" "aaa111" "hello-spk-master-77"
        "11" "svcA" (Some "https://example/a") (Some "21") (Some "c0ffee")
        (Some "dev") None None (Some "31") None None.

Definition manifestB : Row :=
  mkRow "hello-spk" "0b0b0b0b0b0b" "bbb222" "hello-spk-master-77"
        "12" "svcB" (Some "https://example/b") (Some "22") (Some "c0ffee")
        (Some "qa") None None (Some "32") None None.

Definition twoManifests : Table := mkTable [manifestA; manifestB] [].

Definition stage3CloneDemo : Result Row * Table :=
  updateHLDToManifestPipeline demoTable "7d444840-9dc0-11d1-b245-5ffdce74fad2"
    "c0ffee" "33" None None None twoManifests.

(** No two rows of the list have the same partition key and row key. *)
Fixpoint distinctKeys (l : list Row) : bool :=
  match l with
  | [] => true
  | e :: rest => negb (hasKey e rest) && distinctKeys rest
  end.

(** * Properties *)

(** ** Strings *)

Section StringFacts.

Lemma lowerChar_idem (c : ascii) : Js.lowerChar (Js.lowerChar c) = Js.lowerChar c.
Proof. destruct c as [[] [] [] [] [] [] [] []]; reflexivity. Qed.

Lemma toLowerCase_idem (s : string) : Js.toLowerCase (Js.toLowerCase s) = Js.toLowerCase s.
Proof.
  induction s as [|c r IH]; simpl; [reflexivity|].
  now rewrite lowerChar_idem, IH.
Qed.

Lemma isLowerCase_toLowerCase (s : string) : Js.isLowerCase (Js.toLowerCase s) = true.
Proof. unfold Js.isLowerCase. rewrite toLowerCase_idem. apply String.eqb_refl. Qed.

Lemma hex_not_dash (c : ascii) : Js.isHexDigit c = true -> Ascii.eqb c "-" = false.
Proof.
  intros H. destruct (Ascii.eqb_spec c "-") as [->|]; [|reflexivity].
  vm_compute in H. discriminate.
Qed.

Lemma allHex_no_dash (s : string) : Js.allHex s = true -> Js.hasChar "-" s = false.
Proof.
  induction s as [|c r IH]; simpl; [reflexivity|].
  intros H. apply andb_true_iff in H as [Hc Hr].
  now rewrite (hex_not_dash _ Hc), (IH Hr).
Qed.

Lemma allHex_app (a b : string) :
  Js.allHex (a ++ b) = Js.allHex a && Js.allHex b.
Proof.
  induction a as [|c r IH]; simpl; [reflexivity|].
  now rewrite IH, andb_assoc.
Qed.

Lemma str_append_assoc (a b c : string) : a ++ b ++ c = (a ++ b) ++ c.
Proof. induction a as [|x a IH]; simpl; [reflexivity|now rewrite IH]. Qed.

Lemma strlen_app (a b : string) :
  String.length (a ++ b) = String.length a + String.length b.
Proof. induction a as [|c r IH]; simpl; [reflexivity|now rewrite IH]. Qed.

(** Replacing the first dash drops the dash that ends a dash-free
    prefix and nothing else. *)
Lemma replace_first_dash (a r : string) :
  Js.hasChar "-" a = false ->
  Js.replace "-" "" (a ++ String "-" r) = a ++ r.
Proof.
  induction a as [|c a IH]; intros H.
  - reflexivity.
  - simpl in H. apply orb_false_iff in H as [Hc Ha].
    cbn [append Js.replace Js.startsWith].
    rewrite Ascii.eqb_sym, Hc. cbn [andb].
    now rewrite (IH Ha).
Qed.

Lemma substring0_app (n : nat) (a b : string) :
  String.length a = n -> Js.substring0 n (a ++ b) = a.
Proof.
  unfold Js.substring0. revert n.
  induction a as [|c a IH]; intros n Hn; simpl in Hn; subst n.
  - destruct b; reflexivity.
  - simpl. now rewrite IH.
Qed.

End StringFacts.

(** ** The RowKey generator *)

Lemma canonicalUuid_length (s : string) : canonicalUuid s -> String.length s = 36.
Proof.
  intros (g1 & g2 & g3 & g4 & g5 & -> & L1 & L2 & L3 & L4 & L5 & _).
  repeat (rewrite strlen_app; cbn [String.length]). lia.
Qed.

(** The key is the first two groups of the UUID put together. *)
Lemma getRowKey_groups (g1 g2 rest : string) :
  String.length g1 = 8 -> String.length g2 = 4 ->
  Js.allHex g1 = true ->
  getRowKey (g1 ++ "-" ++ g2 ++ "-" ++ rest) = g1 ++ g2.
Proof.
  intros L1 L2 H1. unfold getRowKey.
  change ("-" ++ g2 ++ "-" ++ rest) with (String "-" (g2 ++ "-" ++ rest)).
  rewrite replace_first_dash by now apply allHex_no_dash.
  rewrite str_append_assoc.
  apply substring0_app. rewrite strlen_app. lia.
Qed.

(** C10. For every canonical 36-character UUID, [getRowKey] returns a
    string of exactly 12 characters, all of them hexadecimal digits and
    none a dash, although only the first dash is removed before the
    string is cut to 12 characters. *)
Theorem getRowKey_canonical (uuid : string) :
  canonicalUuid uuid ->
  String.length uuid = 36
  /\ String.length (getRowKey uuid) = 12
  /\ Js.allHex (getRowKey uuid) = true
  /\ Js.hasChar "-" (getRowKey uuid) = false.
Proof.
  intros Hc. split; [now apply canonicalUuid_length|].
  destruct Hc as (g1 & g2 & g3 & g4 & g5 & -> & L1 & L2 & _ & _ & _ & H1 & H2 & _).
  rewrite getRowKey_groups by assumption.
  assert (Hhex : Js.allHex (g1 ++ g2) = true) by now rewrite allHex_app, H1, H2.
  repeat split.
  - rewrite strlen_app. lia.
  - exact Hhex.
  - now apply allHex_no_dash.
Qed.

Lemma getRowKey_canonical_witness :
  canonicalUuid "1b9d6bcd-bbfd-4b2d-9b5d-ab8dfbbd4bed"
  /\ getRowKey "1b9d6bcd-bbfd-4b2d-9b5d-ab8dfbbd4bed" = "1b9d6bcdbbfd"
  /\ String.length (getRowKey "1b9d6bcd-bbfd-4b2d-9b5d-ab8dfbbd4bed") = 12.
Proof.
  assert (H : canonicalUuid "1b9d6bcd-bbfd-4b2d-9b5d-ab8dfbbd4bed").
  { exists "1b9d6bcd", "bbfd", "4b2d", "9b5d", "ab8dfbbd4bed".
    repeat split; reflexivity. }
  split; [exact H|]. split; [reflexivity|].
  exact (proj1 (proj2 (getRowKey_canonical _ H))).
Defined.

(** ** The storage client *)

Section StoreFacts.

Variable tableInfo : DeploymentTable.

Lemma sameKey_refl (e : Row) : sameKey e e = true.
Proof. unfold sameKey, keyIs. now rewrite !String.eqb_refl. Qed.

Lemma keyIs_eq (pk rk : string) (e : Row) :
  keyIs pk rk e = true <-> PartitionKey e = pk /\ RowKey e = rk.
Proof.
  unfold keyIs. rewrite andb_true_iff, !String.eqb_eq. reflexivity.
Qed.

Lemma keyInUse_In (pk rk : string) (l : list Row) (e : Row) :
  In e l -> PartitionKey e = pk -> RowKey e = rk -> keyInUse pk rk l = true.
Proof.
  intros Hin Hp Hr. apply existsb_exists. exists e. split; [assumption|].
  now apply keyIs_eq.
Qed.

Lemma insertToTable_fresh (entry : Row) (t : Table) :
  hasKey entry (rows t) = false ->
  insertToTable tableInfo entry t
  = (Ok tt, mkTable (rows t ++ [entry]) (calls t ++ [InsertEntity entry])).
Proof. intros H. unfold insertToTable. now rewrite H. Qed.

Lemma insertToTable_taken (entry : Row) (t : Table) :
  hasKey entry (rows t) = true ->
  insertToTable tableInfo entry t
  = (Err StoreWriteError, mkTable (rows t) (calls t ++ [InsertEntity entry])).
Proof. intros H. unfold insertToTable. now rewrite H. Qed.

Lemma updateEntryInTable_present (entry : Row) (t : Table) :
  hasKey entry (rows t) = true ->
  updateEntryInTable tableInfo entry t
  = (Ok tt, mkTable (replaceRow entry (rows t)) (calls t ++ [ReplaceEntity entry])).
Proof. intros H. unfold updateEntryInTable. now rewrite H. Qed.

Lemma replaceRow_length (entry : Row) (l : list Row) :
  List.length (replaceRow entry l) = List.length l.
Proof. apply length_map. Qed.

(** A replace puts the new entity where an entity of its key was. *)
Lemma replaceRow_In (entry : Row) (l : list Row) :
  hasKey entry l = true -> In entry (replaceRow entry l).
Proof.
  unfold hasKey, keyInUse. intros H.
  apply existsb_exists in H as (x & Hx & Hk).
  apply in_map_iff. exists x. split; [|assumption].
  unfold sameKey. now rewrite Hk.
Qed.

(** Rows of other keys are where they were, before and after a replace. *)
Lemma replaceRow_others (entry : Row) (l : list Row) :
  filter (fun e => negb (sameKey entry e)) (replaceRow entry l)
  = filter (fun e => negb (sameKey entry e)) l.
Proof.
  induction l as [|x l IH]; [reflexivity|].
  cbn [replaceRow map filter]. fold (replaceRow entry l).
  destruct (sameKey entry x) eqn:E.
  - rewrite sameKey_refl. cbn [negb]. exact IH.
  - rewrite E. cbn [negb]. now rewrite IH.
Qed.

Lemma insert_others (entry : Row) (l : list Row) :
  filter (fun e => negb (sameKey entry e)) (l ++ [entry])
  = filter (fun e => negb (sameKey entry e)) l.
Proof.
  rewrite filter_app. cbn [filter]. rewrite sameKey_refl. cbn [negb].
  apply app_nil_r.
Qed.

Lemma matching_In (name value : string) (l : list Row) (e : Row) :
  In e (matching tableInfo name value l) ->
  In e l /\ PartitionKey e = partitionKey tableInfo
  /\ getField name e = Some value.
Proof.
  unfold matching. intros H. apply filter_In in H as [Hin H].
  apply andb_true_iff in H as [Hp Hf]. apply String.eqb_eq in Hp.
  repeat split; try assumption.
  destruct (getField name e) as [v|]; [|discriminate].
  cbn in Hf. apply String.eqb_eq in Hf. now subst.
Qed.

Lemma lastOf_In (l : list Row) (e : Row) : lastOf l = Some e -> In e l.
Proof. unfold lastOf. apply nth_error_In. Qed.

(** The last entry of a list that ends in [e] is [e], whatever comes
    before it. *)
Lemma lastOf_app (l : list Row) (e : Row) : lastOf (l ++ [e]) = Some e.
Proof.
  unfold lastOf. rewrite List.length_app. cbn [List.length].
  replace (List.length l + 1 - 1) with (List.length l) by lia.
  rewrite nth_error_app2 by lia. now rewrite Nat.sub_diag.
Qed.

(** A list that holds no row of the key of [e] loses nothing when the
    rows of that key are taken out. *)
Lemma filter_others_fresh (e : Row) (l : list Row) :
  hasKey e l = false -> filter (fun r => negb (sameKey e r)) l = l.
Proof.
  unfold hasKey, keyInUse, sameKey. intros H.
  induction l as [|x l IH]; [reflexivity|]. cbn [existsb] in H.
  apply orb_false_iff in H as [Hx Hl]. cbn [filter]. rewrite Hx. cbn [negb].
  now rewrite IH.
Qed.

(** [find] returns the first element that passes the test. *)
Lemma find_first {A} (f : A -> bool) (pre post : list A) (x : A) :
  forallb (fun y => negb (f y)) pre = true -> f x = true ->
  find f (pre ++ x :: post) = Some x.
Proof.
  induction pre as [|y pre IH]; cbn [forallb app find]; intros Hpre Hx.
  - now rewrite Hx.
  - apply andb_true_iff in Hpre as [Hy Hpre].
    apply negb_true_iff in Hy. rewrite Hy. now apply IH.
Qed.

Lemma find_none_forall {A} (f : A -> bool) (l : list A) :
  forallb (fun y => negb (f y)) l = true -> find f l = None.
Proof.
  induction l as [|y l IH]; cbn [forallb find]; intros H; [reflexivity|].
  apply andb_true_iff in H as [Hy H]. apply negb_true_iff in Hy.
  rewrite Hy. now apply IH.
Qed.

Lemma writes_log (c : StoreCall) (t : Table) :
  writes (logCall c t) = writes t + (if isWrite c then 1 else 0).
Proof.
  unfold writes, logCall. cbn [calls]. rewrite filter_app, List.length_app.
  cbn [filter]. now destruct (isWrite c).
Qed.

End StoreFacts.

(** ** Stage 1 *)

Ltac run_store :=
  unfold bind, ret, throw;
  repeat first
    [ rewrite insertToTable_fresh by assumption
    | rewrite insertToTable_taken by assumption
    | rewrite updateEntryInTable_present by assumption ].

Section Stage1.

Variable tableInfo : DeploymentTable.

(** C8. For every stage-1 input the resolver makes one call on the
    table, an insert, and no query. The entity it inserts has the p1,
    imageTag, service and commitId of the call as they were given and the
    RowKey made from the UUID of this call. When that key is free the
    entity is appended to the table; when it is taken the insert fails
    and the table keeps its rows. *)
Theorem addSrcToACRPipeline_inserts_verbatim
    (uuid pipelineId tag svc cid : string) (repository : option string)
    (t : Table) :
  let run := addSrcToACRPipeline tableInfo uuid pipelineId tag svc cid repository t in
  exists e : Row,
    PartitionKey e = partitionKey tableInfo
    /\ RowKey e = getRowKey uuid
    /\ p1 e = pipelineId /\ imageTag e = tag /\ service e = svc /\ commitId e = cid
    /\ calls (snd run) = (calls t ++ [InsertEntity e])%list
    /\ (keyInUse (partitionKey tableInfo) (getRowKey uuid) (rows t) = false ->
        run = (Ok e, mkTable (rows t ++ [e])%list ((calls t ++ [InsertEntity e])%list)))
    /\ (keyInUse (partitionKey tableInfo) (getRowKey uuid) (rows t) = true ->
        run = (Err StoreWriteError, mkTable (rows t) ((calls t ++ [InsertEntity e])%list))).
Proof.
  intros run. subst run. unfold addSrcToACRPipeline.
  set (entry := mkRow _ _ _ _ _ _ _ _ _ _ _ _ _ _ _).
  exists entry. repeat split.
  - unfold bind, insertToTable. destruct (hasKey entry (rows t)); reflexivity.
  - intros Hfree. now run_store.
  - intros Htaken. now run_store.
Qed.

End Stage1.

Lemma addSrcToACRPipeline_inserts_verbatim_witness :
  keyInUse (partitionKey demoTable)
    (getRowKey "1b9d6bcd-bbfd-4b2d-9b5d-ab8dfbbd4bed") (rows emptyTable) = false
  /\ exists e : Row,
       RowKey e = "1b9d6bcdbbfd" /\ p1 e = "101"
       /\ imageTag e = "hello-spk-master-1234" /\ service e = "svcA"
       /\ commitId e = "abc123"
       /\ stage1Demo = (Ok e, mkTable [e] [InsertEntity e]).
Proof.
  split; [reflexivity|].
  destruct (addSrcToACRPipeline_inserts_verbatim demoTable
              "1b9d6bcd-bbfd-4b2d-9b5d-ab8dfbbd4bed" "101"
              "hello-spk-master-1234" "svcA" "abc123" None emptyTable)
    as (e & _ & Hrk & Hp1 & Htag & Hsvc & Hcid & _ & Hok & _).
  exists e. repeat split; try assumption.
  exact (Hok eq_refl).
Defined.

(** ** Stage 2 *)

Lemma lowerOpt_lowerIfGiven (x : option string) : lowerOpt (lowerIfGiven x) = true.
Proof.
  destruct x as [[|c s]|]; cbn; try reflexivity.
  apply (isLowerCase_toLowerCase (String c s)).
Qed.

Section Stage2.

Variable tableInfo : DeploymentTable.
Variables uuid pipelineId tag hld envName : string.
Variables prId repository : option string.

Local Abbreviation run :=
  (updateACRToHLDPipeline tableInfo uuid pipelineId tag hld envName prId repository).

Local Abbreviation isMatch := (matchesArcToHLD pipelineId hld envName).

Local Abbreviation query := (QueryEntities "imageTag" tag).

(** C4. When the query by imageTag finds nothing (and the generated key
    is free), stage 2 appends a new entity under the generated RowKey
    with empty commitId, p1 and service, and with env and hldCommitId
    set to the lower-cased arguments. *)
Theorem updateACRToHLDPipeline_no_candidates (t : Table) :
  matching tableInfo "imageTag" tag (rows t) = [] ->
  keyInUse (partitionKey tableInfo) (getRowKey uuid) (rows t) = false ->
  exists e : Row,
    run t = (Ok e, mkTable (rows t ++ [e]) (calls t ++ [query; InsertEntity e]))
    /\ PartitionKey e = partitionKey tableInfo
    /\ RowKey e = getRowKey uuid
    /\ commitId e = "" /\ p1 e = "" /\ service e = ""
    /\ env e = Some (Js.toLowerCase envName)
    /\ hldCommitId e = Some (Js.toLowerCase hld)
    /\ lowerOpt (env e) = true /\ lowerOpt (hldCommitId e) = true.
Proof.
  intros Hnone Hfree.
  unfold updateACRToHLDPipeline, bind at 1, findMatchingDeployments.
  rewrite Hnone. cbn [List.length Nat.ltb Nat.leb].
  unfold addNewRowToArcToHLDPipelines.
  set (e := mkRow _ _ _ _ _ _ _ _ _ _ _ _ _ _ _).
  exists e. unfold bind, ret.
  rewrite insertToTable_fresh by exact Hfree.
  cbn [rows calls logCall]. rewrite <- app_assoc.
  repeat split; apply isLowerCase_toLowerCase.
Qed.

(** C3. When the candidates the query by imageTag returns are [pre]
    followed by [c], so that [c] is the last of them however many come
    before it, and none of them passes the wildcard test (and the
    generated key is free), stage 2 inserts one new entity under the
    generated RowKey, in the partition of [c]. Its commitId, p1, service,
    sourceRepo and imageTag are those of [c], the last candidate, its
    env, hldCommitId and p2 are the lower-cased arguments. The table has
    one row more; taking the new entity out gives the rows as they were,
    so every row that was in the table, [c] among them, is untouched. *)
Theorem updateACRToHLDPipeline_clones_last (t : Table) (pre : list Row) (c : Row) :
  matching tableInfo "imageTag" tag (rows t) = (pre ++ [c])%list ->
  forallb (fun x => negb (isMatch x)) (pre ++ [c]) = true ->
  keyInUse (partitionKey tableInfo) (getRowKey uuid) (rows t) = false ->
  exists (e : Row) (t' : Table),
    run t = (Ok e, t')
    /\ calls t' = (calls t ++ [query; InsertEntity e])%list
    /\ PartitionKey e = PartitionKey c /\ RowKey e = getRowKey uuid
    /\ commitId e = commitId c /\ p1 e = p1 c /\ service e = service c
    /\ sourceRepo e = sourceRepo c /\ imageTag e = imageTag c
    /\ env e = Some (Js.toLowerCase envName)
    /\ hldCommitId e = Some (Js.toLowerCase hld)
    /\ p2 e = Some (Js.toLowerCase pipelineId)
    /\ In e (rows t')
    /\ List.length (rows t') = S (List.length (rows t))
    /\ filter (fun r => negb (sameKey e r)) (rows t') = rows t
    /\ In c (rows t') /\ sameKey e c = false.
Proof.
  intros Hm Hnone Hfree.
  assert (Hin : In c (matching tableInfo "imageTag" tag (rows t))).
  { rewrite Hm. apply in_or_app. right. now left. }
  apply matching_In in Hin as (Hin & Hpk & _).
  unfold updateACRToHLDPipeline, bind at 1, findMatchingDeployments.
  rewrite Hm.
  replace (0 <? List.length (pre ++ [c]))%nat with true
    by (symmetry; apply Nat.ltb_lt; rewrite List.length_app; cbn; lia).
  unfold bind at 1, updateMatchingArcToHLDPipelineEntry.
  rewrite (find_none_forall _ _ Hnone).
  unfold ret at 1, updateLastRowOfArcToHLDPipelines. rewrite lastOf_app.
  set (e := mkRow _ _ _ _ _ _ _ _ _ _ _ _ _ _ _).
  assert (Hfree' : hasKey e (rows (logCall query t)) = false).
  { unfold hasKey. cbn [e PartitionKey RowKey logCall rows]. now rewrite Hpk. }
  exists e, (mkTable (rows t ++ [e]) (calls t ++ [query; InsertEntity e])).
  unfold bind, ret.
  rewrite insertToTable_fresh by exact Hfree'.
  cbn [rows calls logCall]. rewrite <- app_assoc.
  repeat split.
  - apply in_or_app. right. now left.
  - rewrite List.length_app. cbn [List.length]. lia.
  - rewrite insert_others. now apply filter_others_fresh.
  - apply in_or_app. now left.
  - destruct (sameKey e c) eqn:E; [|reflexivity].
    apply keyIs_eq in E as [E1 E2]. cbn [e PartitionKey RowKey] in E1, E2.
    rewrite (keyInUse_In _ _ _ _ Hin Hpk E2) in Hfree. discriminate.
Qed.

(** C2. When the query by imageTag finds candidates and [c] is the first
    of them that passes the wildcard test on p2, hldCommitId and env,
    stage 2 replaces the entity stored under the key of [c]: partition
    key, row key, commitId, imageTag, p1, service and sourceRepo are
    those of [c], p2, hldCommitId and env are the lower-cased arguments,
    and the table has as many rows as before. *)
Theorem updateACRToHLDPipeline_mutates_first_match (t : Table)
    (pre post : list Row) (c : Row) :
  matching tableInfo "imageTag" tag (rows t) = (pre ++ c :: post)%list ->
  forallb (fun x => negb (isMatch x)) pre = true ->
  isMatch c = true ->
  exists e : Row,
    run t = (Ok e, mkTable (replaceRow e (rows t))
                           (calls t ++ [query; ReplaceEntity e]))
    /\ PartitionKey e = PartitionKey c /\ RowKey e = RowKey c
    /\ commitId e = commitId c /\ imageTag e = imageTag c /\ p1 e = p1 c
    /\ service e = service c /\ sourceRepo e = sourceRepo c
    /\ p2 e = Some (Js.toLowerCase pipelineId)
    /\ hldCommitId e = Some (Js.toLowerCase hld)
    /\ env e = Some (Js.toLowerCase envName)
    /\ List.length (rows (snd (run t))) = List.length (rows t)
    /\ In e (rows (snd (run t))).
Proof.
  intros Hm Hpre Hc.
  assert (Hin : In c (rows t)).
  { apply (matching_In tableInfo "imageTag" tag). rewrite Hm.
    apply in_or_app. right. now left. }
  assert (Hrun : exists e : Row,
    run t = (Ok e, mkTable (replaceRow e (rows t))
                           (calls t ++ [query; ReplaceEntity e]))
    /\ hasKey e (rows t) = true
    /\ PartitionKey e = PartitionKey c /\ RowKey e = RowKey c
    /\ commitId e = commitId c /\ imageTag e = imageTag c /\ p1 e = p1 c
    /\ service e = service c /\ sourceRepo e = sourceRepo c
    /\ p2 e = Some (Js.toLowerCase pipelineId)
    /\ hldCommitId e = Some (Js.toLowerCase hld)
    /\ env e = Some (Js.toLowerCase envName)).
  { unfold updateACRToHLDPipeline, bind at 1, findMatchingDeployments.
    rewrite Hm.
    replace (0 <? List.length (pre ++ c :: post))%nat with true
      by (symmetry; apply Nat.ltb_lt; rewrite List.length_app; cbn; lia).
    unfold bind at 1, updateMatchingArcToHLDPipelineEntry.
    rewrite (find_first _ _ _ _ Hpre Hc).
    set (e := mkRow _ _ _ _ _ _ _ _ _ _ _ _ _ _ _).
    assert (Hkey : hasKey e (rows (logCall query t)) = true).
    { unfold hasKey. cbn [e PartitionKey RowKey logCall rows].
      now apply (keyInUse_In _ _ _ c). }
    exists e. unfold bind, ret.
    rewrite updateEntryInTable_present by exact Hkey.
    cbn [rows calls logCall]. rewrite <- app_assoc.
    repeat split. exact Hkey. }
  destruct Hrun as (e & Hrun & Hkey & Hrest).
  exists e. rewrite Hrun. cbn [snd rows].
  repeat split; try apply Hrest.
  - apply replaceRow_length.
  - now apply replaceRow_In.
Qed.

End Stage2.

Lemma updateACRToHLDPipeline_mutates_first_match_witness :
  exists e : Row,
    stage2Demo = (Ok e, mkTable (replaceRow e [row1Demo])
                   [InsertEntity row1Demo;
                    QueryEntities "imageTag" "hello-spk-master-1234";
                    ReplaceEntity e])
    /\ RowKey e = "1b9d6bcdbbfd" /\ commitId e = "abc123"
    /\ env e = Some "qa" /\ hldCommitId e = Some "def456"
    /\ List.length (rows (snd stage2Demo)) = 1.
Proof.
  destruct (updateACRToHLDPipeline_mutates_first_match demoTable
              "6ec0bd7f-11c0-43da-975e-2a8ad9ebae0b" "202"
              "hello-spk-master-1234" "DEF456" "QA" None None
              (snd stage1Demo) [] [] row1Demo eq_refl eq_refl eq_refl)
    as (e & Hrun & _ & Hrk & Hcid & _ & _ & _ & _ & _ & Hhld & Henv & Hlen & _).
  exists e. repeat split; assumption.
Defined.

Lemma updateACRToHLDPipeline_clones_last_witness :
  matching demoTable "imageTag" "hello-spk-master-77" (rows twoReleases)
  = [releaseA; releaseB]
  /\ exists e : Row,
       fst stage2CloneDemo = Ok e
       /\ RowKey e = "110ec58aa0f2"
       /\ commitId e = "bbb222" /\ p1 e = "12" /\ service e = "svcB"
       /\ sourceRepo e = Some "https://example/b"
       /\ env e = Some "prod" /\ hldCommitId e = Some "facade"
       /\ p2 e = Some "23"
       /\ List.length (rows (snd stage2CloneDemo)) = 3
       /\ In releaseA (rows (snd stage2CloneDemo))
       /\ In releaseB (rows (snd stage2CloneDemo)).
Proof.
  split; [reflexivity|].
  destruct (updateACRToHLDPipeline_clones_last demoTable
              "110ec58a-a0f2-4ac4-8393-c866d813b8d1" "23"
              "hello-spk-master-77" "FACADE" "Prod" None None
              twoReleases [releaseA] releaseB eq_refl eq_refl eq_refl)
    as (e & t' & Hrun & _ & _ & Hrk & Hcid & Hp1 & Hsvc & Hrepo & _ & Henv
        & Hhld & Hp2 & _ & Hlen & Hothers & _ & _).
  exists e. unfold stage2CloneDemo. rewrite Hrun. cbn [fst snd].
  assert (Hold : forall r : Row, In r (rows twoReleases) -> In r (rows t')).
  { intros r Hr. rewrite <- Hothers in Hr. now apply filter_In in Hr. }
  repeat split; try assumption.
  - apply Hold. now left.
  - apply Hold. right. now left.
Defined.

Lemma updateACRToHLDPipeline_no_candidates_witness :
  exists e : Row,
    updateACRToHLDPipeline demoTable "6ec0bd7f-11c0-43da-975e-2a8ad9ebae0b"
      "202" "Orphan-Tag-9" "DEF456" "QA" None None emptyTable
    = (Ok e, mkTable [e] [QueryEntities "imageTag" "Orphan-Tag-9"; InsertEntity e])
    /\ RowKey e = "6ec0bd7f11c0"
    /\ commitId e = "" /\ p1 e = "" /\ service e = ""
    /\ env e = Some "qa" /\ hldCommitId e = Some "def456".
Proof.
  destruct (updateACRToHLDPipeline_no_candidates demoTable
              "6ec0bd7f-11c0-43da-975e-2a8ad9ebae0b" "202" "Orphan-Tag-9"
              "DEF456" "QA" None None emptyTable eq_refl eq_refl)
    as (e & Hrun & _ & Hrk & Hcid & Hp1 & Hsvc & Henv & Hhld & _).
  exists e. repeat split; assumption.
Defined.

(** ** One write per stage-2 call *)

Lemma writes_after_query (q w : StoreCall) (t : Table) (l : list Row) :
  isWrite q = false -> isWrite w = true ->
  writes (mkTable l (calls t ++ [q; w])) = S (writes t).
Proof.
  intros Hq Hw. unfold writes. cbn [calls].
  rewrite filter_app, List.length_app. cbn [filter]. rewrite Hq, Hw.
  cbn [List.length]. lia.
Qed.

Lemma wroteOnly_insert (q : StoreCall) (t : Table) (e : Row) :
  isWrite q = false ->
  wroteOnly q t e (mkTable (rows t ++ [e]) ((calls t ++ [q]) ++ [InsertEntity e])).
Proof.
  intros Hq. rewrite <- app_assoc. cbn [app]. repeat split.
  - exists (InsertEntity e). split; [now left|reflexivity].
  - now apply writes_after_query.
  - cbn [rows]. apply in_or_app. right. now left.
  - cbn [rows]. apply insert_others.
Qed.

Lemma wroteOnly_replace (q : StoreCall) (t : Table) (e : Row) :
  isWrite q = false -> hasKey e (rows t) = true ->
  wroteOnly q t e (mkTable (replaceRow e (rows t)) ((calls t ++ [q]) ++ [ReplaceEntity e])).
Proof.
  intros Hq Hk. rewrite <- app_assoc. cbn [app]. repeat split.
  - exists (ReplaceEntity e). split; [now right|reflexivity].
  - now apply writes_after_query.
  - cbn [rows]. now apply replaceRow_In.
  - cbn [rows]. apply replaceRow_others.
Qed.

(** C9. A stage-2 call that succeeds makes exactly one write on the
    table after its query, an insert or a replace of the entity it
    returns, whichever of the three branches it takes; the rows of every
    other key are unchanged. *)
Theorem updateACRToHLDPipeline_one_write (tableInfo : DeploymentTable)
    (uuid pipelineId tag hld envName : string) (prId repository : option string)
    (t t' : Table) (e : Row) :
  updateACRToHLDPipeline tableInfo uuid pipelineId tag hld envName prId repository t
  = (Ok e, t') ->
  wroteOnly (QueryEntities "imageTag" tag) t e t'.
Proof.
  unfold updateACRToHLDPipeline, bind at 1, findMatchingDeployments.
  destruct (matching tableInfo "imageTag" tag (rows t)) as [|c0 cs].
  - cbn [List.length Nat.ltb Nat.leb].
    unfold addNewRowToArcToHLDPipelines, bind, ret, insertToTable.
    match goal with |- context [hasKey ?x ?l] => destruct (hasKey x l) end;
      intros H; inversion H; subst.
    now apply wroteOnly_insert.
  - cbn [List.length Nat.ltb Nat.leb].
    unfold bind at 1, updateMatchingArcToHLDPipelineEntry.
    destruct (find _ (c0 :: cs)) as [found|].
    + unfold bind, ret, updateEntryInTable.
      match goal with |- context [hasKey ?x ?l] => destruct (hasKey x l) eqn:Hk end;
        intros H; inversion H; subst.
      now apply wroteOnly_replace.
    + unfold ret at 1, updateLastRowOfArcToHLDPipelines.
      destruct (lastOf (c0 :: cs)) as [lastEntry|];
        [|unfold throw; intros H; discriminate H].
      unfold bind, ret, insertToTable.
      match goal with |- context [hasKey ?x ?l] => destruct (hasKey x l) end;
        intros H; inversion H; subst.
      now apply wroteOnly_insert.
Qed.

Lemma updateACRToHLDPipeline_one_write_witness :
  exists (e : Row) (t' : Table),
    stage2AgainDemo = (Ok e, t')
    /\ wroteOnly (QueryEntities "imageTag" "hello-spk-master-1234")
         (snd stage2Demo) e t'
    /\ writes (snd stage2Demo) = 2 /\ writes t' = 3.
Proof.
  exists (match fst stage2AgainDemo with Ok e => e | Err _ => row1Demo end).
  exists (snd stage2AgainDemo).
  split; [reflexivity|]. split.
  - apply (updateACRToHLDPipeline_one_write demoTable
             "110ec58a-a0f2-4ac4-8393-c866d813b8d1" "203"
             "hello-spk-master-1234" "0FAB99" "Prod" (Some "PR-7") None).
    reflexivity.
  - split; reflexivity.
Defined.

(** ** Stage 3 *)

Section Stage3.

Variable tableInfo : DeploymentTable.
Variables uuid hld pipelineId : string.
Variables manifestCommit repository : option string.

(** C5, as the code has it. When the query by hldCommitId finds nothing,
    a non-empty PR id [prv] was given, and the query by pr finds the one
    candidate [c], which passes the wildcard test on p3 and
    manifestCommitId, stage 3 replaces the entity stored under the key
    of [c]: its hldCommitId becomes the argument as given, its p3 the
    lower-cased run id, and the fields of the earlier stages stay. *)
Theorem updateHLDToManifestPipeline_pr_fallback (prv : string) (t : Table) (c : Row) :
  matching tableInfo "hldCommitId" hld (rows t) = [] ->
  prv <> "" ->
  matching tableInfo "pr" prv (rows t) = [c] ->
  matchesHLDToManifest pipelineId manifestCommit c = true ->
  exists e : Row,
    updateHLDToManifestPipeline tableInfo uuid hld pipelineId manifestCommit
      (Some prv) repository t
    = (Ok e, mkTable (replaceRow e (rows t))
               (calls t ++ [QueryEntities "hldCommitId" hld;
                            QueryEntities "pr" prv; ReplaceEntity e]))
    /\ In e (replaceRow e (rows t))
    /\ List.length (replaceRow e (rows t)) = List.length (rows t)
    /\ PartitionKey e = PartitionKey c /\ RowKey e = RowKey c
    /\ hldCommitId e = Some hld
    /\ p3 e = Some (Js.toLowerCase pipelineId)
    /\ commitId e = commitId c /\ imageTag e = imageTag c /\ service e = service c
    /\ p1 e = p1 c /\ p2 e = p2 c /\ env e = env c
    /\ sourceRepo e = sourceRepo c /\ hldRepo e = hldRepo c.
Proof.
  intros Hnone Hpr Hm Hc.
  assert (Hin : In c (rows t)).
  { apply (matching_In tableInfo "pr" prv). rewrite Hm. now left. }
  unfold updateHLDToManifestPipeline, bind at 1, findMatchingDeployments at 1.
  rewrite Hnone. cbn [List.length Nat.eqb andb].
  replace (Js.truthy (Some prv)) with true
    by (destruct prv; [now contradiction Hpr|reflexivity]).
  unfold bind at 1, findMatchingDeployments. cbn [logCall rows calls].
  rewrite Hm. unfold updateHLDtoManifestHelper.
  cbn [List.length Nat.ltb Nat.leb].
  unfold bind at 1, updateHLDtoManifestEntry. cbn [find]. rewrite Hc.
  set (e := mkRow _ _ _ _ _ _ _ _ _ _ _ _ _ _ _).
  assert (Hkey : hasKey e (rows t) = true).
  { unfold hasKey. cbn [e PartitionKey RowKey]. now apply (keyInUse_In _ _ _ c). }
  exists e. unfold bind, ret, updateEntryInTable. cbn [logCall rows calls].
  rewrite Hkey. rewrite <- !app_assoc. cbn [app].
  repeat split.
  - now apply replaceRow_In.
  - apply replaceRow_length.
Qed.

End Stage3.

Lemma updateHLDToManifestPipeline_pr_fallback_witness :
  exists e : Row,
    stage3FallbackDemo
    = (Ok e, mkTable (replaceRow e [rowPr42])
               [QueryEntities "hldCommitId" "0fe1d2"; QueryEntities "pr" "42";
                ReplaceEntity e])
    /\ RowKey e = "1b9d6bcdbbfd"
    /\ hldCommitId e = Some "0fe1d2" /\ p3 e = Some "run-303".
Proof.
  destruct (updateHLDToManifestPipeline_pr_fallback demoTable
              "7d444840-9dc0-11d1-b245-5ffdce74fad2" "0fe1d2" "Run-303"
              None None "42" tablePr42 rowPr42 eq_refl
              ltac:(discriminate) eq_refl eq_refl)
    as (e & Hrun & _ & _ & _ & Hrk & Hhld & Hp3 & _).
  exists e. repeat split; assumption.
Defined.

(** C5 as worded fails on a run id with capital letters: the fallback
    query by pr finds the one candidate, which passes the wildcard test,
    and the p3 that is stored is not the run id of the call. *)
Lemma updateHLDToManifestPipeline_p3_not_verbatim :
  matching demoTable "hldCommitId" "0fe1d2" (rows tablePr42) = []
  /\ matching demoTable "pr" "42" (rows tablePr42) = [rowPr42]
  /\ matchesHLDToManifest "Run-303" None rowPr42 = true
  /\ exists (e : Row) (t' : Table),
       stage3FallbackDemo = (Ok e, t')
       /\ rows t' = [e]
       /\ RowKey e = RowKey rowPr42
       /\ hldCommitId e = Some "0fe1d2"
       /\ p3 e = Some "run-303"
       /\ p3 e <> Some "Run-303".
Proof.
  repeat split.
  eexists. eexists. repeat split; try reflexivity.
  cbn. discriminate.
Qed.

(** ** The manifest-commit finalizer *)

Section Finalizer.

Variable tableInfo : DeploymentTable.
Variables pipelineId manifestCommit : string.
Variable repository : option string.

Local Abbreviation isP3 := (selects tableInfo "p3" pipelineId).

Lemma finalized_key (e : Row) :
  PartitionKey (finalized manifestCommit repository e) = PartitionKey e
  /\ RowKey (finalized manifestCommit repository e) = RowKey e
  /\ p3 (finalized manifestCommit repository e) = p3 e.
Proof.
  unfold finalized. destruct repository as [r|]; [destruct (Js.truthy (Some r))|];
    repeat split.
Qed.

Lemma finalized_idem (e : Row) :
  finalized manifestCommit repository (finalized manifestCommit repository e)
  = finalized manifestCommit repository e.
Proof.
  unfold finalized. destruct repository as [r|]; [destruct (Js.truthy (Some r))|];
    reflexivity.
Qed.

Lemma finalized_isP3 (e : Row) :
  isP3 (finalized manifestCommit repository e) = isP3 e.
Proof.
  unfold isP3. destruct (finalized_key e) as (-> & _ & Hp3).
  change (getField "p3" (finalized manifestCommit repository e))
    with (p3 (finalized manifestCommit repository e)).
  now rewrite Hp3.
Qed.

(** What one call of the finalizer does, by the first candidate. *)
Lemma updateManifestCommitId_run (t : Table) :
  updateManifestCommitId tableInfo pipelineId manifestCommit repository t
  = match filter isP3 (rows t) with
    | e0 :: _ =>
        let e := finalized manifestCommit repository e0 in
        (Ok e, mkTable (replaceRow e (rows t))
                  (calls t ++ [QueryEntities "p3" pipelineId; ReplaceEntity e]))
    | [] => (Err NoCorrelationFoundError, logCall (QueryEntities "p3" pipelineId) t)
    end.
Proof.
  unfold updateManifestCommitId, bind at 1, findMatchingDeployments, matching.
  fold isP3. destruct (filter isP3 (rows t)) as [|e0 tl] eqn:Hf.
  - reflexivity.
  - fold (finalized manifestCommit repository e0).
    assert (Hin : In e0 (rows t)).
    { apply (proj1 (filter_In isP3 e0 (rows t))). rewrite Hf. now left. }
    destruct (finalized_key e0) as (Hpk & Hrk & _).
    assert (Hkey : hasKey (finalized manifestCommit repository e0)
                     (rows (logCall (QueryEntities "p3" pipelineId) t)) = true).
    { unfold hasKey. rewrite Hpk, Hrk. now apply (keyInUse_In _ _ _ e0). }
    unfold bind, ret. rewrite updateEntryInTable_present by exact Hkey.
    cbn [logCall rows calls]. now rewrite <- app_assoc.
Qed.

(** C6. When the query by p3 finds no entity, the finalizer fails with
    the no-correlation error; it made no write, and the rows of the
    table are the ones it started with. *)
Theorem updateManifestCommitId_no_match (t : Table) :
  matching tableInfo "p3" pipelineId (rows t) = [] ->
  let out := updateManifestCommitId tableInfo pipelineId manifestCommit repository t in
  fst out = Err NoCorrelationFoundError
  /\ rows (snd out) = rows t
  /\ calls (snd out) = (calls t ++ [QueryEntities "p3" pipelineId])%list
  /\ writes (snd out) = writes t.
Proof.
  intros Hnone out. subst out. rewrite updateManifestCommitId_run.
  unfold matching in Hnone. fold isP3 in Hnone. rewrite Hnone.
  cbn [fst snd]. repeat split. rewrite writes_log. cbn [isWrite]. lia.
Qed.

Lemma replaceRow_idem (e : Row) (l : list Row) :
  replaceRow e (replaceRow e l) = replaceRow e l.
Proof.
  unfold replaceRow. rewrite map_map. apply map_ext. intros x.
  destruct (sameKey e x) eqn:E; [now rewrite sameKey_refl|now rewrite E].
Qed.

(** After a replace by an entity that passes the filter, under the key
    of the first candidate, that entity is the first candidate. *)
Lemma filter_head_replaceRow (f : Row -> bool) (e1 e0 : Row) (l tl : list Row) :
  filter f l = e0 :: tl -> f e1 = true -> sameKey e1 e0 = true ->
  exists tl', filter f (replaceRow e1 l) = e1 :: tl'.
Proof.
  intros Hf H1 Hk. induction l as [|x l IH]; [discriminate Hf|].
  cbn [filter] in Hf. cbn [replaceRow map filter]. fold (replaceRow e1 l).
  destruct (f x) eqn:Efx.
  - injection Hf as -> _. rewrite Hk, H1. eauto.
  - destruct (sameKey e1 x).
    + rewrite H1. eauto.
    + rewrite Efx. now apply IH.
Qed.

(** C7. Calling the finalizer a second time with the same run id,
    manifest commit and repository leaves the rows of the table as the
    first call left them. *)
Theorem updateManifestCommitId_idempotent (t : Table) :
  let call := updateManifestCommitId tableInfo pipelineId manifestCommit repository in
  rows (snd (call (snd (call t)))) = rows (snd (call t))
  /\ fst (call (snd (call t))) = fst (call t).
Proof.
  intros call. subst call. rewrite (updateManifestCommitId_run t).
  destruct (filter isP3 (rows t)) as [|e0 tl] eqn:Hf.
  - cbn [snd fst]. rewrite updateManifestCommitId_run.
    cbn [logCall rows]. rewrite Hf. split; reflexivity.
  - cbn [snd fst]. rewrite updateManifestCommitId_run. cbn [rows calls].
    assert (Hp : isP3 e0 = true).
    { apply (proj1 (filter_In isP3 e0 (rows t))). rewrite Hf. now left. }
    destruct (finalized_key e0) as (Hpk & Hrk & _).
    destruct (filter_head_replaceRow isP3
                (finalized manifestCommit repository e0) e0 (rows t) tl Hf)
      as [tl' Hf'].
    + now rewrite finalized_isP3.
    + apply keyIs_eq. now rewrite Hpk, Hrk.
    + rewrite Hf'. cbn [snd fst rows]. rewrite finalized_idem.
      split; [apply replaceRow_idem|reflexivity].
Qed.

End Finalizer.

Lemma updateManifestCommitId_no_match_witness :
  matching demoTable "p3" "303" (rows (snd stage2Demo)) = []
  /\ fst (updateManifestCommitId demoTable "303" "0a1b2c" None (snd stage2Demo))
     = Err NoCorrelationFoundError
  /\ rows (snd (updateManifestCommitId demoTable "303" "0a1b2c" None (snd stage2Demo)))
     = rows (snd stage2Demo).
Proof.
  split; [reflexivity|].
  destruct (updateManifestCommitId_no_match demoTable "303" "0a1b2c" None
              (snd stage2Demo) eq_refl) as (Herr & Hrows & _).
  split; assumption.
Defined.

(** ** Case normalization *)

Lemma normalizedRow_intro (e : Row) :
  lowerOpt (env e) = true -> lowerOpt (hldCommitId e) = true ->
  lowerOpt (pr e) = true -> lowerOpt (manifestCommitId e) = true ->
  lowerOpt (sourceRepo e) = true -> lowerOpt (hldRepo e) = true ->
  lowerOpt (manifestRepo e) = true -> normalizedRow e = true.
Proof.
  intros H1 H2 H3 H4 H5 H6 H7. unfold normalizedRow.
  now rewrite H1, H2, H3, H4, H5, H6, H7.
Qed.

Lemma normalizedRow_elim (e : Row) :
  normalizedRow e = true ->
  lowerOpt (env e) = true /\ lowerOpt (hldCommitId e) = true
  /\ lowerOpt (pr e) = true /\ lowerOpt (manifestCommitId e) = true
  /\ lowerOpt (sourceRepo e) = true /\ lowerOpt (hldRepo e) = true
  /\ lowerOpt (manifestRepo e) = true.
Proof.
  unfold normalizedRow. rewrite !andb_true_iff. tauto.
Qed.

Lemma lowerOpt_toLowerCase (s : string) : lowerOpt (Some (Js.toLowerCase s)) = true.
Proof. apply isLowerCase_toLowerCase. Qed.

Create HintDb lower.
#[local] Hint Resolve lowerOpt_toLowerCase lowerOpt_lowerIfGiven : lower.

Ltac lower_fields :=
  apply normalizedRow_intro;
  cbn [env hldCommitId pr manifestCommitId sourceRepo hldRepo manifestRepo];
  auto with lower.

Section Normalization.

Variable tableInfo : DeploymentTable.

Lemma normalized_insert (e : Row) (t : Table) {A} (a : A) :
  normalizedRow e = true -> normalizedTable t ->
  normalizedTable (snd ((insertToTable tableInfo e ;;; ret a) t)).
Proof.
  intros He Ht. unfold bind, ret, insertToTable, normalizedTable.
  destruct (hasKey e (rows t)); cbn [snd rows logCall]; [exact Ht|].
  apply Forall_app. split; [exact Ht|]. now constructor.
Qed.

Lemma normalized_replace (e : Row) (t : Table) {A} (a : A) :
  normalizedRow e = true -> normalizedTable t ->
  normalizedTable (snd ((updateEntryInTable tableInfo e ;;; ret a) t)).
Proof.
  intros He Ht. unfold bind, ret, updateEntryInTable, normalizedTable.
  destruct (hasKey e (rows t)); cbn [snd rows logCall]; [|exact Ht].
  unfold replaceRow. apply Forall_map.
  eapply Forall_impl; [|exact Ht]. intros x Hx. cbn beta.
  now destruct (sameKey e x).
Qed.

Lemma normalized_candidate (name value : string) (t : Table) (e : Row) :
  normalizedTable t -> In e (matching tableInfo name value (rows t)) ->
  normalizedRow e = true.
Proof.
  intros Ht Hin. apply matching_In in Hin as (Hin & _).
  exact (proj1 (Forall_forall _ _) Ht e Hin).
Qed.

(** Stage 1 keeps a normalized table normalized. *)
Lemma addSrcToACRPipeline_normalized
    (uuid pipelineId tag svc cid : string) (repository : option string) (t : Table) :
  normalizedTable t ->
  normalizedTable
    (snd (addSrcToACRPipeline tableInfo uuid pipelineId tag svc cid repository t)).
Proof.
  intros Ht. unfold addSrcToACRPipeline.
  apply normalized_insert; [|exact Ht].
  lower_fields.
Qed.

(** Stage 2 keeps a normalized table normalized, whatever the casing of
    its arguments, in each of its three branches. *)
Lemma updateACRToHLDPipeline_normalized
    (uuid pipelineId tag hld envName : string) (prId repository : option string)
    (t : Table) :
  normalizedTable t ->
  normalizedTable
    (snd (updateACRToHLDPipeline tableInfo uuid pipelineId tag hld envName
            prId repository t)).
Proof.
  intros Ht.
  unfold updateACRToHLDPipeline, bind at 1, findMatchingDeployments.
  pose proof (normalized_candidate "imageTag" tag t) as Hcand.
  specialize (fun e => Hcand e Ht).
  set (t1 := logCall _ t).
  assert (Ht1 : normalizedTable t1) by exact Ht.
  destruct (matching tableInfo "imageTag" tag (rows t)) as [|c0 cs].
  - cbn [List.length Nat.ltb Nat.leb]. unfold addNewRowToArcToHLDPipelines.
    apply normalized_insert; [|exact Ht1].
    lower_fields.
  - cbn [List.length Nat.ltb Nat.leb].
    unfold updateMatchingArcToHLDPipelineEntry.
    destruct (find _ (c0 :: cs)) as [found|] eqn:Hfind.
    + apply find_some in Hfind as [Hin _].
      destruct (normalizedRow_elim _ (Hcand _ Hin)) as (_ & _ & _ & _ & Hsrc & _).
      set (e := mkRow _ _ _ _ _ _ _ _ _ _ _ _ _ _ _).
      assert (He : normalizedRow e = true)
        by (unfold e; lower_fields).
      pose proof (normalized_replace e t1 (Some e) He Ht1) as Hrep.
      unfold bind, ret in *. destruct (updateEntryInTable tableInfo e t1) as [[[]|err] t2];
        exact Hrep.
    + unfold bind at 1, ret at 1. unfold updateLastRowOfArcToHLDPipelines.
      destruct (lastOf (c0 :: cs)) as [lastEntry|] eqn:Hlast; [|exact Ht1].
      apply lastOf_In in Hlast.
      destruct (normalizedRow_elim _ (Hcand _ Hlast)) as (_ & _ & _ & _ & Hsrc & _).
      apply normalized_insert; [|exact Ht1].
      lower_fields.
Qed.

End Normalization.

Section NormalizationStage3.

Variable tableInfo : DeploymentTable.
Variables uuid hld pipelineId : string.
Variables manifestCommit prId repository : option string.

Lemma lowerOpt_keepIfGiven (x : option string) :
  lowerOpt x = true -> lowerOpt (keepIfGiven x) = true.
Proof. unfold keepIfGiven. now destruct (Js.truthy x). Qed.

(** The clone branch of stage 3 lower-cases hldCommitId, pr,
    manifestCommitId and the repository. *)
Lemma updateLastHLDtoManifestEntry_normalized (entries : list Row) (t : Table) :
  (forall e, In e entries -> normalizedRow e = true) ->
  normalizedTable t ->
  normalizedTable
    (snd (updateLastHLDtoManifestEntry entries tableInfo uuid hld pipelineId
            manifestCommit prId repository t)).
Proof.
  intros Hcand Ht. unfold updateLastHLDtoManifestEntry.
  destruct (lastOf entries) as [lastEntry|] eqn:Hlast; [|exact Ht].
  apply lastOf_In in Hlast.
  destruct (normalizedRow_elim _ (Hcand _ Hlast))
    as (Henv & _ & _ & _ & Hsrc & Hrepo & _).
  apply normalized_insert; [|exact Ht]. lower_fields.
Qed.

(** So does the branch that inserts a row with blank upstream fields. *)
Lemma addNewRowToHLDtoManifestPipeline_normalized (t : Table) :
  normalizedTable t ->
  normalizedTable
    (snd (addNewRowToHLDtoManifestPipeline tableInfo uuid hld pipelineId
            manifestCommit prId repository t)).
Proof.
  intros Ht. unfold addNewRowToHLDtoManifestPipeline.
  apply normalized_insert; [|exact Ht]. lower_fields.
Qed.

(** The branch that replaces the matching row stores hldCommitId and pr
    as they were given: it keeps the table normalized when these two
    arguments are lower-case already. *)
Lemma updateHLDtoManifestEntry_normalized (entries : list Row) (t : Table) :
  (forall e, In e entries -> normalizedRow e = true) ->
  Js.isLowerCase hld = true -> lowerOpt prId = true ->
  normalizedTable t ->
  normalizedTable
    (snd (updateHLDtoManifestEntry entries tableInfo hld pipelineId
            manifestCommit prId repository t)).
Proof.
  intros Hcand Hhld Hpr Ht. unfold updateHLDtoManifestEntry.
  destruct (find _ entries) as [found|] eqn:Hfind; [|exact Ht].
  apply find_some in Hfind as [Hin _].
  destruct (normalizedRow_elim _ (Hcand _ Hin))
    as (Henv & _ & _ & _ & Hsrc & Hrepo & _).
  apply lowerOpt_keepIfGiven in Hpr.
  apply normalized_replace; [|exact Ht]. lower_fields.
Qed.

End NormalizationStage3.

(** The finalizer stores the manifest commit as it was given: it keeps
    the table normalized when that argument is lower-case already. *)
Lemma updateManifestCommitId_normalized (tableInfo : DeploymentTable)
    (pipelineId manifestCommit : string) (repository : option string) (t : Table) :
  Js.isLowerCase manifestCommit = true ->
  normalizedTable t ->
  normalizedTable
    (snd (updateManifestCommitId tableInfo pipelineId manifestCommit repository t)).
Proof.
  intros Hmc Ht. unfold updateManifestCommitId, bind at 1, findMatchingDeployments.
  pose proof (normalized_candidate tableInfo "p3" pipelineId t) as Hcand.
  destruct (matching tableInfo "p3" pipelineId (rows t)) as [|e0 tl]; [exact Ht|].
  specialize (Hcand e0 Ht (or_introl eq_refl)).
  destruct (normalizedRow_elim _ Hcand) as (H1 & H2 & H3 & H4 & H5 & H6 & H7).
  apply normalized_replace; [|exact Ht].
  change (lowerOpt (Some manifestCommit) = true) in Hmc.
  unfold finalized.
  destruct repository as [r|]; [destruct (Js.truthy (Some r))|];
    unfold set_manifestRepo, set_manifestCommitId; lower_fields.
Qed.

(** C1, at inputs where the code leaves it. From normalized tables, the
    branch of stage 3 that replaces the matching row stores pr and
    hldCommitId with the capitals of the call, and the finalizer stores
    manifestCommitId with the capitals of the call (it lower-cases the
    repository). *)
Theorem normalization_not_kept_by_replace_paths :
  forallb normalizedRow (rows (snd stage2Demo)) = true
  /\ (exists e, stage3Demo = (Ok e, mkTable [e] (calls (snd stage3Demo)))
                /\ pr e = Some "PR-9" /\ lowerOpt (pr e) = false)
  /\ forallb normalizedRow (rows tablePr42) = true
  /\ (exists e, stage3UpperDemo = (Ok e, mkTable [e] (calls (snd stage3UpperDemo)))
                /\ hldCommitId e = Some "0FE1D2"
                /\ lowerOpt (hldCommitId e) = false)
  /\ (exists e, finalizerDemo = (Ok e, mkTable [e] (calls (snd finalizerDemo)))
                /\ manifestCommitId e = Some "0A1B2C"
                /\ lowerOpt (manifestCommitId e) = false
                /\ manifestRepo e = Some "https://example/manifests").
Proof.
  vm_compute. repeat split; eexists; repeat split.
Qed.

(** * Further properties of the deployment table *)

(** ** What a resolver call comes to *)

Section Runs.

Variable tableInfo : DeploymentTable.

Lemma insert_ret_run (e : Row) (t : Table) :
  (insertToTable tableInfo e ;;; ret e) t
  = if hasKey e (rows t)
    then (Err StoreWriteError, logCall (InsertEntity e) t)
    else (Ok e, mkTable (rows t ++ [e]) (calls t ++ [InsertEntity e])).
Proof. unfold bind, ret, insertToTable. now destruct (hasKey e (rows t)). Qed.

Lemma replace_ret_run (e : Row) (t : Table) :
  (updateEntryInTable tableInfo e ;;; ret e) t
  = if hasKey e (rows t)
    then (Ok e, mkTable (replaceRow e (rows t)) (calls t ++ [ReplaceEntity e]))
    else (Err StoreWriteError, logCall (ReplaceEntity e) t).
Proof. unfold bind, ret, updateEntryInTable. now destruct (hasKey e (rows t)). Qed.

Lemma lastOf_cons (c0 : Row) (cs : list Row) :
  exists l, lastOf (c0 :: cs) = Some l /\ In l (c0 :: cs).
Proof.
  destruct (lastOf (c0 :: cs)) as [l|] eqn:E.
  - exists l. split; [reflexivity|]. now apply lastOf_In.
  - unfold lastOf in E. apply nth_error_None in E. cbn [List.length] in E. lia.
Qed.

Lemma matching_app (name value : string) (l1 l2 : list Row) :
  matching tableInfo name value (l1 ++ l2)
  = (matching tableInfo name value l1 ++ matching tableInfo name value l2)%list.
Proof. apply filter_app. Qed.

Lemma matching_selects (name value : string) (l : list Row) (e : Row) :
  In e (matching tableInfo name value l) <->
  In e l /\ selects tableInfo name value e = true.
Proof. apply filter_In. Qed.

(** Stage 2, branch by branch. *)
Lemma updateACRToHLDPipeline_run
    (uuid pipelineId tag hld envName : string) (prId repository : option string)
    (t : Table) :
  updateACRToHLDPipeline tableInfo uuid pipelineId tag hld envName prId repository t
  = let t1 := logCall (QueryEntities "imageTag" tag) t in
    match matching tableInfo "imageTag" tag (rows t) with
    | [] =>
        let e := arcToHLDBlank tableInfo uuid pipelineId tag hld envName prId repository in
        (insertToTable tableInfo e ;;; ret e) t1
    | c0 :: cs =>
        match find (matchesArcToHLD pipelineId hld envName) (c0 :: cs) with
        | Some found =>
            let e := arcToHLDUpdated found pipelineId hld envName prId repository in
            (updateEntryInTable tableInfo e ;;; ret e) t1
        | None =>
            match lastOf (c0 :: cs) with
            | Some lastEntry =>
                let e := arcToHLDCloned lastEntry uuid pipelineId hld envName
                           prId repository in
                (insertToTable tableInfo e ;;; ret e) t1
            | None => (Err TypeError, t1)
            end
        end
    end.
Proof.
  unfold updateACRToHLDPipeline, bind at 1, findMatchingDeployments.
  destruct (matching tableInfo "imageTag" tag (rows t)) as [|c0 cs]; [reflexivity|].
  cbn [List.length Nat.ltb Nat.leb].
  unfold bind at 1, updateMatchingArcToHLDPipelineEntry.
  destruct (find _ (c0 :: cs)) as [found|].
  - fold (arcToHLDUpdated found pipelineId hld envName prId repository).
    cbv zeta. unfold bind, ret.
    now destruct (updateEntryInTable tableInfo _ _) as [[[]|err] t2].
  - unfold ret at 1, updateLastRowOfArcToHLDPipelines.
    now destruct (lastOf (c0 :: cs)).
Qed.

End Runs.

(** ** When stage 2 fails *)

Section Stage2Failure.

Variable tableInfo : DeploymentTable.
Variables uuid pipelineId tag hld envName : string.
Variables prId repository : option string.

Local Abbreviation run :=
  (updateACRToHLDPipeline tableInfo uuid pipelineId tag hld envName prId repository).

Local Abbreviation isMatch := (matchesArcToHLD pipelineId hld envName).

Lemma candidate_hasKey (name value : string) (l : list Row) (c e : Row) :
  In c (matching tableInfo name value l) ->
  PartitionKey e = PartitionKey c -> RowKey e = RowKey c ->
  hasKey e l = true.
Proof.
  intros Hin Hpk Hrk. apply matching_In in Hin as (Hin & _).
  unfold hasKey. rewrite Hpk, Hrk. now apply (keyInUse_In _ _ _ c).
Qed.

(** When no candidate for the image tag passes the wildcard test and
    the RowKey made from the UUID is already used in the partition, the
    stage-2 call fails: after its query it has tried one insert, of an
    entity under that RowKey, the insert is rejected, and the rows of the
    table are as before. And a stage-2 call that fails leaves the rows as
    they were: its one write is the last thing it does. *)
Theorem updateACRToHLDPipeline_key_taken_fails (t : Table) :
  (find isMatch (matching tableInfo "imageTag" tag (rows t)) = None ->
   keyInUse (partitionKey tableInfo) (getRowKey uuid) (rows t) = true ->
   exists e : Row,
     run t = (Err StoreWriteError,
              mkTable (rows t)
                (calls t ++ [QueryEntities "imageTag" tag; InsertEntity e]))
     /\ RowKey e = getRowKey uuid)
  /\ (forall err t', run t = (Err err, t') -> rows t' = rows t).
Proof.
  rewrite updateACRToHLDPipeline_run. cbv zeta.
  destruct (matching tableInfo "imageTag" tag (rows t)) as [|c0 cs] eqn:Hm.
  - rewrite insert_ret_run. unfold hasKey.
    cbn [arcToHLDBlank PartitionKey RowKey logCall rows calls find].
    destruct (keyInUse _ _ (rows t)); split.
    + intros _ _. eexists. unfold logCall. cbn [rows calls].
      rewrite <- app_assoc. split; reflexivity.
    + intros err t' H. now inversion H.
    + intros _ H. discriminate H.
    + intros err t' H. discriminate H.
  - destruct (find isMatch (c0 :: cs)) as [found|] eqn:Hfind.
    + apply find_some in Hfind as [Hin _]. rewrite <- Hm in Hin.
      rewrite replace_ret_run.
      rewrite (candidate_hasKey "imageTag" tag _ found) by (assumption || reflexivity).
      split.
      * intros H. discriminate H.
      * intros err t' H. discriminate H.
    + destruct (lastOf_cons c0 cs) as (l & Hl & Hin). rewrite Hl.
      rewrite <- Hm in Hin. apply matching_In in Hin as (_ & Hpk & _).
      rewrite insert_ret_run. unfold hasKey.
      cbn [arcToHLDCloned PartitionKey RowKey logCall rows calls]. rewrite Hpk.
      destruct (keyInUse _ _ (rows t)); split.
      * intros _ _. eexists. unfold logCall. cbn [rows calls].
      rewrite <- app_assoc. split; reflexivity.
      * intros err t' H. now inversion H.
      * intros _ H. discriminate H.
      * intros err t' H. discriminate H.
Qed.

End Stage2Failure.

Lemma updateACRToHLDPipeline_key_taken_fails_witness :
  exists e : Row,
    updateACRToHLDPipeline demoTable "1b9d6bcd-bbfd-4b2d-0000-000000000000"
      "209" "hello-spk-master-1234" "0fab99" "prod" None None (snd stage2Demo)
    = (Err StoreWriteError,
       mkTable (rows (snd stage2Demo))
         (calls (snd stage2Demo)
          ++ [QueryEntities "imageTag" "hello-spk-master-1234"; InsertEntity e])%list)
    /\ RowKey e = "1b9d6bcdbbfd".
Proof.
  destruct (updateACRToHLDPipeline_key_taken_fails demoTable
              "1b9d6bcd-bbfd-4b2d-0000-000000000000" "209"
              "hello-spk-master-1234" "0fab99" "prod" None None (snd stage2Demo))
    as [Hfail _].
  exact (Hfail eq_refl eq_refl).
Defined.

(** ** Repeating a stage-2 call *)

Section Stage2Repeat.

Variable tableInfo : DeploymentTable.
Variables pipelineId tag hld envName : string.
Variables prId repository : option string.

Local Abbreviation run uuid :=
  (updateACRToHLDPipeline tableInfo uuid pipelineId tag hld envName prId repository).

Local Abbreviation isMatch := (matchesArcToHLD pipelineId hld envName).

Local Abbreviation isCandidate := (selects tableInfo "imageTag" tag).

Lemma isLowerCase_eq (s : string) : Js.isLowerCase s = true -> Js.toLowerCase s = s.
Proof. apply String.eqb_eq. Qed.

Lemma find_filter {A} (f g : A -> bool) (l : list A) :
  find f (filter g l) = find (fun x => g x && f x) l.
Proof.
  induction l as [|x l IH]; [reflexivity|]. cbn [filter find].
  destruct (g x); cbn [andb find]; [now rewrite IH|exact IH].
Qed.

Lemma find_matching (f : Row -> bool) (name value : string) (l : list Row) :
  find f (matching tableInfo name value l)
  = find (fun x => selects tableInfo name value x && f x) l.
Proof. apply find_filter. Qed.

Lemma find_app_none {A} (f : A -> bool) (l : list A) (x : A) :
  find f l = None -> f x = true -> find f (l ++ [x]) = Some x.
Proof.
  induction l as [|y l IH]; cbn [app find]; intros Hn Hx; [now rewrite Hx|].
  destruct (f y); [discriminate Hn|now apply IH].
Qed.

Lemma find_replaceRow (f : Row -> bool) (e c : Row) (l : list Row) :
  find f l = Some c -> f e = true -> sameKey e c = true ->
  find f (replaceRow e l) = Some e.
Proof.
  intros Hf He Hk. induction l as [|x l IH]; [discriminate Hf|].
  cbn [find] in Hf. cbn [replaceRow map find]. fold (replaceRow e l).
  destruct (f x) eqn:Efx.
  - injection Hf as ->. now rewrite Hk, He.
  - destruct (sameKey e x); [now rewrite He|]. rewrite Efx. now apply IH.
Qed.

Lemma replaceRow_fresh (e : Row) (l : list Row) :
  hasKey e l = false -> replaceRow e l = l.
Proof.
  unfold hasKey, keyInUse, replaceRow, sameKey. intros H.
  induction l as [|x l IH]; [reflexivity|]. cbn [existsb] in H.
  apply orb_false_iff in H as [Hx Hl]. cbn [map]. now rewrite Hx, IH.
Qed.

Lemma replaceRow_appended (e : Row) (l : list Row) :
  hasKey e l = false -> replaceRow e (l ++ [e]) = (l ++ [e])%list.
Proof.
  intros H. unfold replaceRow. rewrite map_app. fold (replaceRow e l).
  rewrite (replaceRow_fresh _ _ H). cbn [map]. now rewrite sameKey_refl.
Qed.

(** The branch that replaces: what the call comes to when some
    candidate passes the wildcard test. *)
Lemma updateACRToHLDPipeline_replace_run (uuid : string) (t : Table) (c : Row) :
  find isMatch (matching tableInfo "imageTag" tag (rows t)) = Some c ->
  let e := arcToHLDUpdated c pipelineId hld envName prId repository in
  run uuid t
  = (Ok e, mkTable (replaceRow e (rows t))
             ((calls t ++ [QueryEntities "imageTag" tag]) ++ [ReplaceEntity e])).
Proof.
  intros Hfind e. rewrite updateACRToHLDPipeline_run. cbv zeta.
  destruct (matching tableInfo "imageTag" tag (rows t)) as [|c0 cs] eqn:Hm;
    [discriminate Hfind|].
  rewrite Hfind. apply find_some in Hfind as [Hin _]. rewrite <- Hm in Hin.
  rewrite replace_ret_run.
  now rewrite (candidate_hasKey tableInfo "imageTag" tag _ c)
    by (assumption || reflexivity).
Qed.

(** The two ways a stage-2 call succeeds. *)
Lemma updateACRToHLDPipeline_success_shape (uuid : string) (t t1 : Table) (e : Row) :
  run uuid t = (Ok e, t1) ->
  let cands := matching tableInfo "imageTag" tag (rows t) in
  (exists c, find isMatch cands = Some c
             /\ e = arcToHLDUpdated c pipelineId hld envName prId repository
             /\ rows t1 = replaceRow e (rows t))
  \/ (find isMatch cands = None /\ hasKey e (rows t) = false
      /\ rows t1 = (rows t ++ [e])%list
      /\ (e = arcToHLDBlank tableInfo uuid pipelineId tag hld envName prId repository
          \/ exists l, In l cands
                       /\ e = arcToHLDCloned l uuid pipelineId hld envName
                                prId repository)).
Proof.
  intros Hrun cands. subst cands.
  destruct (find isMatch (matching tableInfo "imageTag" tag (rows t)))
    as [c|] eqn:Hfind.
  - left. exists c.
    rewrite (updateACRToHLDPipeline_replace_run uuid t c Hfind) in Hrun.
    inversion Hrun. subst. now repeat split.
  - right. rewrite updateACRToHLDPipeline_run in Hrun. cbv zeta in Hrun.
    destruct (matching tableInfo "imageTag" tag (rows t)) as [|c0 cs] eqn:Hm.
    + rewrite insert_ret_run in Hrun. cbn [logCall rows calls] in Hrun.
      destruct (hasKey _ (rows t)) eqn:Hk; inversion Hrun; subst.
      repeat split; try assumption. now left.
    + rewrite Hfind in Hrun. destruct (lastOf_cons c0 cs) as (l & Hl & Hin).
      rewrite Hl, insert_ret_run in Hrun. cbn [logCall rows calls] in Hrun.
      destruct (hasKey _ (rows t)) eqn:Hk; inversion Hrun; subst.
      repeat split; try assumption. right. now exists l.
Qed.

Hypothesis pipelineId_lower : Js.isLowerCase pipelineId = true.
Hypothesis tag_lower : Js.isLowerCase tag = true.
Hypothesis hld_lower : Js.isLowerCase hld = true.
Hypothesis envName_lower : Js.isLowerCase envName = true.

Lemma isMatch_written (e : Row) :
  p2 e = Some (Js.toLowerCase pipelineId) ->
  hldCommitId e = Some (Js.toLowerCase hld) ->
  env e = Some (Js.toLowerCase envName) ->
  isMatch e = true.
Proof.
  intros H2 Hh He. unfold matchesArcToHLD, wildcard. rewrite H2, Hh, He.
  rewrite !isLowerCase_eq by assumption. now rewrite !String.eqb_refl.
Qed.

(** With lower-case arguments, repeating a stage-2 call that succeeded
    finds the row the first call wrote, writes the same entity over it and
    returns it: the rows of the table stay as the first call left them,
    whatever UUID the second call draws. *)
Theorem updateACRToHLDPipeline_repeat (uuid uuid' : string) (t t1 : Table) (e : Row) :
  run uuid t = (Ok e, t1) ->
  exists t2, run uuid' t1 = (Ok e, t2) /\ rows t2 = rows t1.
Proof.
  intros Hrun.
  pose proof (updateACRToHLDPipeline_success_shape uuid t t1 e Hrun) as Hshape.
  cbv zeta in Hshape.
  assert (Hcand : forall c, In c (matching tableInfo "imageTag" tag (rows t)) ->
                            PartitionKey c = partitionKey tableInfo /\ imageTag c = tag).
  { intros c Hc. apply matching_In in Hc as (_ & Hpk & Hf). split; [exact Hpk|].
    cbn in Hf. now injection Hf. }
  assert (Hfacts : isCandidate e = true /\ isMatch e = true
                   /\ arcToHLDUpdated e pipelineId hld envName prId repository = e
                   /\ find (fun x => isCandidate x && isMatch x) (rows t1) = Some e
                   /\ replaceRow e (rows t1) = rows t1).
  { rewrite find_matching in Hshape.
    destruct Hshape as [(c & Hfind & -> & Hrows)|(Hfind & Hfree & Hrows & Hwhich)].
    - set (e := arcToHLDUpdated c pipelineId hld envName prId repository) in *.
      pose proof (find_some _ _ Hfind) as [Hin Hc].
      apply andb_true_iff in Hc as [Hsel _].
      destruct (Hcand c) as [Hpk Htag]; [now apply matching_selects|].
      assert (He1 : isCandidate e = true).
      { unfold selects. cbn [e arcToHLDUpdated PartitionKey getField String.eqb
                             Ascii.eqb Bool.eqb imageTag].
        rewrite Hpk, Htag. cbn. now rewrite !String.eqb_refl. }
      assert (He2 : isMatch e = true) by now apply isMatch_written.
      repeat split; try assumption.
      + rewrite Hrows. apply (find_replaceRow _ e c); try assumption.
        * now rewrite He1, He2.
        * apply keyIs_eq. now split.
      + rewrite Hrows. apply replaceRow_idem.
    - assert (He : PartitionKey e = partitionKey tableInfo /\ imageTag e = tag
                   /\ isMatch e = true
                   /\ arcToHLDUpdated e pipelineId hld envName prId repository = e).
      { destruct Hwhich as [->|(l & Hl & ->)].
        - repeat split; [now apply isLowerCase_eq|now apply isMatch_written].
        - destruct (Hcand l Hl) as [Hpk Htag].
          repeat split; try assumption. now apply isMatch_written. }
      destruct He as (Hpk & Htag & He2 & He3).
      assert (He1 : isCandidate e = true).
      { unfold selects. rewrite Hpk. cbn. rewrite Htag. now rewrite !String.eqb_refl. }
      repeat split; try assumption.
      + rewrite Hrows. apply find_app_none; [assumption|]. now rewrite He1, He2.
      + rewrite Hrows. now apply replaceRow_appended. }
  destruct Hfacts as (He1 & He2 & He3 & Hfind' & Hrep).
  rewrite <- find_matching in Hfind'.
  pose proof (updateACRToHLDPipeline_replace_run uuid' t1 e Hfind') as Hrun'.
  cbv zeta in Hrun'. rewrite He3 in Hrun'. rewrite Hrun'.
  eexists. split; [reflexivity|]. exact Hrep.
Qed.

End Stage2Repeat.

Lemma updateACRToHLDPipeline_repeat_witness :
  exists (e : Row) (t1 t2 : Table),
    updateACRToHLDPipeline demoTable "110ec58a-a0f2-4ac4-8393-c866d813b8d1"
      "203" "hello-spk-master-1234" "0fab99" "prod" (Some "PR-7") None
      (snd stage2Demo) = (Ok e, t1)
    /\ updateACRToHLDPipeline demoTable "9a0b1c2d-3e4f-4a5b-8c6d-7e8f9a0b1c2d"
         "203" "hello-spk-master-1234" "0fab99" "prod" (Some "PR-7") None t1
       = (Ok e, t2)
    /\ rows t2 = rows t1 /\ List.length (rows t1) = 2.
Proof.
  pose (r := updateACRToHLDPipeline demoTable "110ec58a-a0f2-4ac4-8393-c866d813b8d1"
               "203" "hello-spk-master-1234" "0fab99" "prod" (Some "PR-7") None
               (snd stage2Demo)).
  pose (e := match fst r with Ok e => e | Err _ => row1Demo end).
  assert (Hrun : r = (Ok e, snd r)) by reflexivity.
  destruct (updateACRToHLDPipeline_repeat demoTable "203" "hello-spk-master-1234"
              "0fab99" "prod" (Some "PR-7") None eq_refl eq_refl eq_refl eq_refl
              "110ec58a-a0f2-4ac4-8393-c866d813b8d1"
              "9a0b1c2d-3e4f-4a5b-8c6d-7e8f9a0b1c2d" (snd stage2Demo) (snd r) e Hrun)
    as (t2 & Hrun2 & Hrows).
  exists e, (snd r), t2. repeat split; assumption || reflexivity.
Defined.

(** ** Stage 3, branch by branch *)

Section Stage3Runs.

Variable tableInfo : DeploymentTable.
Variables uuid hld pipelineId : string.
Variables manifestCommit prId repository : option string.

Local Abbreviation run :=
  (updateHLDToManifestPipeline tableInfo uuid hld pipelineId manifestCommit
     prId repository).

Local Abbreviation isMatch := (matchesHLDToManifest pipelineId manifestCommit).

Local Abbreviation candidates t := (hldToManifestCandidates tableInfo hld prId (rows t)).

Local Abbreviation queried t :=
  (mkTable (rows t) (calls t ++ hldToManifestQueries tableInfo hld prId (rows t))).

Lemma updateHLDToManifestPipeline_run (t : Table) :
  run t
  = match candidates t with
    | [] =>
        let e := hldToManifestBlank tableInfo uuid hld pipelineId manifestCommit
                   prId repository in
        (insertToTable tableInfo e ;;; ret e) (queried t)
    | c0 :: cs =>
        match find isMatch (c0 :: cs) with
        | Some found =>
            let e := hldToManifestUpdated found hld pipelineId manifestCommit
                       prId repository in
            (updateEntryInTable tableInfo e ;;; ret e) (queried t)
        | None =>
            match lastOf (c0 :: cs) with
            | Some lastEntry =>
                let e := hldToManifestCloned lastEntry uuid hld pipelineId
                           manifestCommit prId repository in
                (insertToTable tableInfo e ;;; ret e) (queried t)
            | None => (Err TypeError, queried t)
            end
        end
    end.
Proof.
  unfold updateHLDToManifestPipeline, bind at 1, findMatchingDeployments at 1.
  assert (Hhelper : forall entries t1,
    updateHLDtoManifestHelper entries tableInfo uuid hld pipelineId
      manifestCommit prId repository t1
    = match entries with
      | [] =>
          let e := hldToManifestBlank tableInfo uuid hld pipelineId manifestCommit
                     prId repository in
          (insertToTable tableInfo e ;;; ret e) t1
      | c0 :: cs =>
          match find isMatch (c0 :: cs) with
          | Some found =>
              let e := hldToManifestUpdated found hld pipelineId manifestCommit
                         prId repository in
              (updateEntryInTable tableInfo e ;;; ret e) t1
          | None =>
              match lastOf (c0 :: cs) with
              | Some lastEntry =>
                  let e := hldToManifestCloned lastEntry uuid hld pipelineId
                             manifestCommit prId repository in
                  (insertToTable tableInfo e ;;; ret e) t1
              | None => (Err TypeError, t1)
              end
          end
      end).
  { intros entries t1. unfold updateHLDtoManifestHelper.
    destruct entries as [|c0 cs]; [reflexivity|].
    cbn [List.length Nat.ltb Nat.leb].
    unfold bind at 1, updateHLDtoManifestEntry.
    destruct (find _ (c0 :: cs)) as [found|].
    - fold (hldToManifestUpdated found hld pipelineId manifestCommit prId repository).
      cbv zeta. unfold bind, ret.
      now destruct (updateEntryInTable tableInfo _ _) as [[[]|err] t2].
    - unfold ret at 1, updateLastHLDtoManifestEntry.
      now destruct (lastOf (c0 :: cs)). }
  unfold hldToManifestCandidates, hldToManifestQueries, usesPrFallback.
  destruct prId as [prv|].
  - destruct ((List.length (matching tableInfo "hldCommitId" hld (rows t)) =? 0)%nat
              && Js.truthy (Some prv)).
    + unfold bind at 1, findMatchingDeployments, logCall. cbn [rows calls].
      rewrite Hhelper, <- app_assoc. reflexivity.
    + unfold bind at 1, ret at 1, logCall. now rewrite Hhelper.
  - unfold bind at 1, ret at 1, logCall. now rewrite Hhelper.
Qed.

(** The candidates are rows of the table in its partition. *)
Lemma hldToManifestCandidates_In (t : Table) (c : Row) :
  In c (candidates t) -> In c (rows t) /\ PartitionKey c = partitionKey tableInfo.
Proof.
  unfold hldToManifestCandidates. intros H.
  destruct prId as [prv|]; [destruct (usesPrFallback _ _ _ _)|];
    apply matching_In in H as (Hin & Hpk & _); now split.
Qed.

Lemma hldToManifest_candidate_hasKey (t : Table) (c e : Row) :
  In c (candidates t) ->
  PartitionKey e = PartitionKey c -> RowKey e = RowKey c ->
  hasKey e (rows t) = true.
Proof.
  intros Hin Hpk Hrk. apply hldToManifestCandidates_In in Hin as (Hin & _).
  unfold hasKey. rewrite Hpk, Hrk. now apply (keyInUse_In _ _ _ c).
Qed.

End Stage3Runs.

Section Stage3Properties.

Variable tableInfo : DeploymentTable.
Variables uuid hld pipelineId : string.
Variables manifestCommit prId repository : option string.

Local Abbreviation run :=
  (updateHLDToManifestPipeline tableInfo uuid hld pipelineId manifestCommit
     prId repository).

Local Abbreviation isMatch := (matchesHLDToManifest pipelineId manifestCommit).

Local Abbreviation candidates t := (hldToManifestCandidates tableInfo hld prId (rows t)).

Local Abbreviation queries t := (hldToManifestQueries tableInfo hld prId (rows t)).

Lemma hldToManifestQueries_cases (l : list Row) :
  (matching tableInfo "hldCommitId" hld l = []
   /\ exists prv, prId = Some prv /\ prv <> ""
      /\ hldToManifestQueries tableInfo hld prId l
         = [QueryEntities "hldCommitId" hld; QueryEntities "pr" prv]
      /\ hldToManifestCandidates tableInfo hld prId l = matching tableInfo "pr" prv l)
  \/ ((matching tableInfo "hldCommitId" hld l <> [] \/ Js.truthy prId = false)
      /\ hldToManifestQueries tableInfo hld prId l = [QueryEntities "hldCommitId" hld]
      /\ hldToManifestCandidates tableInfo hld prId l
         = matching tableInfo "hldCommitId" hld l).
Proof.
  unfold hldToManifestQueries, hldToManifestCandidates, usesPrFallback.
  destruct prId as [prv|]; [|right; repeat split; now right].
  destruct (matching tableInfo "hldCommitId" hld l) as [|c0 cs].
  - cbn [List.length Nat.eqb andb].
    destruct prv as [|ch rest]; cbn [Js.truthy].
    + right. repeat split. now right.
    + left. split; [reflexivity|]. exists (String ch rest). repeat split. discriminate.
  - right. repeat split. left. discriminate.
Qed.

Lemma isWrite_filter_queries (l : list Row) :
  filter isWrite (hldToManifestQueries tableInfo hld prId l) = [].
Proof.
  unfold hldToManifestQueries.
  destruct prId as [prv|]; [destruct (usesPrFallback _ _ _ _)|]; reflexivity.
Qed.

(** A stage-3 call that succeeds has asked the table by hldCommitId
    first. It has asked a second time, by pr, exactly when the first
    answer was empty and a non-empty pull request id was given. After
    its queries it has made one write, an insert or a replace of the
    entity it returns. *)
Theorem updateHLDToManifestPipeline_calls (t t' : Table) (e : Row) :
  run t = (Ok e, t') ->
  exists (qs : list StoreCall) (w : StoreCall),
    calls t' = (calls t ++ qs ++ [w])%list
    /\ (w = InsertEntity e \/ w = ReplaceEntity e)
    /\ ((matching tableInfo "hldCommitId" hld (rows t) = []
         /\ exists prv, prId = Some prv /\ prv <> ""
            /\ qs = [QueryEntities "hldCommitId" hld; QueryEntities "pr" prv])
        \/ ((matching tableInfo "hldCommitId" hld (rows t) <> []
             \/ Js.truthy prId = false)
            /\ qs = [QueryEntities "hldCommitId" hld])).
Proof.
  intros Hrun. exists (queries t).
  assert (Hw : exists w, calls t' = (calls t ++ queries t ++ [w])%list
                         /\ (w = InsertEntity e \/ w = ReplaceEntity e)).
  { rewrite updateHLDToManifestPipeline_run in Hrun.
    destruct (candidates t) as [|c0 cs] eqn:Hc.
    - cbv zeta in Hrun. rewrite insert_ret_run in Hrun. cbn [rows calls] in Hrun.
      destruct (hasKey _ (rows t)); inversion Hrun; subst.
      eexists. cbn [calls]. rewrite <- app_assoc. split; [reflexivity|now left].
    - destruct (find isMatch (c0 :: cs)) as [found|] eqn:Hfind.
      + cbv zeta in Hrun. rewrite replace_ret_run in Hrun. cbn [rows calls] in Hrun.
        destruct (hasKey _ (rows t)) eqn:Hk; inversion Hrun; subst.
        eexists. cbn [calls]. rewrite <- app_assoc. split; [reflexivity|now right].
      + destruct (lastOf_cons c0 cs) as (l & Hl & _). rewrite Hl in Hrun.
        cbv zeta in Hrun. rewrite insert_ret_run in Hrun. cbn [rows calls] in Hrun.
        destruct (hasKey _ (rows t)); inversion Hrun; subst.
        eexists. cbn [calls]. rewrite <- app_assoc. split; [reflexivity|now left]. }
  destruct Hw as (w & Hcalls & Hw). exists w.
  split; [exact Hcalls|]. split; [exact Hw|].
  destruct (hldToManifestQueries_cases (rows t))
    as [(Hnone & prv & Hpr & Hne & Hq & _)|(Hsome & Hq & _)].
  - left. split; [exact Hnone|]. now exists prv.
  - right. now split.
Qed.

Lemma wroteAfter_insert (qs : list StoreCall) (t : Table) (e : Row) :
  wroteAfter qs t e (mkTable (rows t ++ [e]) ((calls t ++ qs) ++ [InsertEntity e])).
Proof.
  rewrite <- app_assoc. repeat split.
  - exists (InsertEntity e). split; [now left|reflexivity].
  - cbn [rows]. apply in_or_app. right. now left.
  - cbn [rows]. apply insert_others.
Qed.

Lemma wroteAfter_replace (qs : list StoreCall) (t : Table) (e : Row) :
  hasKey e (rows t) = true ->
  wroteAfter qs t e (mkTable (replaceRow e (rows t)) ((calls t ++ qs) ++ [ReplaceEntity e])).
Proof.
  intros Hk. rewrite <- app_assoc. repeat split.
  - exists (ReplaceEntity e). split; [now right|reflexivity].
  - cbn [rows]. now apply replaceRow_In.
  - cbn [rows]. apply replaceRow_others.
Qed.

(** A stage-3 call that succeeds has written the entity it returns, by
    one insert or one replace after its queries; the rows of every other
    key are unchanged, and the log has one more write than before. *)
Theorem updateHLDToManifestPipeline_one_write (t t' : Table) (e : Row) :
  run t = (Ok e, t') ->
  wroteAfter (queries t) t e t' /\ writes t' = S (writes t).
Proof.
  intros Hrun.
  assert (Hwrote : wroteAfter (queries t) t e t').
  { rewrite updateHLDToManifestPipeline_run in Hrun.
    destruct (candidates t) as [|c0 cs] eqn:Hc.
    - cbv zeta in Hrun. rewrite insert_ret_run in Hrun. cbn [rows calls] in Hrun.
      destruct (hasKey _ (rows t)); inversion Hrun; subst.
      apply wroteAfter_insert.
    - destruct (find isMatch (c0 :: cs)) as [found|] eqn:Hfind.
      + cbv zeta in Hrun. rewrite replace_ret_run in Hrun. cbn [rows calls] in Hrun.
        destruct (hasKey _ (rows t)) eqn:Hk; inversion Hrun; subst.
        now apply wroteAfter_replace.
      + destruct (lastOf_cons c0 cs) as (l & Hl & _). rewrite Hl in Hrun.
        cbv zeta in Hrun. rewrite insert_ret_run in Hrun. cbn [rows calls] in Hrun.
        destruct (hasKey _ (rows t)); inversion Hrun; subst.
        apply wroteAfter_insert. }
  split; [exact Hwrote|].
  destruct Hwrote as ((w & Hw & Hcalls) & _).
  unfold writes. rewrite Hcalls, !filter_app, isWrite_filter_queries, !List.length_app.
  destruct Hw as [-> | ->]; cbn; lia.
Qed.

(** When no candidate of a stage-3 call passes the wildcard test and
    the RowKey made from the UUID is already used in the partition, the
    call fails: after its queries it has tried one insert, of an entity
    under that RowKey, the insert is rejected, and the rows of the table
    are as before. And a stage-3 call that fails leaves the rows as they
    were: its one write is the last thing it does. *)
Theorem updateHLDToManifestPipeline_key_taken_fails (t : Table) :
  (find isMatch (candidates t) = None ->
   keyInUse (partitionKey tableInfo) (getRowKey uuid) (rows t) = true ->
   exists e : Row,
     run t = (Err StoreWriteError,
              mkTable (rows t) (calls t ++ queries t ++ [InsertEntity e]))
     /\ RowKey e = getRowKey uuid)
  /\ (forall err t', run t = (Err err, t') -> rows t' = rows t).
Proof.
  rewrite updateHLDToManifestPipeline_run.
  destruct (candidates t) as [|c0 cs] eqn:Hc.
  - cbv zeta. rewrite insert_ret_run. unfold hasKey.
    cbn [hldToManifestBlank PartitionKey RowKey logCall rows calls find].
    destruct (keyInUse _ _ (rows t)); split.
    + intros _ _. eexists. unfold logCall. cbn [rows calls].
      rewrite <- app_assoc. split; reflexivity.
    + intros err t' H. now inversion H.
    + intros _ H. discriminate H.
    + intros err t' H. discriminate H.
  - destruct (find isMatch (c0 :: cs)) as [found|] eqn:Hfind.
    + apply find_some in Hfind as [Hin _]. rewrite <- Hc in Hin.
      cbv zeta. rewrite replace_ret_run. cbn [rows].
      rewrite (hldToManifest_candidate_hasKey tableInfo hld prId t found)
        by (assumption || reflexivity).
      split.
      * intros H. discriminate H.
      * intros err t' H. discriminate H.
    + destruct (lastOf_cons c0 cs) as (l & Hl & Hin). rewrite Hl.
      rewrite <- Hc in Hin. apply hldToManifestCandidates_In in Hin as (_ & Hpk).
      cbv zeta. rewrite insert_ret_run. unfold hasKey.
      cbn [hldToManifestCloned PartitionKey RowKey logCall rows calls]. rewrite Hpk.
      destruct (keyInUse _ _ (rows t)); split.
      * intros _ _. eexists. unfold logCall. cbn [rows calls].
      rewrite <- app_assoc. split; reflexivity.
      * intros err t' H. now inversion H.
      * intros _ H. discriminate H.
      * intros err t' H. discriminate H.
Qed.

End Stage3Properties.

Section Stage3Branches.

Variable tableInfo : DeploymentTable.
Variables uuid hld pipelineId : string.
Variables manifestCommit prId repository : option string.

Local Abbreviation run :=
  (updateHLDToManifestPipeline tableInfo uuid hld pipelineId manifestCommit
     prId repository).

Local Abbreviation isMatch := (matchesHLDToManifest pipelineId manifestCommit).

Local Abbreviation candidates t := (hldToManifestCandidates tableInfo hld prId (rows t)).

Local Abbreviation queries t := (hldToManifestQueries tableInfo hld prId (rows t)).

(** When the query by hldCommitId finds rows and [c] is the first of
    them that passes the wildcard test on p3 and manifestCommitId, stage
    3 replaces the entity under the key of [c] and makes no query by pr,
    even when a pull request id is given. The fields of the earlier
    stages and the hldCommitId are those of [c]; p3 is the lower-cased
    run id; manifestCommitId and manifestRepo are the lower-cased
    arguments when given and absent otherwise; pr is the argument as
    given, and absent when none is given, whatever [c] held. *)
Theorem updateHLDToManifestPipeline_mutates_by_commit (t : Table)
    (pre post : list Row) (c : Row) :
  matching tableInfo "hldCommitId" hld (rows t) = (pre ++ c :: post)%list ->
  forallb (fun x => negb (isMatch x)) pre = true ->
  isMatch c = true ->
  exists e : Row,
    run t = (Ok e, mkTable (replaceRow e (rows t))
                     (calls t ++ [QueryEntities "hldCommitId" hld; ReplaceEntity e]))
    /\ In e (replaceRow e (rows t))
    /\ PartitionKey e = PartitionKey c /\ RowKey e = RowKey c
    /\ hldCommitId e = hldCommitId c
    /\ p3 e = Some (Js.toLowerCase pipelineId)
    /\ manifestCommitId e = lowerIfGiven manifestCommit
    /\ pr e = keepIfGiven prId
    /\ manifestRepo e = lowerIfGiven repository
    /\ commitId e = commitId c /\ imageTag e = imageTag c /\ service e = service c
    /\ p1 e = p1 c /\ p2 e = p2 c /\ env e = env c
    /\ sourceRepo e = sourceRepo c /\ hldRepo e = hldRepo c.
Proof.
  intros Hm Hpre Hc.
  assert (Hsel : In c (matching tableInfo "hldCommitId" hld (rows t))).
  { rewrite Hm. apply in_or_app. right. now left. }
  pose proof (matching_In _ _ _ _ _ Hsel) as (Hin & _ & Hfield).
  change (hldCommitId c = Some hld) in Hfield.
  destruct (hldToManifestQueries_cases tableInfo hld prId (rows t))
    as [(Hnone & _)|(_ & Hq & Hcands)].
  { rewrite Hnone in Hm. now destruct pre. }
  rewrite updateHLDToManifestPipeline_run, Hcands, Hq, Hm.
  destruct (pre ++ c :: post)%list as [|c0 cs] eqn:Hl; [now destruct pre|].
  rewrite <- Hl, (find_first _ _ _ _ Hpre Hc). cbv zeta.
  set (e := hldToManifestUpdated c hld pipelineId manifestCommit prId repository).
  assert (Hkey : hasKey e (rows t) = true).
  { unfold hasKey. now apply (keyInUse_In _ _ _ c). }
  rewrite replace_ret_run. cbn [rows calls]. rewrite Hkey, <- app_assoc.
  exists e. repeat split.
  - now apply replaceRow_In.
  - now rewrite Hfield.
Qed.

(** When the candidates of a stage-3 call are [pre] followed by [c],
    so that [c] is the last of them however many come before it, and
    none of them passes the wildcard test (and the generated key is
    free), stage 3 inserts one copy of [c] under the generated RowKey.
    The copy carries commitId, env, hldRepo, imageTag, p1, p2, service
    and sourceRepo of [c]; its hldCommitId, p3, manifestCommitId, pr and
    manifestRepo are the lower-cased arguments. The table has one row
    more; taking the copy out gives the rows as they were, so every row
    that was in the table, [c] among them, is untouched. *)
Theorem updateHLDToManifestPipeline_clones_last (t : Table)
    (pre : list Row) (c : Row) :
  candidates t = (pre ++ [c])%list ->
  forallb (fun x => negb (isMatch x)) (pre ++ [c]) = true ->
  keyInUse (partitionKey tableInfo) (getRowKey uuid) (rows t) = false ->
  exists (e : Row) (t' : Table),
    run t = (Ok e, t')
    /\ calls t' = (calls t ++ queries t ++ [InsertEntity e])%list
    /\ PartitionKey e = PartitionKey c /\ RowKey e = getRowKey uuid
    /\ commitId e = commitId c /\ env e = env c /\ hldRepo e = hldRepo c
    /\ imageTag e = imageTag c /\ p1 e = p1 c /\ p2 e = p2 c
    /\ service e = service c /\ sourceRepo e = sourceRepo c
    /\ hldCommitId e = Some (Js.toLowerCase hld)
    /\ p3 e = Some (Js.toLowerCase pipelineId)
    /\ manifestCommitId e = lowerIfGiven manifestCommit
    /\ pr e = lowerIfGiven prId
    /\ manifestRepo e = lowerIfGiven repository
    /\ In e (rows t')
    /\ List.length (rows t') = S (List.length (rows t))
    /\ filter (fun r => negb (sameKey e r)) (rows t') = rows t
    /\ In c (rows t') /\ sameKey e c = false.
Proof.
  intros Hc Hnone Hfree.
  assert (Hin : In c (candidates t)).
  { rewrite Hc. apply in_or_app. right. now left. }
  apply hldToManifestCandidates_In in Hin as (Hin & Hpk).
  rewrite updateHLDToManifestPipeline_run, Hc.
  destruct (pre ++ [c])%list as [|c0 cs] eqn:Hl; [now destruct pre|].
  rewrite (find_none_forall _ _ Hnone), <- Hl, lastOf_app. cbv zeta.
  set (e := hldToManifestCloned c uuid hld pipelineId manifestCommit prId repository).
  assert (Hfree' : hasKey e (rows t) = false).
  { unfold hasKey. cbn [e hldToManifestCloned PartitionKey RowKey]. now rewrite Hpk. }
  rewrite insert_ret_run. cbn [rows calls]. rewrite Hfree', <- app_assoc.
  exists e, (mkTable (rows t ++ [e]) (calls t ++ queries t ++ [InsertEntity e])).
  cbn [rows calls]. repeat split.
  - apply in_or_app. right. now left.
  - rewrite List.length_app. cbn [List.length]. lia.
  - rewrite insert_others. now apply filter_others_fresh.
  - apply in_or_app. now left.
  - destruct (sameKey e c) eqn:E; [|reflexivity].
    apply keyIs_eq in E as [E1 E2].
    cbn [e hldToManifestCloned PartitionKey RowKey] in E1, E2.
    rewrite (keyInUse_In _ _ _ _ Hin Hpk E2) in Hfree. discriminate.
Qed.

(** When stage 3 has no candidate at all (and the generated key is
    free), it appends a row under the generated RowKey whose commitId,
    imageTag, p1 and service are empty strings, whose env and p2 are
    present and empty, and whose sourceRepo and hldRepo are absent;
    hldCommitId and p3 are the lower-cased arguments. *)
Theorem updateHLDToManifestPipeline_no_candidates (t : Table) :
  candidates t = [] ->
  keyInUse (partitionKey tableInfo) (getRowKey uuid) (rows t) = false ->
  exists e : Row,
    run t = (Ok e, mkTable (rows t ++ [e])
                     (calls t ++ queries t ++ [InsertEntity e]))
    /\ PartitionKey e = partitionKey tableInfo /\ RowKey e = getRowKey uuid
    /\ commitId e = "" /\ imageTag e = "" /\ p1 e = "" /\ service e = ""
    /\ env e = Some "" /\ p2 e = Some ""
    /\ sourceRepo e = None /\ hldRepo e = None
    /\ hldCommitId e = Some (Js.toLowerCase hld)
    /\ p3 e = Some (Js.toLowerCase pipelineId)
    /\ manifestCommitId e = lowerIfGiven manifestCommit
    /\ pr e = lowerIfGiven prId
    /\ manifestRepo e = lowerIfGiven repository.
Proof.
  intros Hc Hfree. rewrite updateHLDToManifestPipeline_run, Hc. cbv zeta.
  set (e := hldToManifestBlank tableInfo uuid hld pipelineId manifestCommit
              prId repository).
  assert (Hfree' : hasKey e (rows t) = false) by exact Hfree.
  rewrite insert_ret_run. cbn [rows calls]. rewrite Hfree', <- app_assoc.
  exists e. repeat split.
Qed.

End Stage3Branches.

Lemma updateHLDToManifestPipeline_calls_witness :
  exists (e : Row) (w : StoreCall),
    fst stage3FallbackDemo = Ok e
    /\ calls (snd stage3FallbackDemo)
       = [QueryEntities "hldCommitId" "0fe1d2"; QueryEntities "pr" "42"; w]
    /\ (w = InsertEntity e \/ w = ReplaceEntity e).
Proof.
  pose (e := match fst stage3FallbackDemo with Ok e => e | Err _ => row1Demo end).
  destruct (updateHLDToManifestPipeline_calls demoTable
              "7d444840-9dc0-11d1-b245-5ffdce74fad2" "0fe1d2" "Run-303"
              None (Some "42") None tablePr42 (snd stage3FallbackDemo) e eq_refl)
    as (qs & w & Hcalls & Hw & [(_ & prv & Hpr & _ & Hqs)|([Hsome|Hpr] & _)]).
  - exists e, w. injection Hpr as <-. rewrite Hqs in Hcalls.
    repeat split; assumption.
  - now contradiction Hsome.
  - discriminate Hpr.
Defined.

Lemma updateHLDToManifestPipeline_one_write_witness :
  exists (e : Row) (t' : Table),
    stage3Demo = (Ok e, t')
    /\ wroteAfter [QueryEntities "hldCommitId" "def456"] (snd stage2Demo) e t'
    /\ writes t' = 3.
Proof.
  exists row3Demo, (snd stage3Demo).
  split; [reflexivity|].
  apply (updateHLDToManifestPipeline_one_write demoTable
           "7d444840-9dc0-11d1-b245-5ffdce74fad2" "def456" "303" None
           (Some "PR-9") None (snd stage2Demo)).
  reflexivity.
Defined.

Lemma updateHLDToManifestPipeline_key_taken_fails_witness :
  exists e : Row,
    updateHLDToManifestPipeline demoTable "1b9d6bcd-bbfd-4b2d-0000-000000000000"
      "def456" "304" None None None (snd stage3Demo)
    = (Err StoreWriteError,
       mkTable (rows (snd stage3Demo))
         (calls (snd stage3Demo)
          ++ [QueryEntities "hldCommitId" "def456"; InsertEntity e])%list)
    /\ RowKey e = "1b9d6bcdbbfd".
Proof.
  destruct (updateHLDToManifestPipeline_key_taken_fails demoTable
              "1b9d6bcd-bbfd-4b2d-0000-000000000000" "def456" "304"
              None None None (snd stage3Demo))
    as [Hfail _].
  exact (Hfail eq_refl eq_refl).
Defined.

Lemma updateHLDToManifestPipeline_mutates_by_commit_witness :
  exists e : Row,
    stage3Demo
    = (Ok e, mkTable (replaceRow e [row2Demo])
               (calls (snd stage2Demo)
                ++ [QueryEntities "hldCommitId" "def456"; ReplaceEntity e]))
    /\ RowKey e = "1b9d6bcdbbfd" /\ p3 e = Some "303" /\ pr e = Some "PR-9"
    /\ hldCommitId e = Some "def456" /\ commitId e = "abc123".
Proof.
  destruct (updateHLDToManifestPipeline_mutates_by_commit demoTable
              "7d444840-9dc0-11d1-b245-5ffdce74fad2" "def456" "303" None
              (Some "PR-9") None (snd stage2Demo) [] [] row2Demo
              eq_refl eq_refl eq_refl)
    as (e & Hrun & _ & _ & Hrk & Hhld & Hp3 & _ & Hpr & _ & Hcid & _).
  exists e. repeat split; assumption.
Defined.

Lemma updateHLDToManifestPipeline_clones_last_witness :
  hldToManifestCandidates demoTable "c0ffee" None (rows twoManifests)
  = [manifestA; manifestB]
  /\ exists e : Row,
       fst stage3CloneDemo = Ok e
       /\ RowKey e = "7d4448409dc0"
       /\ commitId e = "bbb222" /\ env e = Some "qa" /\ p1 e = "12"
       /\ p2 e = Some "22" /\ service e = "svcB"
       /\ sourceRepo e = Some "https://example/b"
       /\ hldCommitId e = Some "c0ffee" /\ p3 e = Some "33"
       /\ List.length (rows (snd stage3CloneDemo)) = 3
       /\ In manifestA (rows (snd stage3CloneDemo))
       /\ In manifestB (rows (snd stage3CloneDemo)).
Proof.
  split; [reflexivity|].
  destruct (updateHLDToManifestPipeline_clones_last demoTable
              "7d444840-9dc0-11d1-b245-5ffdce74fad2" "c0ffee" "33"
              None None None twoManifests [manifestA] manifestB
              eq_refl eq_refl eq_refl)
    as (e & t' & Hrun & _ & _ & Hrk & Hcid & Henv & _ & _ & Hp1 & Hp2 & Hsvc
        & Hrepo & Hhld & Hp3 & _ & _ & _ & _ & Hlen & Hothers & _ & _).
  exists e. unfold stage3CloneDemo. rewrite Hrun. cbn [fst snd].
  assert (Hold : forall r : Row, In r (rows twoManifests) -> In r (rows t')).
  { intros r Hr. rewrite <- Hothers in Hr. now apply filter_In in Hr. }
  repeat split; try assumption.
  - apply Hold. now left.
  - apply Hold. right. now left.
Defined.

Lemma updateHLDToManifestPipeline_no_candidates_witness :
  exists e : Row,
    updateHLDToManifestPipeline demoTable "c56a4180-65aa-42ec-a945-5fd21dec0538"
      "DEF456" "304" None None (Some "HTTPS://Example/Manifests") emptyTable
    = (Ok e, mkTable [e] [QueryEntities "hldCommitId" "DEF456"; InsertEntity e])
    /\ commitId e = "" /\ env e = Some "" /\ hldCommitId e = Some "def456"
    /\ manifestRepo e = Some "https://example/manifests".
Proof.
  destruct (updateHLDToManifestPipeline_no_candidates demoTable
              "c56a4180-65aa-42ec-a945-5fd21dec0538" "DEF456" "304" None None
              (Some "HTTPS://Example/Manifests") emptyTable eq_refl eq_refl)
    as (e & Hrun & _ & _ & Hcid & _ & _ & _ & Henv & _ & _ & _ & Hhld & _ & _ & _
        & Hrepo).
  exists e. repeat split; assumption.
Defined.

(** ** The finalizer when it finds a row *)

Section FinalizerSuccess.

Variable tableInfo : DeploymentTable.
Variables pipelineId manifestCommit : string.
Variable repository : option string.

Local Abbreviation run :=
  (updateManifestCommitId tableInfo pipelineId manifestCommit repository).

(** When the query by p3 finds rows, the finalizer writes to the first of
    them only, by one replace: manifestCommitId becomes the argument as
    given, manifestRepo the lower-cased repository when one is given,
    and every other field of that row, its keys and its p3 among them,
    stays; rows of other keys are unchanged, also further rows with the
    same p3. *)
Theorem updateManifestCommitId_updates_first (t : Table) (c : Row) (rest : list Row) :
  matching tableInfo "p3" pipelineId (rows t) = c :: rest ->
  exists e : Row,
    run t = (Ok e, mkTable (replaceRow e (rows t))
                     (calls t ++ [QueryEntities "p3" pipelineId; ReplaceEntity e]))
    /\ In e (replaceRow e (rows t))
    /\ filter (fun r => negb (sameKey e r)) (replaceRow e (rows t))
       = filter (fun r => negb (sameKey e r)) (rows t)
    /\ manifestCommitId e = Some manifestCommit
    /\ manifestRepo e = (if Js.truthy repository then lowerIfGiven repository
                         else manifestRepo c)
    /\ PartitionKey e = PartitionKey c /\ RowKey e = RowKey c
    /\ commitId e = commitId c /\ imageTag e = imageTag c /\ p1 e = p1 c
    /\ service e = service c /\ sourceRepo e = sourceRepo c /\ p2 e = p2 c
    /\ hldCommitId e = hldCommitId c /\ env e = env c /\ pr e = pr c
    /\ hldRepo e = hldRepo c /\ p3 e = p3 c.
Proof.
  intros Hm. rewrite updateManifestCommitId_run.
  unfold matching in Hm. rewrite Hm. cbv zeta.
  set (e := finalized manifestCommit repository c).
  assert (Hin : In c (rows t)).
  { apply (proj1 (filter_In (selects tableInfo "p3" pipelineId) c (rows t))).
    rewrite Hm. now left. }
  destruct (finalized_key manifestCommit repository c) as (Hpk & Hrk & Hp3).
  fold e in Hpk, Hrk, Hp3.
  assert (Hkey : hasKey e (rows t) = true).
  { unfold hasKey. rewrite Hpk, Hrk. now apply (keyInUse_In _ _ _ c). }
  exists e. split; [reflexivity|]. split; [now apply replaceRow_In|].
  split; [apply replaceRow_others|].
  unfold e, finalized.
  destruct repository as [[|ch r]|]; cbn [Js.truthy]; repeat split.
Qed.

End FinalizerSuccess.

Lemma updateManifestCommitId_updates_first_witness :
  exists e : Row,
    finalizerDemo
    = (Ok e, mkTable (replaceRow e [row3Demo])
               (calls (snd stage3Demo)
                ++ [QueryEntities "p3" "303"; ReplaceEntity e]))
    /\ manifestCommitId e = Some "0A1B2C"
    /\ manifestRepo e = Some "https://example/manifests"
    /\ RowKey e = "1b9d6bcdbbfd" /\ pr e = Some "PR-9" /\ p3 e = Some "303".
Proof.
  destruct (updateManifestCommitId_updates_first demoTable "303" "0A1B2C"
              (Some "HTTPS://Example/Manifests") (snd stage3Demo) row3Demo []
              eq_refl)
    as (e & Hrun & _ & _ & Hmc & Hrepo & _ & Hrk & _ & _ & _ & _ & _ & _ & _ & _
        & Hpr & _ & Hp3).
  exists e. repeat split; assumption.
Defined.

(** ** Two UUIDs with one RowKey *)

(** Only the first twelve hexadecimal digits of the UUID reach the
    RowKey. When stage 1 has stored a row under the key of one UUID, a
    stage-1 call of the same partition that draws a UUID with the same
    first two groups is rejected, whatever it was to store, and the rows
    of the table are as the first call left them. *)
Theorem addSrcToACRPipeline_key_clash (tableInfo : DeploymentTable)
    (g1 g2 rest rest' : string)
    (pipelineId tag svc cid pipelineId' tag' svc' cid' : string)
    (repository repository' : option string) (t t1 : Table) (e : Row) :
  String.length g1 = 8 -> String.length g2 = 4 -> Js.allHex g1 = true ->
  addSrcToACRPipeline tableInfo (g1 ++ "-" ++ g2 ++ "-" ++ rest)
    pipelineId tag svc cid repository t = (Ok e, t1) ->
  exists t2,
    addSrcToACRPipeline tableInfo (g1 ++ "-" ++ g2 ++ "-" ++ rest')
      pipelineId' tag' svc' cid' repository' t1 = (Err StoreWriteError, t2)
    /\ rows t2 = rows t1.
Proof.
  intros L1 L2 H1 Hrun. unfold addSrcToACRPipeline in *.
  rewrite insert_ret_run in Hrun. rewrite insert_ret_run.
  rewrite !getRowKey_groups in * by assumption.
  destruct (hasKey _ (rows t)) eqn:Hk; inversion Hrun; subst. clear Hrun.
  cbn [rows].
  match goal with |- context [hasKey ?x ?l] => assert (Hk' : hasKey x l = true) end.
  { unfold hasKey. cbn [PartitionKey RowKey]. unfold keyInUse.
    rewrite existsb_app. cbn [existsb]. unfold keyIs at 2.
    cbn [PartitionKey RowKey]. rewrite !String.eqb_refl. cbn.
    now rewrite orb_true_r. }
  rewrite Hk'. eexists. split; reflexivity.
Qed.

Lemma addSrcToACRPipeline_key_clash_witness :
  exists (e : Row) (t1 t2 : Table),
    stage1Demo = (Ok e, t1)
    /\ addSrcToACRPipeline demoTable "1b9d6bcd-bbfd-4000-8000-000000000000"
         "102" "hello-spk-master-1235" "svcB" "fff999" None t1
       = (Err StoreWriteError, t2)
    /\ rows t2 = rows t1.
Proof.
  destruct (addSrcToACRPipeline_key_clash demoTable "1b9d6bcd" "bbfd"
              "4b2d-9b5d-ab8dfbbd4bed" "4000-8000-000000000000"
              "101" "hello-spk-master-1234" "svcA" "abc123"
              "102" "hello-spk-master-1235" "svcB" "fff999" None None
              emptyTable (snd stage1Demo) row1Demo
              eq_refl eq_refl eq_refl eq_refl)
    as (t2 & Hrun & Hrows).
  exists row1Demo, (snd stage1Demo), t2. split; [reflexivity|]. split; assumption.
Defined.

(** ** From one stage to the next *)

Section Handover.

Variable tableInfo : DeploymentTable.

Lemma selects_intro (name value : string) (e : Row) :
  PartitionKey e = partitionKey tableInfo -> getField name e = Some value ->
  selects tableInfo name value e = true.
Proof.
  intros Hpk Hf. unfold selects. rewrite Hpk, Hf. cbn [optEqb].
  now rewrite !String.eqb_refl.
Qed.

Lemma matching_intro (name value : string) (l : list Row) (e : Row) :
  In e l -> PartitionKey e = partitionKey tableInfo ->
  getField name e = Some value ->
  In e (matching tableInfo name value l).
Proof.
  intros Hin Hpk Hf. apply matching_selects. split; [exact Hin|].
  now apply selects_intro.
Qed.

(** The row a successful stage-2 call returns is in the table, in the
    partition of the call, with the lower-cased hldCommitId. *)
Lemma updateACRToHLDPipeline_success_row
    (uuid pipelineId tag hld envName : string) (prId repository : option string)
    (t t' : Table) (e : Row) :
  updateACRToHLDPipeline tableInfo uuid pipelineId tag hld envName prId repository t
  = (Ok e, t') ->
  In e (rows t') /\ PartitionKey e = partitionKey tableInfo
  /\ hldCommitId e = Some (Js.toLowerCase hld)
  /\ calls t' = (calls t ++ [QueryEntities "imageTag" tag]
                 ++ [if hasKey e (rows t) then ReplaceEntity e else InsertEntity e])%list.
Proof.
  intros Hrun. rewrite updateACRToHLDPipeline_run in Hrun. cbv zeta in Hrun.
  destruct (matching tableInfo "imageTag" tag (rows t)) as [|c0 cs] eqn:Hm.
  - rewrite insert_ret_run in Hrun. cbn [logCall rows calls] in Hrun.
    destruct (hasKey _ (rows t)) eqn:Hk; inversion Hrun; subst. cbn [rows calls].
    rewrite Hk, <- app_assoc. repeat split. apply in_or_app. right. now left.
  - destruct (find _ (c0 :: cs)) as [found|] eqn:Hfind.
    + apply find_some in Hfind as [Hin _]. rewrite <- Hm in Hin.
      pose proof (matching_In _ _ _ _ _ Hin) as (_ & Hpk & _).
      rewrite replace_ret_run in Hrun. cbn [logCall rows calls] in Hrun.
      destruct (hasKey _ (rows t)) eqn:Hk; inversion Hrun; subst. cbn [rows calls].
      rewrite Hk, <- app_assoc. repeat split; [|exact Hpk]. now apply replaceRow_In.
    + destruct (lastOf_cons c0 cs) as (l & Hl & Hin). rewrite Hl in Hrun.
      rewrite <- Hm in Hin. apply matching_In in Hin as (_ & Hpk & _).
      rewrite insert_ret_run in Hrun. cbn [logCall rows calls] in Hrun.
      destruct (hasKey _ (rows t)) eqn:Hk; inversion Hrun; subst. cbn [rows calls].
      rewrite Hk, <- app_assoc. repeat split; [|exact Hpk].
      apply in_or_app. right. now left.
Qed.

(** The row a successful stage-3 call returns is in the table, in the
    partition of the call, with the lower-cased run id as its p3. *)
Lemma updateHLDToManifestPipeline_success_row
    (uuid hld pipelineId : string) (manifestCommit prId repository : option string)
    (t t' : Table) (e : Row) :
  updateHLDToManifestPipeline tableInfo uuid hld pipelineId manifestCommit
    prId repository t = (Ok e, t') ->
  In e (rows t') /\ PartitionKey e = partitionKey tableInfo
  /\ p3 e = Some (Js.toLowerCase pipelineId).
Proof.
  intros Hrun. rewrite updateHLDToManifestPipeline_run in Hrun.
  destruct (hldToManifestCandidates tableInfo hld prId (rows t)) as [|c0 cs] eqn:Hc.
  - cbv zeta in Hrun. rewrite insert_ret_run in Hrun. cbn [rows calls] in Hrun.
    destruct (hasKey _ (rows t)); inversion Hrun; subst. cbn [rows].
    repeat split. apply in_or_app. right. now left.
  - destruct (find _ (c0 :: cs)) as [found|] eqn:Hfind.
    + apply find_some in Hfind as [Hin _]. rewrite <- Hc in Hin.
      apply hldToManifestCandidates_In in Hin as (_ & Hpk).
      cbv zeta in Hrun. rewrite replace_ret_run in Hrun. cbn [rows calls] in Hrun.
      destruct (hasKey _ (rows t)) eqn:Hk; inversion Hrun; subst. cbn [rows].
      repeat split; [|exact Hpk]. now apply replaceRow_In.
    + destruct (lastOf_cons c0 cs) as (l & Hl & Hin). rewrite Hl in Hrun.
      rewrite <- Hc in Hin. apply hldToManifestCandidates_In in Hin as (_ & Hpk).
      cbv zeta in Hrun. rewrite insert_ret_run in Hrun. cbn [rows calls] in Hrun.
      destruct (hasKey _ (rows t)); inversion Hrun; subst. cbn [rows].
      repeat split; [|exact Hpk]. apply in_or_app. right. now left.
Qed.

(** After a stage-2 call that succeeded, a query by the lower-cased
    hldCommitId finds the row it wrote. A stage-3 call given that
    lower-cased commit id therefore makes its one query and a write,
    and no query by pr, even when a pull request id is given. *)
Theorem updateHLDToManifestPipeline_after_stage2
    (uuid pipelineId tag hld envName : string) (prId repository : option string)
    (uuid3 pipelineId3 : string) (manifestCommit3 prId3 repository3 : option string)
    (t t2 : Table) (e2 : Row) :
  updateACRToHLDPipeline tableInfo uuid pipelineId tag hld envName prId repository t
  = (Ok e2, t2) ->
  In e2 (matching tableInfo "hldCommitId" (Js.toLowerCase hld) (rows t2))
  /\ exists w : StoreCall,
       calls (snd (updateHLDToManifestPipeline tableInfo uuid3
                     (Js.toLowerCase hld) pipelineId3 manifestCommit3 prId3
                     repository3 t2))
       = (calls t2 ++ [QueryEntities "hldCommitId" (Js.toLowerCase hld); w])%list
       /\ isWrite w = true.
Proof.
  intros Hrun.
  apply updateACRToHLDPipeline_success_row in Hrun as (Hin & Hpk & Hhld & _).
  assert (Hfound : In e2 (matching tableInfo "hldCommitId" (Js.toLowerCase hld) (rows t2)))
    by now apply matching_intro.
  split; [exact Hfound|].
  assert (Hq : hldToManifestQueries tableInfo (Js.toLowerCase hld) prId3 (rows t2)
               = [QueryEntities "hldCommitId" (Js.toLowerCase hld)]).
  { destruct (hldToManifestQueries_cases tableInfo (Js.toLowerCase hld) prId3 (rows t2))
      as [(Hnone & _)|(_ & Hq & _)]; [|exact Hq].
    rewrite Hnone in Hfound. contradiction. }
  rewrite updateHLDToManifestPipeline_run, Hq.
  destruct (hldToManifestCandidates _ _ _ _) as [|c0 cs].
  - cbv zeta. rewrite insert_ret_run.
    destruct (hasKey _ _); cbn [snd logCall calls rows]; eexists;
      rewrite <- app_assoc; split; reflexivity.
  - destruct (find _ (c0 :: cs)).
    + cbv zeta. rewrite replace_ret_run.
      destruct (hasKey _ _); cbn [snd logCall calls rows]; eexists;
        rewrite <- app_assoc; split; reflexivity.
    + destruct (lastOf_cons c0 cs) as (l & -> & _). cbv zeta.
      rewrite insert_ret_run.
      destruct (hasKey _ _); cbn [snd logCall calls rows]; eexists;
        rewrite <- app_assoc; split; reflexivity.
Qed.

(** After a stage-3 call that succeeded, the finalizer given the
    lower-cased run id finds a row: it does not fail, and the row it
    returns has that run id as p3 and the manifest commit as given. *)
Theorem updateManifestCommitId_after_stage3
    (uuid hld pipelineId : string) (manifestCommit prId repository : option string)
    (manifestCommit4 : string) (repository4 : option string)
    (t t3 : Table) (e3 : Row) :
  updateHLDToManifestPipeline tableInfo uuid hld pipelineId manifestCommit
    prId repository t = (Ok e3, t3) ->
  exists (e4 : Row) (t4 : Table),
    updateManifestCommitId tableInfo (Js.toLowerCase pipelineId) manifestCommit4
      repository4 t3 = (Ok e4, t4)
    /\ In e4 (rows t4)
    /\ p3 e4 = Some (Js.toLowerCase pipelineId)
    /\ manifestCommitId e4 = Some manifestCommit4.
Proof.
  intros Hrun.
  apply updateHLDToManifestPipeline_success_row in Hrun as (Hin & Hpk & Hp3).
  assert (Hfound : In e3 (matching tableInfo "p3" (Js.toLowerCase pipelineId) (rows t3)))
    by now apply matching_intro.
  rewrite updateManifestCommitId_run. unfold matching in Hfound.
  destruct (filter _ (rows t3)) as [|c rest] eqn:Hf; [contradiction|].
  assert (Hc : In c (matching tableInfo "p3" (Js.toLowerCase pipelineId) (rows t3))).
  { unfold matching. rewrite Hf. now left. }
  apply matching_In in Hc as (Hcin & Hcpk & Hcp3).
  change (p3 c = Some (Js.toLowerCase pipelineId)) in Hcp3.
  destruct (finalized_key manifestCommit4 repository4 c) as (Hpk' & Hrk' & Hp3').
  cbv zeta. eexists. eexists. split; [reflexivity|]. cbn [rows].
  split; [|split].
  - apply replaceRow_In. unfold hasKey. rewrite Hpk', Hrk'.
    now apply (keyInUse_In _ _ _ c).
  - now rewrite Hp3'.
  - unfold finalized. now destruct repository4 as [[|ch r]|].
Qed.

End Handover.

(** ** One lineage through all four calls *)

Section Lineage.

Variable tableInfo : DeploymentTable.

Lemma replaceRow_last (e x : Row) (l : list Row) :
  hasKey e l = false -> sameKey e x = true ->
  replaceRow e (l ++ [x]) = (l ++ [e])%list.
Proof.
  intros Hfree Hk. unfold replaceRow. rewrite map_app. fold (replaceRow e l).
  rewrite (replaceRow_fresh _ _ Hfree). cbn [map]. now rewrite Hk.
Qed.

Lemma matching_last (name value : string) (l : list Row) (e : Row) :
  matching tableInfo name value l = [] ->
  PartitionKey e = partitionKey tableInfo -> getField name e = Some value ->
  matching tableInfo name value (l ++ [e]) = [e].
Proof.
  intros Hnone Hpk Hf. rewrite matching_app, Hnone. unfold matching.
  cbn [filter app]. now rewrite selects_intro.
Qed.


Variables uuid1 pipelineId1 tag svc cid : string.
Variable repository1 : option string.
Variables uuid2 pipelineId2 hld envName : string.
Variables prId2 repository2 : option string.
Variables uuid3 pipelineId3 : string.
Variables manifestCommit3 prId3 repository3 : option string.
Variable manifestCommit4 : string.
Variable repository4 : option string.


End Lineage.

Lemma updateHLDToManifestPipeline_after_stage2_witness :
  In row2Demo (matching demoTable "hldCommitId" "def456" (rows (snd stage2Demo)))
  /\ exists w : StoreCall,
       calls (snd (updateHLDToManifestPipeline demoTable
                     "7d444840-9dc0-11d1-b245-5ffdce74fad2" "def456" "303" None
                     (Some "PR-9") None (snd stage2Demo)))
       = (calls (snd stage2Demo) ++ [QueryEntities "hldCommitId" "def456"; w])%list
       /\ isWrite w = true.
Proof.
  exact (updateHLDToManifestPipeline_after_stage2 demoTable
           "6ec0bd7f-11c0-43da-975e-2a8ad9ebae0b" "202" "hello-spk-master-1234"
           "DEF456" "QA" None None "7d444840-9dc0-11d1-b245-5ffdce74fad2" "303"
           None (Some "PR-9") None (snd stage1Demo) (snd stage2Demo) row2Demo
           eq_refl).
Defined.

Lemma updateManifestCommitId_after_stage3_witness :
  exists (e4 : Row) (t4 : Table),
    updateManifestCommitId demoTable "run-303" "0a1b2c" None (snd stage3FallbackDemo)
    = (Ok e4, t4)
    /\ In e4 (rows t4) /\ p3 e4 = Some "run-303"
    /\ manifestCommitId e4 = Some "0a1b2c".
Proof.
  pose (e3 := match fst stage3FallbackDemo with Ok e => e | Err _ => row1Demo end).
  exact (updateManifestCommitId_after_stage3 demoTable
           "7d444840-9dc0-11d1-b245-5ffdce74fad2" "0fe1d2" "Run-303" None
           (Some "42") None "0a1b2c" None tablePr42 (snd stage3FallbackDemo) e3
           eq_refl).
Defined.


(** * The validate command *)

(** ** The configuration check *)

Lemma pushUnless_nil (x : option string) (name : string) :
  Validate.pushUnless x name = [] <-> Js.truthy x = true.
Proof. unfold Validate.pushUnless. destruct (Js.truthy x); split; congruence. Qed.

(** [isValidConfig] accepts a configuration exactly when the
    introspection section, its azure section and the azure_devops section
    are there and account_name, key, partition_key, table_name, org and
    project are non-empty strings; in every other case it throws the one
    error about missing configuration. When the introspection section is
    missing, that is the only entry reported: the azure_devops section is
    not looked at. *)
Theorem isValidConfig_accepts_iff (config : Validate.ConfigYaml) :
  (Validate.isValidConfig config = Done tt <->
   exists intro az ado,
     Validate.introspection config = Some intro
     /\ Validate.azure intro = Some az
     /\ Validate.azure_devops config = Some ado
     /\ Js.truthy (Validate.account_name az) = true
     /\ Js.truthy (Validate.key az) = true
     /\ Js.truthy (Validate.partition_key az) = true
     /\ Js.truthy (Validate.table_name az) = true
     /\ Js.truthy (Validate.org ado) = true
     /\ Js.truthy (Validate.project ado) = true)
  /\ (Validate.isValidConfig config <> Done tt ->
      Validate.isValidConfig config
      = Thrown (Message "missing configuration in spk configuration"))
  /\ (Validate.introspection config = None ->
      Validate.missingConfig config = ["introspection"]).
Proof.
  split; [|split].
  - assert (Hnil : Validate.isValidConfig config = Done tt
                   <-> Validate.missingConfig config = []).
    { unfold Validate.isValidConfig.
      destruct (Validate.missingConfig config); cbn; split; congruence. }
    rewrite Hnil. unfold Validate.missingConfig.
    destruct config as [[[[az|]]|] [ado|]]; cbn [Validate.introspection
      Validate.azure Validate.azure_devops]; split;
      try (intros H; apply app_eq_nil in H as [H1 H2]; discriminate);
      try discriminate;
      try (intros (intro & az' & ado' & H1 & H2 & H3 & _);
           first [discriminate | injection H1 as <-; discriminate]).
    + intros H. apply app_eq_nil in H as [H1 H2].
      apply app_eq_nil in H1 as [Ha H1]. apply app_eq_nil in H1 as [Hk H1].
      apply app_eq_nil in H1 as [Hp Ht]. apply app_eq_nil in H2 as [Ho Hj].
      apply pushUnless_nil in Ha, Hk, Hp, Ht, Ho, Hj.
      exists (Validate.mkIntrospection (Some az)), az, ado. now repeat split.
    + intros (intro & az' & ado' & H1 & H2 & H3 & Ha & Hk & Hp & Ht & Ho & Hj).
      injection H1 as <-. cbn in H2. injection H2 as <-. injection H3 as <-.
      unfold Validate.pushUnless. now rewrite Ha, Hk, Hp, Ht, Ho, Hj.
  - unfold Validate.isValidConfig.
    destruct (0 <? List.length (Validate.missingConfig config))%nat; congruence.
  - unfold Validate.missingConfig. now intros ->.
Qed.

Lemma isValidConfig_accepts_iff_witness :
  Validate.isValidConfig
    (Validate.mkConfigYaml
       (Some (Validate.mkIntrospection
                (Some (Validate.mkAzureIntrospection (Some "acct") (Some "key")
                         (Some "hello-spk") (Some "deployments")))))
       (Some (Validate.mkAzureDevops (Some "org") (Some "proj")))) = Done tt
  /\ Validate.isValidConfig
       (Validate.mkConfigYaml
          (Some (Validate.mkIntrospection
                   (Some (Validate.mkAzureIntrospection (Some "acct") (Some "")
                            (Some "hello-spk") (Some "deployments")))))
          (Some (Validate.mkAzureDevops (Some "org") (Some "proj"))))
     = Thrown (Message "missing configuration in spk configuration").
Proof.
  split.
  - apply (proj1 (isValidConfig_accepts_iff _)).
    eexists. eexists. eexists. repeat split; reflexivity.
  - apply (proj1 (proj2 (isValidConfig_accepts_iff _))). discriminate.
Defined.

(** ** The self-test *)

Section SelfTest.

Variables accountKey_ accountName_ partitionKey_ tableName_ : string.

Local Abbreviation tableInfo :=
  (mkDeploymentTable accountName_ accountKey_ tableName_ partitionKey_).

Lemma sameKey_sym (a b : Row) : sameKey a b = sameKey b a.
Proof.
  unfold sameKey, keyIs.
  now rewrite (String.eqb_sym (PartitionKey a)), (String.eqb_sym (RowKey a)).
Qed.

Lemma deleteFromTable_present (entry : Row) (t : Table) :
  hasKey entry (rows t) = true ->
  deleteFromTable tableInfo entry t
  = (Ok tt, mkTable (filter (fun e => negb (sameKey entry e)) (rows t)) (calls t)).
Proof. intros H. unfold deleteFromTable. now rewrite H. Qed.

(** On a table of the partition that holds no row for the image tag of
    the self-test and no row of its service, and where the RowKey of the
    first UUID is free, [writeSelfTestData] succeeds with the build id it
    drew, and [deleteSelfTestData] for that build id then reports [true]
    and leaves the rows of the table exactly as they were before the
    self-test. *)
Theorem selfTest_round_trip (draw : nat) (uuid1 uuid2 : string) (t : Table) :
  matching tableInfo "imageTag" "spk-test-123" (rows t) = [] ->
  matching tableInfo "service" Validate.service (rows t) = [] ->
  keyInUse partitionKey_ (getRowKey uuid1) (rows t) = false ->
  exists t1 t2 : Table,
    Validate.writeSelfTestData accountKey_ accountName_ partitionKey_ tableName_
      draw uuid1 uuid2 t = (Done (toString draw), t1)
    /\ List.length (rows t1) = S (List.length (rows t))
    /\ Validate.deleteSelfTestData accountKey_ accountName_ partitionKey_ tableName_
         (toString draw) t1 = (Done true, t2)
    /\ rows t2 = rows t.
Proof.
  intros Htag Hsvc Hfree.
  unfold Validate.writeSelfTestData. cbv zeta. unfold addSrcToACRPipeline.
  set (e1 := mkRow _ _ _ _ _ _ _ _ _ _ _ _ _ _ _).
  assert (Hfree1 : hasKey e1 (rows t) = false) by exact Hfree.
  rewrite insert_ret_run, Hfree1.
  set (t1 := mkTable (rows t ++ [e1]) _).
  assert (Hm2 : matching tableInfo "imageTag" "spk-test-123" (rows t1) = [e1])
    by (apply matching_last; [exact Htag|reflexivity|reflexivity]).
  set (e2 := arcToHLDUpdated e1 (toString draw) ("6nbe" ++ toString draw) "SPK-TEST"
               None None).
  assert (Hrun2 : updateACRToHLDPipeline tableInfo uuid2 (toString draw)
                    "spk-test-123" ("6nbe" ++ toString draw) "SPK-TEST" None None t1
                  = (Ok e2, mkTable (replaceRow e2 (rows t1))
                              ((calls t1 ++ [QueryEntities "imageTag" "spk-test-123"])
                               ++ [ReplaceEntity e2]))).
  { apply (updateACRToHLDPipeline_replace_run tableInfo (toString draw)
             "spk-test-123" ("6nbe" ++ toString draw) "SPK-TEST" None None uuid2 t1 e1).
    now rewrite Hm2. }
  assert (Hfree2 : hasKey e2 (rows t) = false) by exact Hfree.
  assert (Hrows2 : replaceRow e2 (rows t1) = (rows t ++ [e2])%list).
  { apply replaceRow_last; [exact Hfree2|]. apply keyIs_eq. now split. }
  rewrite Hrows2 in Hrun2. rewrite Hrun2.
  eexists. eexists. split; [reflexivity|]. cbn [rows].
  split; [rewrite List.length_app; cbn; lia|].
  unfold Validate.deleteSelfTestData, findMatchingDeployments.
  cbn [logCall rows calls].
  rewrite (matching_last tableInfo "service" Validate.service (rows t) e2 Hsvc)
    by reflexivity.
  cbn [Validate.deleteEntries].
  assert (Hp1 : String.eqb (p1 e2) (toString draw) = true) by apply String.eqb_refl.
  rewrite Hp1.
  rewrite deleteFromTable_present.
  - cbn [rows calls]. split; [reflexivity|]. cbn [rows logCall].
    rewrite filter_app. cbn [filter]. rewrite sameKey_refl. cbn [negb].
    rewrite app_nil_r. now apply filter_others_fresh.
  - cbn [rows logCall]. unfold hasKey, keyInUse. rewrite existsb_app. cbn [existsb].
    fold (sameKey e2 e2). rewrite sameKey_refl. cbn. apply orb_true_r.
Qed.

End SelfTest.

Lemma selfTest_round_trip_witness :
  exists t1 t2 : Table,
    Validate.writeSelfTestData "key" "acct" "hello-spk" "deployments" 907
      "c56a4180-65aa-42ec-a945-5fd21dec0538" "110ec58a-a0f2-4ac4-8393-c866d813b8d1"
      (snd finalizerDemo) = (Done "907", t1)
    /\ List.length (rows t1) = 2
    /\ Validate.deleteSelfTestData "key" "acct" "hello-spk" "deployments" "907" t1
       = (Done true, t2)
    /\ rows t2 = rows (snd finalizerDemo).
Proof.
  exact (selfTest_round_trip "key" "acct" "hello-spk" "deployments" 907
           "c56a4180-65aa-42ec-a945-5fd21dec0538"
           "110ec58a-a0f2-4ac4-8393-c866d813b8d1" (snd finalizerDemo)
           eq_refl eq_refl eq_refl).
Defined.

Section SelfTestCleanup.

Variables accountKey_ accountName_ partitionKey_ tableName_ : string.
Variable buildId : string.

Local Abbreviation tableInfo :=
  (mkDeploymentTable accountName_ accountKey_ tableName_ partitionKey_).

Local Abbreviation isSelfTest := (selects tableInfo "service" Validate.service).

Lemma sameKey_true (a b : Row) :
  sameKey a b = true <-> PartitionKey b = PartitionKey a /\ RowKey b = RowKey a.
Proof. apply keyIs_eq. Qed.

Lemma sameKey_trans_false (a b c : Row) :
  sameKey a b = false -> sameKey b c = true -> sameKey a c = false.
Proof.
  intros Hab Hbc. destruct (sameKey a c) eqn:Hac; [|reflexivity].
  apply sameKey_true in Hbc as [H1 H2]. apply sameKey_true in Hac as [H3 H4].
  assert (Hab' : sameKey a b = true)
    by (apply sameKey_true; split; congruence).
  congruence.
Qed.

Lemma hasKey_exists (e : Row) (l : list Row) :
  hasKey e l = true <-> exists x, In x l /\ sameKey e x = true.
Proof. unfold hasKey, keyInUse. apply existsb_exists. Qed.

Lemma hasKey_filter_others (e e' : Row) (l : list Row) :
  hasKey e' l = true -> sameKey e e' = false ->
  hasKey e' (filter (fun r => negb (sameKey e r)) l) = true.
Proof.
  intros Hk Hne. apply hasKey_exists in Hk as (x & Hx & Hsame).
  apply hasKey_exists. exists x. split; [|exact Hsame].
  apply filter_In. split; [exact Hx|].
  now rewrite (sameKey_trans_false e e' x Hne Hsame).
Qed.

Lemma filter_twice {A} (f g : A -> bool) (l : list A) :
  filter f (filter g l) = filter (fun x => g x && f x) l.
Proof.
  induction l as [|x l IH]; [reflexivity|]. cbn [filter].
  destruct (g x); cbn [andb filter]; [now rewrite IH|exact IH].
Qed.

(** The loop, when every entry is in the table and no two entries have
    one key: every delete succeeds. *)
Lemma deleteEntries_all (es : list Row) (found : bool) (t : Table) :
  (forall e, In e es -> hasKey e (rows t) = true) ->
  distinctKeys es = true ->
  Validate.deleteEntries tableInfo buildId es found t
  = (existsb (fun e => String.eqb (p1 e) buildId) es || found,
     mkTable (filter (fun r => negb (existsb (fun e => sameKey e r) es)) (rows t))
             (calls t)).
Proof.
  revert found t. induction es as [|e rest IH]; intros found t Hin Hd.
  - cbn [Validate.deleteEntries existsb orb negb].
    destruct t as [l c]. cbn [rows calls]. f_equal. f_equal.
    symmetry. clear. induction l as [|x l IH]; [reflexivity|].
    cbn [filter]. now rewrite IH.
  - cbn [distinctKeys] in Hd. apply andb_true_iff in Hd as [Hfresh Hd].
    apply negb_true_iff in Hfresh.
    cbn [Validate.deleteEntries].
    rewrite deleteFromTable_present by (apply Hin; now left).
    rewrite IH; [|cbn [rows]|exact Hd].
    + cbn [rows calls existsb]. f_equal.
      * destruct (String.eqb (p1 e) buildId); cbn [orb];
          [now rewrite orb_true_r|reflexivity].
      * f_equal. rewrite filter_twice. apply filter_ext. intros r.
        now rewrite negb_orb.
    + intros e' He'. apply hasKey_filter_others; [apply Hin; now right|].
      destruct (sameKey e e') eqn:E; [|reflexivity].
      assert (hasKey e rest = true) by (apply hasKey_exists; eauto).
      congruence.
Qed.

Lemma hasKey_filter (f : Row -> bool) (e : Row) (l : list Row) :
  hasKey e (filter f l) = true -> hasKey e l = true.
Proof.
  intros H. apply hasKey_exists in H as (x & Hx & Hs).
  apply filter_In in Hx as [Hx _]. apply hasKey_exists. eauto.
Qed.

Lemma distinctKeys_filter (f : Row -> bool) (l : list Row) :
  distinctKeys l = true -> distinctKeys (filter f l) = true.
Proof.
  induction l as [|x l IH]; [reflexivity|]. cbn [distinctKeys filter].
  intros H. apply andb_true_iff in H as [Hx Hl].
  destruct (f x); [|now apply IH]. cbn [distinctKeys].
  rewrite (IH Hl), andb_true_r. apply negb_true_iff in Hx. apply negb_true_iff.
  destruct (hasKey x (filter f l)) eqn:E; [|reflexivity].
  apply hasKey_filter in E. congruence.
Qed.

Lemma distinctKeys_same (l : list Row) (a b : Row) :
  distinctKeys l = true -> In a l -> In b l -> sameKey a b = true -> a = b.
Proof.
  induction l as [|x l IH]; [contradiction|]. cbn [distinctKeys].
  intros H Ha Hb Hs. apply andb_true_iff in H as [Hx Hl].
  apply negb_true_iff in Hx.
  destruct Ha as [<-|Ha], Hb as [<-|Hb].
  - reflexivity.
  - assert (hasKey x l = true) by (apply hasKey_exists; eauto). congruence.
  - rewrite sameKey_sym in Hs.
    assert (hasKey x l = true) by (apply hasKey_exists; eauto). congruence.
  - now apply IH.
Qed.

(** On a table in which no two rows have one key, [deleteSelfTestData]
    deletes every row of the partition whose service is the one of the
    self-test, of whatever build, and no other row; what it reports is
    whether one of the rows it deleted has the build id as its p1. *)
Theorem deleteSelfTestData_removes_service_rows (t : Table) :
  distinctKeys (rows t) = true ->
  exists t' : Table,
    Validate.deleteSelfTestData accountKey_ accountName_ partitionKey_ tableName_
      buildId t
    = (Done (existsb (fun e => String.eqb (p1 e) buildId)
               (matching tableInfo "service" Validate.service (rows t))), t')
    /\ rows t' = filter (fun e => negb (isSelfTest e)) (rows t).
Proof.
  intros Hd. unfold Validate.deleteSelfTestData, findMatchingDeployments.
  rewrite deleteEntries_all.
  - eexists. split; [now rewrite orb_false_r|]. cbn [rows logCall].
    apply filter_ext_in. intros r Hr. f_equal.
    destruct (isSelfTest r) eqn:Hsel.
    + apply existsb_exists. exists r. split; [|apply sameKey_refl].
      apply matching_selects. now split.
    + destruct (existsb _ _) eqn:E; [|reflexivity].
      apply existsb_exists in E as (e & He & Hs).
      apply matching_selects in He as [He Hsel'].
      rewrite (distinctKeys_same _ _ _ Hd He Hr Hs) in Hsel'. congruence.
  - intros e He. cbn [rows logCall]. apply matching_In in He as (He & _).
    apply hasKey_exists. exists e. split; [exact He|apply sameKey_refl].
  - now apply distinctKeys_filter.
Qed.

End SelfTestCleanup.

Lemma deleteSelfTestData_removes_service_rows_witness :
  exists (t1 t' : Table),
    Validate.writeSelfTestData "key" "acct" "hello-spk" "deployments" 907
      "c56a4180-65aa-42ec-a945-5fd21dec0538" "110ec58a-a0f2-4ac4-8393-c866d813b8d1"
      (snd finalizerDemo) = (Done "907", t1)
    /\ Validate.deleteSelfTestData "key" "acct" "hello-spk" "deployments" "41" t1
       = (Done false, t')
    /\ rows t' = rows (snd finalizerDemo).
Proof.
  pose (t1 := snd (Validate.writeSelfTestData "key" "acct" "hello-spk" "deployments"
                     907 "c56a4180-65aa-42ec-a945-5fd21dec0538"
                     "110ec58a-a0f2-4ac4-8393-c866d813b8d1" (snd finalizerDemo))).
  destruct (deleteSelfTestData_removes_service_rows "key" "acct" "hello-spk"
              "deployments" "41" t1 eq_refl) as (t' & Hrun & Hrows).
  exists t1, t'. split; [reflexivity|]. split; [exact Hrun|exact Hrows].
Defined.

(** * The create command *)

(** ** What each resolver does to the log and the rows *)

Section Effects.

Variable tableInfo : DeploymentTable.

Lemma writes_app (t : Table) (l : list Row) (cs : list StoreCall) :
  writes (mkTable l (calls t ++ cs)) = writes t + List.length (filter isWrite cs).
Proof. unfold writes. cbn [calls]. now rewrite filter_app, List.length_app. Qed.

Lemma insert_ret_effect (e : Row) (t : Table) (qs : list StoreCall) (l : list Row) :
  filter isWrite qs = [] ->
  let out := (insertToTable tableInfo e ;;; ret e) (mkTable l (calls t ++ qs)) in
  calls (snd out) = (calls t ++ qs ++ [InsertEntity e])%list
  /\ match fst out with
     | Ok _ => writes (snd out) = S (writes t)
     | Err _ => rows (snd out) = l
     end.
Proof.
  intros Hq out. subst out. rewrite insert_ret_run. unfold logCall.
  cbn [rows calls].
  destruct (hasKey e l); cbn [fst snd rows calls]; rewrite <- app_assoc;
    (split; [reflexivity|]); [reflexivity|].
  rewrite writes_app, filter_app, Hq. cbn. lia.
Qed.

Lemma replace_ret_effect (e : Row) (t : Table) (qs : list StoreCall) (l : list Row) :
  filter isWrite qs = [] ->
  let out := (updateEntryInTable tableInfo e ;;; ret e) (mkTable l (calls t ++ qs)) in
  calls (snd out) = (calls t ++ qs ++ [ReplaceEntity e])%list
  /\ match fst out with
     | Ok _ => writes (snd out) = S (writes t)
     | Err _ => rows (snd out) = l
     end.
Proof.
  intros Hq out. subst out. rewrite replace_ret_run. unfold logCall.
  cbn [rows calls].
  destruct (hasKey e l); cbn [fst snd rows calls]; rewrite <- app_assoc;
    (split; [reflexivity|]); [|reflexivity].
  rewrite writes_app, filter_app, Hq. cbn. lia.
Qed.

Lemma addSrcToACRPipeline_effect
    (uuid pipelineId tag svc cid : string) (repository : option string) (t : Table) :
  let out := addSrcToACRPipeline tableInfo uuid pipelineId tag svc cid repository t in
  (exists e, calls (snd out) = (calls t ++ [InsertEntity e])%list)
  /\ settled t (fst out) (snd out).
Proof.
  intros out. subst out. unfold addSrcToACRPipeline.
  set (e := mkRow _ _ _ _ _ _ _ _ _ _ _ _ _ _ _).
  destruct (insert_ret_effect e t [] (rows t) eq_refl) as [Hc Hs].
  cbv zeta in Hc, Hs. rewrite app_nil_r in Hc, Hs.
  replace (mkTable (rows t) (calls t)) with t in Hc, Hs by now destruct t.
  split; [now exists e|]. unfold settled.
  destruct (fst _); assumption.
Qed.

Lemma updateACRToHLDPipeline_effect
    (uuid pipelineId tag hld envName : string) (prId repository : option string)
    (t : Table) :
  let out := updateACRToHLDPipeline tableInfo uuid pipelineId tag hld envName
               prId repository t in
  (exists w, calls (snd out) = (calls t ++ [QueryEntities "imageTag" tag; w])%list)
  /\ settled t (fst out) (snd out).
Proof.
  intros out. subst out. rewrite updateACRToHLDPipeline_run. cbv zeta.
  unfold logCall, settled.
  destruct (matching tableInfo "imageTag" tag (rows t)) as [|c0 cs].
  - match goal with |- context [(insertToTable tableInfo ?e ;;; _) _] =>
      destruct (insert_ret_effect e t [QueryEntities "imageTag" tag] (rows t) eq_refl)
        as [Hc Hs] end.
    cbv zeta in Hc, Hs. split; [eexists; exact Hc|]. destruct (fst _); assumption.
  - destruct (find _ (c0 :: cs)) as [found|].
    + match goal with |- context [(updateEntryInTable tableInfo ?e ;;; _) _] =>
        destruct (replace_ret_effect e t [QueryEntities "imageTag" tag] (rows t) eq_refl)
          as [Hc Hs] end.
      cbv zeta in Hc, Hs. split; [eexists; exact Hc|]. destruct (fst _); assumption.
    + destruct (lastOf_cons c0 cs) as (l & -> & _).
      match goal with |- context [(insertToTable tableInfo ?e ;;; _) _] =>
        destruct (insert_ret_effect e t [QueryEntities "imageTag" tag] (rows t) eq_refl)
          as [Hc Hs] end.
      cbv zeta in Hc, Hs. split; [eexists; exact Hc|]. destruct (fst _); assumption.
Qed.

Lemma hldToManifestQueries_head (hld : string) (prId : option string) (l : list Row) :
  exists more, hldToManifestQueries tableInfo hld prId l
               = QueryEntities "hldCommitId" hld :: more.
Proof.
  unfold hldToManifestQueries.
  destruct prId as [prv|]; [destruct (usesPrFallback _ _ _ _)|]; eauto.
Qed.

Lemma updateHLDToManifestPipeline_effect
    (uuid hld pipelineId : string) (manifestCommit prId repository : option string)
    (t : Table) :
  let out := updateHLDToManifestPipeline tableInfo uuid hld pipelineId
               manifestCommit prId repository t in
  (exists more,
      calls (snd out) = (calls t ++ QueryEntities "hldCommitId" hld :: more)%list)
  /\ settled t (fst out) (snd out).
Proof.
  intros out. subst out. rewrite updateHLDToManifestPipeline_run.
  pose proof (isWrite_filter_queries tableInfo hld prId (rows t)) as Hq.
  destruct (hldToManifestQueries_head hld prId (rows t)) as [more Hhead].
  unfold settled.
  destruct (hldToManifestCandidates tableInfo hld prId (rows t)) as [|c0 cs].
  - cbv zeta.
    match goal with |- context [(insertToTable tableInfo ?e ;;; _) _] =>
      destruct (insert_ret_effect e t _ (rows t) Hq) as [Hc Hs] end.
    cbv zeta in Hc, Hs. split; [|destruct (fst _); assumption].
    rewrite Hc, Hhead. now eexists.
  - destruct (find _ (c0 :: cs)) as [found|].
    + cbv zeta.
      match goal with |- context [(updateEntryInTable tableInfo ?e ;;; _) _] =>
        destruct (replace_ret_effect e t _ (rows t) Hq) as [Hc Hs] end.
      cbv zeta in Hc, Hs. split; [|destruct (fst _); assumption].
      rewrite Hc, Hhead. now eexists.
    + destruct (lastOf_cons c0 cs) as (l & -> & _). cbv zeta.
      match goal with |- context [(insertToTable tableInfo ?e ;;; _) _] =>
        destruct (insert_ret_effect e t _ (rows t) Hq) as [Hc Hs] end.
      cbv zeta in Hc, Hs. split; [|destruct (fst _); assumption].
      rewrite Hc, Hhead. now eexists.
Qed.

Lemma updateManifestCommitId_effect
    (pipelineId manifestCommit : string) (repository : option string) (t : Table) :
  let out := updateManifestCommitId tableInfo pipelineId manifestCommit repository t in
  (exists more,
      calls (snd out) = (calls t ++ QueryEntities "p3" pipelineId :: more)%list)
  /\ settled t (fst out) (snd out).
Proof.
  intros out. subst out. rewrite updateManifestCommitId_run. unfold settled.
  destruct (filter _ (rows t)) as [|e0 tl].
  - cbn [fst snd logCall rows calls]. split; [now eexists|reflexivity].
  - cbv zeta. cbn [fst snd calls]. split; [now eexists|].
    rewrite writes_app. cbn. lia.
Qed.

End Effects.

(** ** The command *)

Section CreateCommand.

Variable hasValue : option string -> bool.
Variable uuid : string.

Local Abbreviation execute := (Create.execute hasValue uuid).
Local Abbreviation perform := (Create.perform hasValue uuid).

Lemma await_effect {A} (m : M A) (t : Table) :
  settled t (fst (m t)) (snd (m t)) ->
  match Create.await m t with
  | (Done _, t') => writes t' = S (writes t) /\ t' = snd (m t)
  | (Thrown _, t') => rows t' = rows t /\ t' = snd (m t)
  end.
Proof.
  unfold Create.await, settled. destruct (m t) as [[a|err] t']; cbn [fst snd];
    now split.
Qed.

Lemma await_calls {A} (m : M A) (t : Table) :
  snd (Create.await m t) = snd (m t).
Proof. unfold Create.await. now destruct (m t) as [[a|err] t']. Qed.

(** The command exits with 0 only after a resolver has made exactly one
    write on the table, and with 1 otherwise; whenever it exits with 1,
    be it for missing options or for a resolver that failed, the rows of
    the table are the ones it started with. *)
Theorem execute_status (opts : Create.CommandOptions) (t t' : Table) (status : nat) :
  execute opts t = (status, t') ->
  (status = 0 /\ writes t' = S (writes t)) \/ (status = 1 /\ rows t' = rows t).
Proof.
  unfold Create.execute.
  assert (H : match perform opts t with
              | (Done _, t') => writes t' = S (writes t)
              | (Thrown _, t') => rows t' = rows t
              end).
  { unfold Create.perform.
    destruct (Create.validateValues hasValue opts); [|reflexivity].
    destruct (hasValue (Create.p1 opts)).
    { unfold Create.handlePipeline1.
      destruct (negb _ || negb _ || negb _); [reflexivity|].
      match goal with |- context [Create.await ?m t] =>
        pose proof (await_effect m t) as Ha;
        destruct (Create.await m t) as [[[]|f] t1]; apply Ha end;
        apply addSrcToACRPipeline_effect. }
    destruct (hasValue (Create.p2 opts)).
    { unfold Create.handlePipeline2.
      destruct (negb _ || negb _ || negb _); [reflexivity|].
      match goal with |- context [Create.await ?m t] =>
        pose proof (await_effect m t) as Ha;
        destruct (Create.await m t) as [[[]|f] t1]; apply Ha end;
        apply updateACRToHLDPipeline_effect. }
    destruct (hasValue (Create.p3 opts) && hasValue (Create.hldCommitId opts)).
    { match goal with |- context [Create.await ?m t] =>
        pose proof (await_effect m t) as Ha;
        destruct (Create.await m t) as [[[]|f] t1]; apply Ha end;
        apply updateHLDToManifestPipeline_effect. }
    destruct (hasValue (Create.p3 opts) && hasValue (Create.manifestCommitId opts));
      [|reflexivity].
    match goal with |- context [Create.await ?m t] =>
      pose proof (await_effect m t) as Ha;
      destruct (Create.await m t) as [[[]|f] t1]; apply Ha end;
      apply updateManifestCommitId_effect. }
  destruct (perform opts t) as [[[]|f] t1]; intros E; inversion E; subst; auto.
Qed.

(** The command makes no call on the table, and exits with 1, when one
    of access key, account name, partition key and table name has no
    value; when p1 has a value but image tag, commit id or service has
    none; when p1 has none and p2 has one but HLD commit id, env or image
    tag has none; and when neither p1 nor p2 has a value and either p3
    has none or both HLD commit id and manifest commit id have none. *)
Theorem execute_rejects_without_call (opts : Create.CommandOptions) (t : Table) :
  hasValue (Create.accessKey opts) = false \/ hasValue (Create.name opts) = false
  \/ hasValue (Create.partitionKey opts) = false
  \/ hasValue (Create.tableName opts) = false
  \/ (hasValue (Create.p1 opts) = true
      /\ (hasValue (Create.imageTag opts) = false
          \/ hasValue (Create.commitId opts) = false
          \/ hasValue (Create.service opts) = false))
  \/ (hasValue (Create.p1 opts) = false /\ hasValue (Create.p2 opts) = true
      /\ (hasValue (Create.hldCommitId opts) = false
          \/ hasValue (Create.env opts) = false
          \/ hasValue (Create.imageTag opts) = false))
  \/ (hasValue (Create.p1 opts) = false /\ hasValue (Create.p2 opts) = false
      /\ (hasValue (Create.p3 opts) = false
          \/ (hasValue (Create.hldCommitId opts) = false
              /\ hasValue (Create.manifestCommitId opts) = false))) ->
  execute opts t = (1, t).
Proof.
  intros H. unfold Create.execute, Create.perform, Create.validateValues,
    Create.handlePipeline1, Create.handlePipeline2.
  destruct (hasValue (Create.accessKey opts)) eqn:E1; [|reflexivity].
  destruct (hasValue (Create.name opts)) eqn:E2; [|reflexivity].
  destruct (hasValue (Create.partitionKey opts)) eqn:E3; [|reflexivity].
  destruct (hasValue (Create.tableName opts)) eqn:E4; [|reflexivity].
  cbn [negb orb].
  destruct H as [H|[H|[H|[H|[H|[H|H]]]]]]; try discriminate H.
  - destruct H as [-> [->| [->| ->]]]; cbn [negb orb]; try reflexivity;
      destruct (hasValue (Create.imageTag opts)); cbn [negb orb]; try reflexivity;
      destruct (hasValue (Create.commitId opts)); reflexivity.
  - destruct H as (-> & -> & [->| [->| ->]]); cbn [negb orb]; try reflexivity;
      destruct (hasValue (Create.hldCommitId opts)); cbn [negb orb]; try reflexivity;
      destruct (hasValue (Create.env opts)); reflexivity.
  - destruct H as (-> & -> & [->|[-> ->]]); [reflexivity|].
    now rewrite !andb_false_r.
Qed.

(** Which resolver runs, read off the calls on the table, when the four
    connection options have values. With p1 the command makes one insert
    at most and no query, whatever p2 and p3 are. Without p1 and with p2
    its first call, if any, is the query by image tag. Without both and
    with p3 and an HLD commit, its first call is the query by
    hldCommitId, also when a manifest commit is given: stage 3 runs, not
    the finalizer. Only with p3 and a manifest commit and without an HLD
    commit is its first call the query by p3. *)
Theorem execute_dispatch (opts : Create.CommandOptions) (t : Table) :
  Create.validateValues hasValue opts = Done tt ->
  let new := calls (snd (execute opts t)) in
  (hasValue (Create.p1 opts) = true ->
   new = calls t \/ exists e, new = (calls t ++ [InsertEntity e])%list)
  /\ (hasValue (Create.p1 opts) = false -> hasValue (Create.p2 opts) = true ->
      new = calls t
      \/ exists w, new = (calls t ++ [QueryEntities "imageTag"
                                        (Create.valueOf (Create.imageTag opts)); w])%list)
  /\ (hasValue (Create.p1 opts) = false -> hasValue (Create.p2 opts) = false ->
      hasValue (Create.p3 opts) = true ->
      hasValue (Create.hldCommitId opts) = true ->
      exists more,
        new = (calls t ++ QueryEntities "hldCommitId"
                            (Create.valueOf (Create.hldCommitId opts)) :: more)%list)
  /\ (hasValue (Create.p1 opts) = false -> hasValue (Create.p2 opts) = false ->
      hasValue (Create.p3 opts) = true ->
      hasValue (Create.hldCommitId opts) = false ->
      hasValue (Create.manifestCommitId opts) = true ->
      exists more,
        new = (calls t ++ QueryEntities "p3"
                            (Create.valueOf (Create.p3 opts)) :: more)%list).
Proof.
  intros Hvalid new. subst new.
  assert (Hsnd : snd (execute opts t) = snd (perform opts t)).
  { unfold Create.execute. now destruct (perform opts t) as [[[]|f] t1]. }
  rewrite Hsnd. unfold Create.perform. rewrite Hvalid.
  repeat split.
  - intros ->. unfold Create.handlePipeline1.
    destruct (negb _ || negb _ || negb _); [now left|]. right.
    rewrite await_calls. apply addSrcToACRPipeline_effect.
  - intros -> ->. unfold Create.handlePipeline2.
    destruct (negb _ || negb _ || negb _); [now left|]. right.
    rewrite await_calls. apply updateACRToHLDPipeline_effect.
  - intros -> -> -> ->. cbn [andb]. rewrite await_calls.
    apply updateHLDToManifestPipeline_effect.
  - intros -> -> -> -> ->. cbn [andb]. rewrite await_calls.
    apply updateManifestCommitId_effect.
Qed.

End CreateCommand.

Lemma execute_status_witness :
  exists t' : Table,
    Create.execute Js.truthy "7d444840-9dc0-11d1-b245-5ffdce74fad2" optsStage3Demo
      (snd stage2Demo) = (0, t')
    /\ writes t' = S (writes (snd stage2Demo)).
Proof.
  pose (t' := snd (Create.execute Js.truthy "7d444840-9dc0-11d1-b245-5ffdce74fad2"
                     optsStage3Demo (snd stage2Demo))).
  exists t'. split; [reflexivity|].
  destruct (execute_status Js.truthy "7d444840-9dc0-11d1-b245-5ffdce74fad2"
              optsStage3Demo (snd stage2Demo) t' 0 eq_refl) as [[_ H]|[H _]].
  - exact H.
  - discriminate H.
Defined.

Lemma execute_rejects_without_call_witness :
  Create.execute Js.truthy "7d444840-9dc0-11d1-b245-5ffdce74fad2"
    optsStage1Incomplete (snd stage2Demo) = (1, snd stage2Demo).
Proof.
  apply execute_rejects_without_call.
  right. right. right. right. left. split; [reflexivity|]. right. left. reflexivity.
Defined.

Lemma execute_dispatch_witness :
  exists more,
    calls (snd (Create.execute Js.truthy "7d444840-9dc0-11d1-b245-5ffdce74fad2"
                  optsStage3Demo (snd stage2Demo)))
    = (calls (snd stage2Demo) ++ QueryEntities "hldCommitId" "def456" :: more)%list.
Proof.
  destruct (execute_dispatch Js.truthy "7d444840-9dc0-11d1-b245-5ffdce74fad2"
              optsStage3Demo (snd stage2Demo) eq_refl) as (_ & _ & H & _).
  exact (H eq_refl eq_refl eq_refl eq_refl).
Defined.

(** * Answers read from a file *)

Section PromptFile.

Local Abbreviation nl := ("010"%char).

Variable file : string.

Lemma split_one (l : string) :
  Js.hasChar nl l = false -> Prompt.split nl l = [l].
Proof.
  induction l as [|c l IH]; [reflexivity|]. cbn [Js.hasChar Prompt.split].
  intros H. apply orb_false_iff in H as [Hc Hl]. rewrite Hc.
  now rewrite (IH Hl).
Qed.

Lemma split_line (l rest : string) :
  Js.hasChar nl l = false ->
  Prompt.split nl (l ++ String nl rest) = l :: Prompt.split nl rest.
Proof.
  induction l as [|c l IH]; intros H.
  - reflexivity.
  - cbn [Js.hasChar] in H. apply orb_false_iff in H as [Hc Hl].
    cbn [append Prompt.split]. rewrite Hc. now rewrite (IH Hl).
Qed.

Lemma split_joinLines (l : string) (rest : list string) :
  Forall (fun x => Js.hasChar nl x = false) (l :: rest) ->
  Prompt.split nl (Prompt.joinLines (l :: rest)) = l :: rest.
Proof.
  revert l. induction rest as [|l' rest IH]; intros l H.
  - cbn [Prompt.joinLines]. apply split_one. now inversion H.
  - inversion H as [|? ? Hl Hrest]; subst.
    change (Prompt.joinLines (l :: l' :: rest))
      with (l ++ String nl (Prompt.joinLines (l' :: rest))).
    rewrite (split_line _ _ Hl). now rewrite (IH l' Hrest).
Qed.

(** Parsing the text of a file goes line by line. *)
Lemma parse_joinLines (lines : list string) :
  Forall (fun x => Js.hasChar nl x = false) lines ->
  Prompt.parseInformationFromFile file (Some (Prompt.joinLines lines))
  = Done (fold_left Prompt.parseLine (filter Prompt.notBlank lines) []).
Proof.
  intros H. unfold Prompt.parseInformationFromFile. cbv zeta.
  destruct lines as [|l rest]; [reflexivity|].
  now rewrite (split_joinLines l rest H).
Qed.

Lemma indexOf_none (c : ascii) (s : string) :
  Js.hasChar c s = false -> Prompt.indexOf c s = None.
Proof.
  induction s as [|d s IH]; [reflexivity|]. cbn [Js.hasChar Prompt.indexOf].
  intros H. apply orb_false_iff in H as [Hd Hs]. now rewrite Hd, (IH Hs).
Qed.

Lemma indexOf_first (c : ascii) (k v : string) :
  Js.hasChar c k = false ->
  Prompt.indexOf c (k ++ String c v) = Some (String.length k).
Proof.
  induction k as [|d k IH]; intros H.
  - cbn [append Prompt.indexOf]. now rewrite Ascii.eqb_refl.
  - cbn [Js.hasChar] in H. apply orb_false_iff in H as [Hd Hk].
    cbn [append Prompt.indexOf String.length]. now rewrite Hd, (IH Hk).
Qed.

Lemma drop_past (k : string) (c : ascii) (v : string) :
  Js.drop (String.length k + 1) (k ++ String c v) = v.
Proof. induction k as [|d k IH]; [reflexivity|exact IH]. Qed.

Lemma parseLine_pair (map : Prompt.Answers) (k v : string) :
  Js.hasChar "=" k = false ->
  Prompt.parseLine map (k ++ String "=" v)
  = Prompt.assign (Prompt.trim k) (Prompt.trim v) map.
Proof.
  intros H. unfold Prompt.parseLine. rewrite (indexOf_first _ _ _ H).
  now rewrite substring0_app, drop_past.
Qed.

Lemma trimEnd_head (c : ascii) (r : string) :
  Prompt.isSpace c = false -> Prompt.trimEnd (String c r) <> "".
Proof.
  intros H. cbn [Prompt.trimEnd]. rewrite H.
  destruct (Prompt.trimEnd r); discriminate.
Qed.

(** A string with a character that is not white space is not blank. *)
Lemma notBlank_char (c : ascii) (s : string) :
  Js.hasChar c s = true -> Prompt.isSpace c = false -> Prompt.notBlank s = true.
Proof.
  intros Hin Hc. unfold Prompt.notBlank, Prompt.trim.
  assert (H : exists d r, Prompt.trimStart s = String d r /\ Prompt.isSpace d = false).
  { induction s as [|d s IH]; [discriminate Hin|]. cbn [Prompt.trimStart].
    destruct (Prompt.isSpace d) eqn:Ed; [|eauto].
    apply IH. cbn [Js.hasChar] in Hin. apply orb_true_iff in Hin as [Hd|Hs];
      [|exact Hs].
    apply Ascii.eqb_eq in Hd. congruence. }
  destruct H as (d & r & -> & Hd).
  pose proof (trimEnd_head d r Hd) as Hne.
  destruct (Prompt.trimEnd (String d r)); [congruence|reflexivity].
Qed.

Lemma hasChar_mid (c : ascii) (k v : string) : Js.hasChar c (k ++ String c v) = true.
Proof.
  induction k as [|d k IH]; cbn [append Js.hasChar].
  - now rewrite Ascii.eqb_refl.
  - rewrite IH. apply orb_true_r.
Qed.

Lemma notBlank_pair (k v : string) : Prompt.notBlank (k ++ String "=" v) = true.
Proof. apply (notBlank_char "="); [apply hasChar_mid|reflexivity]. Qed.

Lemma hasChar_pair (c : ascii) (k v : string) :
  Js.hasChar c (k ++ String "=" v)
  = Js.hasChar c k || (Ascii.eqb "=" c || Js.hasChar c v).
Proof.
  induction k as [|d k IH]; cbn [append Js.hasChar]; [reflexivity|].
  now rewrite IH, orb_assoc.
Qed.

(** One line: the key is what stands before the first [=], the value
    all that follows it, further [=] included, both without the white
    space at their ends. *)
Theorem parseInformationFromFile_line (k v : string) :
  Js.hasChar "=" k = false -> Js.hasChar nl k = false -> Js.hasChar nl v = false ->
  Prompt.trim k <> "__proto__" ->
  Prompt.parseInformationFromFile file (Some (k ++ String "=" v))
  = Done [(Prompt.trim k, Prompt.trim v)].
Proof.
  intros Hk Hknl Hvnl Hproto.
  assert (Hline : Forall (fun x => Js.hasChar nl x = false) [k ++ String "=" v]).
  { constructor; [|constructor]. rewrite hasChar_pair, Hknl, Hvnl. reflexivity. }
  pose proof (parse_joinLines _ Hline) as H. cbn [Prompt.joinLines] in H.
  rewrite H. cbn [filter]. rewrite notBlank_pair. cbn [fold_left].
  rewrite (parseLine_pair _ _ _ Hk). unfold Prompt.assign.
  apply String.eqb_neq in Hproto. now rewrite Hproto.
Qed.

(** A line that is blank or has no [=] in it changes nothing, wherever
    it stands in the file. *)
Theorem parseInformationFromFile_skips (before after : list string) (junk : string) :
  Forall (fun x => Js.hasChar nl x = false) (before ++ junk :: after) ->
  Prompt.notBlank junk = false \/ Js.hasChar "=" junk = false ->
  Prompt.parseInformationFromFile file
    (Some (Prompt.joinLines (before ++ junk :: after)))
  = Prompt.parseInformationFromFile file (Some (Prompt.joinLines (before ++ after))).
Proof.
  intros Hnl Hjunk.
  assert (Hnl' : Forall (fun x => Js.hasChar nl x = false) (before ++ after)).
  { apply Forall_app in Hnl as [H1 H2]. apply Forall_app. split; [exact H1|].
    now inversion H2. }
  rewrite !parse_joinLines by assumption. f_equal.
  rewrite !filter_app, !fold_left_app. cbn [filter].
  destruct (Prompt.notBlank junk) eqn:Hb; [|reflexivity].
  destruct Hjunk as [Hjunk|Hjunk]; [discriminate Hjunk|].
  cbn [fold_left]. unfold Prompt.parseLine at 2.
  now rewrite (indexOf_none _ _ Hjunk).
Qed.

Lemma getOwn_app (key : string) (m1 m2 : Prompt.Answers) :
  Prompt.getOwn key (m1 ++ m2)%list
  = match Prompt.getOwn key m1 with
    | Some v => Some v
    | None => Prompt.getOwn key m2
    end.
Proof.
  induction m1 as [|[k v] m1 IH]; [reflexivity|]. cbn [app Prompt.getOwn].
  now destruct (String.eqb k key).
Qed.

Lemma getOwn_rev (key : string) (pairs : list (string * string)) :
  Prompt.getOwn key (rev pairs) = Prompt.lastValue key pairs.
Proof.
  induction pairs as [|[k v] rest IH]; [reflexivity|].
  cbn [rev Prompt.lastValue]. rewrite getOwn_app, IH.
  destruct (Prompt.lastValue key rest); [reflexivity|].
  cbn [Prompt.getOwn]. now destruct (String.eqb k key).
Qed.

Local Abbreviation lineOf := (fun kv : string * string => fst kv ++ String "=" (snd kv)).

Local Abbreviation good :=
  (fun kv : string * string => Prompt.goodKey (fst kv) && Prompt.goodValue (snd kv)).

Lemma good_elim (kv : string * string) :
  good kv = true ->
  Prompt.trim (fst kv) = fst kv /\ Prompt.trim (snd kv) = snd kv
  /\ Js.hasChar "=" (fst kv) = false /\ Js.hasChar nl (fst kv) = false
  /\ Js.hasChar nl (snd kv) = false /\ String.eqb (fst kv) "__proto__" = false.
Proof.
  unfold Prompt.goodKey, Prompt.goodValue.
  rewrite !andb_true_iff, !negb_true_iff, !String.eqb_eq. tauto.
Qed.

Lemma fold_parse_pairs (pairs : list (string * string)) (m : Prompt.Answers) :
  forallb good pairs = true ->
  fold_left Prompt.parseLine (filter Prompt.notBlank (map lineOf pairs)) m
  = (rev pairs ++ m)%list.
Proof.
  revert m. induction pairs as [|kv rest IH]; intros m H; [reflexivity|].
  cbn [forallb] in H. apply andb_true_iff in H as [Hkv Hrest].
  apply good_elim in Hkv as (Hk & Hv & Heq & _ & _ & Hproto).
  cbn [map filter]. rewrite notBlank_pair. cbn [fold_left].
  rewrite (parseLine_pair _ _ _ Heq), Hk, Hv. unfold Prompt.assign. rewrite Hproto.
  rewrite (IH _ Hrest). cbn [rev]. rewrite <- app_assoc. destruct kv. reflexivity.
Qed.

(** Writing pairs of good keys and values one to a line as [key=value]
    and parsing the text gives every key the latest value written for
    it, and no other key a value. *)
Theorem parseInformationFromFile_round_trip (pairs : list (string * string)) :
  forallb good pairs = true ->
  exists answers : Prompt.Answers,
    Prompt.parseInformationFromFile file
      (Some (Prompt.joinLines (map lineOf pairs))) = Done answers
    /\ forall key, Prompt.getOwn key answers = Prompt.lastValue key pairs.
Proof.
  intros H.
  assert (Hnl : Forall (fun x => Js.hasChar nl x = false) (map lineOf pairs)).
  { apply Forall_forall. intros x Hx. apply in_map_iff in Hx as (kv & <- & Hkv).
    assert (Hg : good kv = true) by (apply (proj1 (forallb_forall _ _) H); exact Hkv).
    apply good_elim in Hg as (_ & _ & _ & Hknl & Hvnl & _).
    cbv beta. rewrite hasChar_pair, Hknl, Hvnl. reflexivity. }
  rewrite (parse_joinLines _ Hnl), (fold_parse_pairs _ _ H), app_nil_r.
  eexists. split; [reflexivity|]. intros key. apply getOwn_rev.
Qed.

End PromptFile.

Lemma parseInformationFromFile_line_witness :
  Prompt.parseInformationFromFile "answers.txt" (Some " az_sp_id = a=b=c ")
  = Done [("az_sp_id", "a=b=c")].
Proof.
  apply (parseInformationFromFile_line "answers.txt" " az_sp_id " " a=b=c ");
    try reflexivity.
  discriminate.
Defined.

Lemma parseInformationFromFile_skips_witness :
  Prompt.parseInformationFromFile "answers.txt"
    (Some (Prompt.joinLines ["azdo_org_name=org"; "   "; "no equals sign"; "azdo_pat=x"]))
  = Prompt.parseInformationFromFile "answers.txt"
      (Some (Prompt.joinLines ["azdo_org_name=org"; "   "; "azdo_pat=x"])).
Proof.
  apply (parseInformationFromFile_skips "answers.txt" ["azdo_org_name=org"; "   "]
           ["azdo_pat=x"] "no equals sign").
  - repeat constructor.
  - right. reflexivity.
Defined.

Lemma parseInformationFromFile_round_trip_witness :
  exists answers : Prompt.Answers,
    Prompt.parseInformationFromFile "answers.txt"
      (Some (Prompt.joinLines ["azdo_org_name=org"; "azdo_pat=x"; "azdo_org_name=org2"]))
    = Done answers
    /\ Prompt.getOwn "azdo_org_name" answers = Some "org2"
    /\ Prompt.getOwn "azdo_pat" answers = Some "x"
    /\ Prompt.getOwn "az_acr_name" answers = None.
Proof.
  destruct (parseInformationFromFile_round_trip "answers.txt"
              [("azdo_org_name", "org"); ("azdo_pat", "x"); ("azdo_org_name", "org2")]
              eq_refl) as (answers & Hparse & Hget).
  exists answers. split; [exact Hparse|].
  split; [|split]; rewrite Hget; reflexivity.
Defined.

(** ** The answers that are checked *)

Section AnswerFile.

Variables validateOrgName validateProjectName validateAccessToken validateACRName
  : option string -> option string.
Variables DEFAULT_PROJECT_NAME ACR_NAME WORKSPACE : string.
Variables file : string.
Variable content : option string.

Local Abbreviation answerWith v5 v6 v7 v8 :=
  (Prompt.getAnswerFromFile validateOrgName validateProjectName validateAccessToken
     validateACRName v5 v6 v7 v8 DEFAULT_PROJECT_NAME ACR_NAME WORKSPACE file content).

Lemma getOwn_after_project (key : string) (answers : Prompt.Answers) (v : string) :
  String.eqb "azdo_project_name" key = false ->
  Prompt.getOwn key (Prompt.assign "azdo_project_name" v answers)
  = Prompt.getOwn key answers.
Proof.
  intros H. unfold Prompt.assign.
  change (String.eqb "azdo_project_name" "__proto__") with false.
  cbn [Prompt.getOwn]. now rewrite H.
Qed.

Ltac other_keys :=
  repeat match goal with
         | |- context [Prompt.getOwn ?k (Prompt.assign "azdo_project_name" ?v ?a)] =>
             rewrite (getOwn_after_project k a v) by reflexivity
         end.

(** When the file does not set [az_create_app] to [true], the entries
    for the service principal and the subscription are not checked: the
    outcome is the same whatever their validators say. If the file is
    accepted, the request context asks for no app repository, has no
    subscription id and no decision on the service principal, holds the
    project name and registry name of the file or, when the file has
    none or an empty one, the defaults, and holds the service principal
    entries as the file has them. *)
Theorem getAnswerFromFile_without_app_repo (answers : Prompt.Answers)
    (v5 v6 v7 v8 v5' v6' v7' v8' : option string -> option string) :
  Prompt.parseInformationFromFile file content = Done answers ->
  Prompt.getOwn "az_create_app" answers <> Some "true" ->
  answerWith v5 v6 v7 v8 = answerWith v5' v6' v7' v8'
  /\ forall rc, answerWith v5 v6 v7 v8 = Done rc ->
       Prompt.toCreateAppRepo rc = Some false
       /\ Prompt.toCreateSP rc = None
       /\ Prompt.subscriptionId rc = None
       /\ Prompt.projectName rc
          = Some (Prompt.orElse (Prompt.getOwn "azdo_project_name" answers)
                    DEFAULT_PROJECT_NAME)
       /\ Prompt.acrName rc = Prompt.orElse (Prompt.getOwn "az_acr_name" answers) ACR_NAME
       /\ Prompt.workspace rc = WORKSPACE
       /\ Prompt.servicePrincipalId rc = Prompt.getOwn "az_sp_id" answers
       /\ Prompt.servicePrincipalPassword rc = Prompt.getOwn "az_sp_password" answers
       /\ Prompt.servicePrincipalTenantId rc = Prompt.getOwn "az_sp_tenant" answers.
Proof.
  intros Hparse Happ.
  assert (Hfalse : Prompt.isTrue (Prompt.getOwn "az_create_app" answers) = false).
  { unfold Prompt.isTrue. destruct (Prompt.getOwn "az_create_app" answers) as [s|];
      [|reflexivity].
    destruct (String.eqb_spec s "true") as [->|]; [now contradiction Happ|reflexivity]. }
  unfold Prompt.getAnswerFromFile, Prompt.validationServicePrincipalInfoFromFile.
  rewrite Hparse. cbv zeta. cbn [Prompt.toCreateAppRepo]. other_keys.
  destruct (validateOrgName _); [split; [reflexivity|discriminate]|].
  destruct (validateProjectName _); [split; [reflexivity|discriminate]|].
  destruct (validateAccessToken _); [split; [reflexivity|discriminate]|].
  destruct (validateACRName _); [split; [reflexivity|discriminate]|].
  rewrite Hfalse.
  split; [reflexivity|]. intros rc Hrc. injection Hrc as <-.
  cbn [Prompt.toCreateAppRepo Prompt.toCreateSP Prompt.subscriptionId
       Prompt.projectName Prompt.acrName Prompt.workspace Prompt.servicePrincipalId
       Prompt.servicePrincipalPassword Prompt.servicePrincipalTenantId].
  repeat split.
Qed.

(** When the file sets both [az_create_app] and [az_create_sp] to
    [true], the three entries of the service principal are not checked,
    and the subscription id is: the outcome is the same whatever the
    three validators say, and a file that is accepted gives a request
    context whose subscription id is the entry of the file, which its
    validator has let through. *)
Theorem getAnswerFromFile_creating_principal (answers : Prompt.Answers)
    (v5 v6 v7 v8 v5' v6' v7' : option string -> option string) :
  Prompt.parseInformationFromFile file content = Done answers ->
  Prompt.getOwn "az_create_app" answers = Some "true" ->
  Prompt.getOwn "az_create_sp" answers = Some "true" ->
  answerWith v5 v6 v7 v8 = answerWith v5' v6' v7' v8
  /\ forall rc, answerWith v5 v6 v7 v8 = Done rc ->
       Prompt.toCreateAppRepo rc = Some true
       /\ Prompt.toCreateSP rc = Some true
       /\ Prompt.subscriptionId rc = Prompt.getOwn "az_subscription_id" answers
       /\ v8 (Prompt.getOwn "az_subscription_id" answers) = None.
Proof.
  intros Hparse Happ Hsp.
  unfold Prompt.getAnswerFromFile, Prompt.validationServicePrincipalInfoFromFile.
  rewrite Hparse. cbv zeta. cbn [Prompt.toCreateAppRepo]. other_keys.
  destruct (validateOrgName _); [split; [reflexivity|discriminate]|].
  destruct (validateProjectName _); [split; [reflexivity|discriminate]|].
  destruct (validateAccessToken _); [split; [reflexivity|discriminate]|].
  destruct (validateACRName _); [split; [reflexivity|discriminate]|].
  rewrite Happ, Hsp. cbn [Prompt.isTrue String.eqb Ascii.eqb Bool.eqb negb].
  split; [reflexivity|]. intros rc.
  destruct (v8 (Prompt.getOwn "az_subscription_id" answers)) eqn:E8;
    [discriminate|].
  intros Hrc. injection Hrc as <-. now repeat split.
Qed.

End AnswerFile.

Lemma getAnswerFromFile_without_app_repo_witness :
  exists rc : Prompt.RequestContext,
    Prompt.getAnswerFromFile (wantsValue "org") (wantsValue "project")
      (wantsValue "token") (wantsValue "acr") (refuses "id") (refuses "password")
      (refuses "tenant") (refuses "subscription") "BedrockRocks" "quickStartACR"
      "workspace" "answers.txt" (Some (Prompt.joinLines answersNoRepo)) = Done rc
    /\ Prompt.toCreateAppRepo rc = Some false
    /\ Prompt.projectName rc = Some "BedrockRocks"
    /\ Prompt.acrName rc = "quickStartACR"
    /\ Prompt.servicePrincipalId rc = Some "not-checked".
Proof.
  pose (out := Prompt.getAnswerFromFile (wantsValue "org") (wantsValue "project")
      (wantsValue "token") (wantsValue "acr") (refuses "id") (refuses "password")
      (refuses "tenant") (refuses "subscription") "BedrockRocks" "quickStartACR"
      "workspace" "answers.txt" (Some (Prompt.joinLines answersNoRepo))).
  pose (rc := match out with
              | Done rc => rc
              | Thrown _ => Prompt.mkRequestContext None None None None None None
                              "" "" None None None
              end).
  destruct (getAnswerFromFile_without_app_repo (wantsValue "org") (wantsValue "project")
              (wantsValue "token") (wantsValue "acr") "BedrockRocks" "quickStartACR"
              "workspace" "answers.txt" (Some (Prompt.joinLines answersNoRepo))
              [("az_sp_id", "not-checked"); ("az_create_app", "false");
               ("azdo_pat", "token"); ("azdo_org_name", "org")]
              (refuses "id") (refuses "password") (refuses "tenant")
              (refuses "subscription") (refuses "id") (refuses "password")
              (refuses "tenant") (refuses "subscription") eq_refl
              ltac:(discriminate)) as [_ H].
  destruct (H rc eq_refl) as (Happ & _ & _ & Hproj & Hacr & _ & Hid & _).
  exists rc. split; [reflexivity|]. repeat split; assumption.
Defined.

Lemma getAnswerFromFile_creating_principal_witness :
  exists rc : Prompt.RequestContext,
    Prompt.getAnswerFromFile (wantsValue "org") (wantsValue "project")
      (wantsValue "token") (wantsValue "acr") (refuses "id") (refuses "password")
      (refuses "tenant") (wantsValue "subscription") "BedrockRocks" "quickStartACR"
      "workspace" "answers.txt" (Some (Prompt.joinLines answersNewPrincipal)) = Done rc
    /\ Prompt.toCreateSP rc = Some true
    /\ Prompt.subscriptionId rc = Some "sub-1".
Proof.
  pose (out := Prompt.getAnswerFromFile (wantsValue "org") (wantsValue "project")
      (wantsValue "token") (wantsValue "acr") (refuses "id") (refuses "password")
      (refuses "tenant") (wantsValue "subscription") "BedrockRocks" "quickStartACR"
      "workspace" "answers.txt" (Some (Prompt.joinLines answersNewPrincipal))).
  pose (rc := match out with
              | Done rc => rc
              | Thrown _ => Prompt.mkRequestContext None None None None None None
                              "" "" None None None
              end).
  destruct (getAnswerFromFile_creating_principal (wantsValue "org")
              (wantsValue "project") (wantsValue "token") (wantsValue "acr")
              "BedrockRocks" "quickStartACR" "workspace" "answers.txt"
              (Some (Prompt.joinLines answersNewPrincipal))
              [("az_subscription_id", "sub-1"); ("az_create_sp", "true");
               ("az_create_app", "true"); ("azdo_project_name", "proj");
               ("azdo_pat", "token"); ("azdo_org_name", "org")]
              (refuses "id") (refuses "password") (refuses "tenant")
              (wantsValue "subscription") (refuses "id") (refuses "password")
              (refuses "tenant") eq_refl eq_refl eq_refl) as [_ H].
  destruct (H rc eq_refl) as (_ & Hsp & Hsub & _).
  exists rc. split; [reflexivity|]. split; assumption.
Defined.

(** * Case normalization, resolver by resolver *)

(** Stage 3 as a whole keeps a normalized table normalized when the HLD
    commit id and the pull request id it is given are lower-case: its
    replace branch stores the two as given, its other branches lower-case
    them. The casing of the run id, the manifest commit and the
    repository does not matter. *)
Theorem updateHLDToManifestPipeline_normalized (tableInfo : DeploymentTable)
    (uuid hld pipelineId : string) (manifestCommit prId repository : option string)
    (t : Table) :
  Js.isLowerCase hld = true -> lowerOpt prId = true ->
  normalizedTable t ->
  normalizedTable
    (snd (updateHLDToManifestPipeline tableInfo uuid hld pipelineId manifestCommit
            prId repository t)).
Proof.
  intros Hhld Hpr Ht. rewrite updateHLDToManifestPipeline_run.
  set (t1 := mkTable (rows t) _).
  assert (Ht1 : normalizedTable t1) by exact Ht.
  assert (Hcand : forall c,
             In c (hldToManifestCandidates tableInfo hld prId (rows t)) ->
             normalizedRow c = true).
  { intros c Hc. apply hldToManifestCandidates_In in Hc as (Hc & _).
    exact (proj1 (Forall_forall _ _) Ht c Hc). }
  destruct (hldToManifestCandidates tableInfo hld prId (rows t)) as [|c0 cs].
  - cbv zeta. apply normalized_insert; [|exact Ht1].
    unfold hldToManifestBlank. lower_fields.
  - destruct (find _ (c0 :: cs)) as [found|] eqn:Hfind.
    + apply find_some in Hfind as [Hin _].
      destruct (normalizedRow_elim _ (Hcand _ Hin))
        as (Henv & _ & _ & _ & Hsrc & Hrepo & _).
      apply lowerOpt_keepIfGiven in Hpr.
      change (lowerOpt (Some hld) = true) in Hhld.
      cbv zeta. apply normalized_replace; [|exact Ht1].
      unfold hldToManifestUpdated. lower_fields.
    + destruct (lastOf_cons c0 cs) as (l & -> & Hin).
      destruct (normalizedRow_elim _ (Hcand _ Hin))
        as (Henv & _ & _ & _ & Hsrc & Hrepo & _).
      cbv zeta. apply normalized_insert; [|exact Ht1].
      unfold hldToManifestCloned. lower_fields.
Qed.

Lemma updateHLDToManifestPipeline_normalized_witness :
  normalizedTable (snd stage2Demo)
  /\ normalizedTable
       (snd (updateHLDToManifestPipeline demoTable
               "7d444840-9dc0-11d1-b245-5ffdce74fad2" "def456" "Run-303"
               (Some "0A1B2C") (Some "pr-9") (Some "HTTPS://Example/Manifests")
               (snd stage2Demo))).
Proof.
  assert (H : normalizedTable (snd stage2Demo)) by (repeat constructor).
  split; [exact H|].
  apply updateHLDToManifestPipeline_normalized; [reflexivity|reflexivity|exact H].
Defined.

Lemma updateACRToHLDPipeline_normalized_witness :
  normalizedTable (snd stage1Demo) /\ normalizedTable (snd stage2Demo).
Proof.
  assert (H : normalizedTable (snd stage1Demo)) by (repeat constructor).
  split; [exact H|].
  exact (updateACRToHLDPipeline_normalized demoTable
           "6ec0bd7f-11c0-43da-975e-2a8ad9ebae0b" "202" "hello-spk-master-1234"
           "DEF456" "QA" None None (snd stage1Demo) H).
Defined.

Lemma updateManifestCommitId_normalized_witness :
  normalizedTable (snd stage3LowerDemo)
  /\ fst (updateManifestCommitId demoTable "303" "0a1b2c"
            (Some "HTTPS://Example/Manifests") (snd stage3LowerDemo))
     = Ok (mkRow "hello-spk" "1b9d6bcdbbfd" "abc123" "hello-spk-master-1234"
                 "101" "svcA" None (Some "202") (Some "def456") (Some "qa")
                 (Some "pr-9") None (Some "303") (Some "0a1b2c")
                 (Some "https://example/manifests"))
  /\ normalizedTable
       (snd (updateManifestCommitId demoTable "303" "0a1b2c"
               (Some "HTTPS://Example/Manifests") (snd stage3LowerDemo))).
Proof.
  assert (H : normalizedTable (snd stage3LowerDemo)) by (repeat constructor).
  split; [exact H|]. split; [reflexivity|].
  apply updateManifestCommitId_normalized; [reflexivity|exact H].
Defined.
